(** * Connection core of the proxy: src/connection.c

    A shallow embedding of [conn_fd_handler], [conn_update_data_polling],
    [conn_update_sock_polling], [conn_recv_proxy] and [make_proxy_line],
    and the properties of them that the specification states.

    Conventions.
    - An [unsigned int] is a [Z]; the flag word is handled with [Z.land],
      [Z.lor], [Z.lxor] and [Z.lnot], as the C code does with [&], [|],
      [^] and [~].
    - A [char] buffer is a [list Z] of byte values and a pointer into it is
      its offset, a [Z].
    - A field that holds an integer in network byte order ([sin_port],
      [sin_addr]) is modelled by its bytes in memory, so nothing depends on
      the endianness of the host. *)

From Stdlib Require Import ZArith List Lia Bool String Ascii.
Import ListNotations.
Local Open Scope Z_scope.
Local Abbreviation length := List.length.

(* ================================================================== *)
(** * The flag word *)

(** The names of the single-bit flags of [conn->flags] used by
    connection.c. *)
Inductive co_flag : Type :=
| F_SOCK_RD_ENA | F_DATA_RD_ENA | F_CURR_RD_ENA
| F_SOCK_WR_ENA | F_DATA_WR_ENA | F_CURR_WR_ENA
| F_WAIT_DATA | F_WAIT_ROOM
| F_ADDR_FROM_SET | F_ADDR_TO_SET
| F_INIT_DATA | F_WAKE_DATA
| F_SOCK_RD_SH | F_SOCK_WR_SH
| F_ERROR | F_CONNECTED | F_WAIT_L4_CONN | F_WAIT_L6_CONN
| F_SEND_PROXY | F_SSL_WAIT_HS | F_ACCEPT_PROXY.

Definition co_flag_eq_dec (x y : co_flag) : {x = y} + {x <> y}.
Proof. decide equality. Defined.

Definition co_flag_eqb (x y : co_flag) : bool :=
  if co_flag_eq_dec x y then true else false.

(** Modelled from the spec: the values of the [CO_FL_*] constants are
    declared in types/connection.h, which is not part of the sources at
    hand.  The spec (3.2) says that the flags "are independent bits of one
    word", so a layout gives the bit position of every flag.  The masks
    [CO_FL_CONN_STATE] and [CO_FL_POLL_SOCK] are left as parameters of the
    layout: nothing is assumed about them unless a theorem says so. *)
Class co_layout : Type := {
  co_bit : co_flag -> Z;
  CO_FL_CONN_STATE : Z;
  CO_FL_POLL_SOCK : Z
}.

(** A layout is well formed when the flags are distinct bits of a 32-bit
    word. *)
Record layout_ok (L : co_layout) : Prop := {
  co_bit_range : forall x, 0 <= co_bit x < 32;
  co_bit_inj : forall x y, co_bit x = co_bit y -> x = y
}.

Section Flags.
Context {L : co_layout}.

Definition CO_FL (x : co_flag) : Z := 2 ^ co_bit x.

Definition CO_FL_SOCK_RD_ENA := CO_FL F_SOCK_RD_ENA.
Definition CO_FL_DATA_RD_ENA := CO_FL F_DATA_RD_ENA.
Definition CO_FL_CURR_RD_ENA := CO_FL F_CURR_RD_ENA.
Definition CO_FL_SOCK_WR_ENA := CO_FL F_SOCK_WR_ENA.
Definition CO_FL_DATA_WR_ENA := CO_FL F_DATA_WR_ENA.
Definition CO_FL_CURR_WR_ENA := CO_FL F_CURR_WR_ENA.
Definition CO_FL_WAIT_DATA := CO_FL F_WAIT_DATA.
Definition CO_FL_WAIT_ROOM := CO_FL F_WAIT_ROOM.
Definition CO_FL_ADDR_FROM_SET := CO_FL F_ADDR_FROM_SET.
Definition CO_FL_ADDR_TO_SET := CO_FL F_ADDR_TO_SET.
Definition CO_FL_INIT_DATA := CO_FL F_INIT_DATA.
Definition CO_FL_WAKE_DATA := CO_FL F_WAKE_DATA.
Definition CO_FL_SOCK_RD_SH := CO_FL F_SOCK_RD_SH.
Definition CO_FL_SOCK_WR_SH := CO_FL F_SOCK_WR_SH.
Definition CO_FL_ERROR := CO_FL F_ERROR.
Definition CO_FL_CONNECTED := CO_FL F_CONNECTED.
Definition CO_FL_WAIT_L4_CONN := CO_FL F_WAIT_L4_CONN.
Definition CO_FL_WAIT_L6_CONN := CO_FL F_WAIT_L6_CONN.
Definition CO_FL_SEND_PROXY := CO_FL F_SEND_PROXY.
Definition CO_FL_SSL_WAIT_HS := CO_FL F_SSL_WAIT_HS.
Definition CO_FL_ACCEPT_PROXY := CO_FL F_ACCEPT_PROXY.

(** Modelled from the spec: [CO_FL_HANDSHAKE] (types/connection.h) is "a
    mask [HANDSHAKE] = bitwise-or of all of" [ACCEPT_PROXY], [SEND_PROXY]
    and [SSL_WAIT_HS]. *)
Definition CO_FL_HANDSHAKE : Z :=
  Z.lor CO_FL_SEND_PROXY (Z.lor CO_FL_SSL_WAIT_HS CO_FL_ACCEPT_PROXY).

(** [flag_on f x]: bit [x] of the flag word [f] is set. *)
Definition flag_on (f : Z) (x : co_flag) : bool := Z.testbit f (co_bit x).

End Flags.

(** A layout to run the model on concrete connections: the bit positions
    and the two masks are those of types/connection.h in HAProxy 1.5. *)
Definition haproxy_bit (x : co_flag) : Z :=
  match x with
  | F_SOCK_RD_ENA => 0 | F_DATA_RD_ENA => 1 | F_CURR_RD_ENA => 2
  | F_WAIT_ROOM => 3
  | F_SOCK_WR_ENA => 4 | F_DATA_WR_ENA => 5 | F_CURR_WR_ENA => 6
  | F_WAIT_DATA => 7
  | F_ADDR_FROM_SET => 12 | F_ADDR_TO_SET => 13
  | F_INIT_DATA => 14 | F_WAKE_DATA => 15
  | F_SOCK_RD_SH => 18 | F_SOCK_WR_SH => 19
  | F_ERROR => 20 | F_CONNECTED => 21 | F_WAIT_L4_CONN => 22
  | F_WAIT_L6_CONN => 23
  | F_SEND_PROXY => 24 | F_SSL_WAIT_HS => 25 | F_ACCEPT_PROXY => 26
  end.

Definition haproxy_layout : co_layout := {|
  co_bit := haproxy_bit;
  CO_FL_CONN_STATE := 0x00FF0000;
  CO_FL_POLL_SOCK := 0x07C00000
|}.


(* ================================================================== *)
(** * Connection record and poller commands *)

(** [conn->err_code]: the PROXY error causes set by connection.c
    ([CO_ER_NONE] stands for "no error recorded"). *)
Inductive co_err : Type :=
| CO_ER_NONE
| CO_ER_PRX_EMPTY | CO_ER_PRX_ABORT | CO_ER_PRX_TRUNCATED
| CO_ER_PRX_NOT_HDR | CO_ER_PRX_BAD_HDR | CO_ER_PRX_BAD_PROTO.

(** Address families of <sys/socket.h> (Linux values). *)
Definition AF_INET : Z := 2.
Definition AF_INET6 : Z := 10.

(** [struct sockaddr_storage], seen through the casts to [sockaddr_in] and
    [sockaddr_in6] that connection.c uses.  [sin_port] and [sin6_port] are
    the same two bytes; [sin_addr] is 4 bytes and [sin6_addr] 16 bytes, all
    in network order. *)
Record sockaddr_storage : Type := {
  ss_family : Z;
  sin_port : list Z;
  sin_addr : list Z;
  sin6_addr : list Z
}.

Record connection : Type := {
  flags : Z;
  err_code : co_err;
  xprt : bool;                 (* conn->xprt != NULL *)
  sock_fd : Z;                 (* conn->t.sock.fd *)
  addr_from : sockaddr_storage;
  addr_to : sockaddr_storage
}.

Definition set_flags (c : connection) (f : Z) : connection :=
  {| flags := f; err_code := err_code c; xprt := xprt c; sock_fd := sock_fd c;
     addr_from := addr_from c; addr_to := addr_to c |}.

Definition set_err_code (c : connection) (e : co_err) : connection :=
  {| flags := flags c; err_code := e; xprt := xprt c; sock_fd := sock_fd c;
     addr_from := addr_from c; addr_to := addr_to c |}.

Definition set_addr_from (c : connection) (a : sockaddr_storage) : connection :=
  {| flags := flags c; err_code := err_code c; xprt := xprt c;
     sock_fd := sock_fd c; addr_from := a; addr_to := addr_to c |}.

Definition set_addr_to (c : connection) (a : sockaddr_storage) : connection :=
  {| flags := flags c; err_code := err_code c; xprt := xprt c;
     sock_fd := sock_fd c; addr_from := addr_from c; addr_to := a |}.

(** The commands that the reconciler sends to the poller, with the file
    descriptor they are about. *)
Inductive poll_cmd : Type :=
| fd_want_recv (fd : Z)
| fd_stop_recv (fd : Z)
| fd_want_send (fd : Z)
| fd_stop_send (fd : Z).

(** Modelled from the spec: [conn_ctrl_ready] is declared in
    proto/connection.h, which is not part of the sources at hand; the spec
    only says that a control-ready connection "has a live fd".  It is a
    parameter: any predicate on the connection. *)
Class ctrl_layer : Type := {
  conn_ctrl_ready : connection -> bool
}.

(* ================================================================== *)
(** * The poll reconciler *)

Section Reconciler.
Context {L : co_layout} {CL : ctrl_layer}.

(** [conn_update_data_polling] (connection.c, lines 156-183).  The result
    is the connection after the call and the poller commands issued, in
    order. *)
Definition conn_update_data_polling (c : connection)
  : connection * list poll_cmd :=
  let f := flags c in
  if negb (conn_ctrl_ready c) then (c, []) else
  (* update read status if needed *)
  let '(f, rd) :=
    if Z.land f (Z.lor CO_FL_CURR_RD_ENA CO_FL_DATA_RD_ENA) =? CO_FL_DATA_RD_ENA
    then (Z.lor f CO_FL_CURR_RD_ENA, [fd_want_recv (sock_fd c)])
    else if Z.land f (Z.lor CO_FL_CURR_RD_ENA CO_FL_DATA_RD_ENA) =? CO_FL_CURR_RD_ENA
    then (Z.land f (Z.lnot CO_FL_CURR_RD_ENA), [fd_stop_recv (sock_fd c)])
    else (f, []) in
  (* update write status if needed *)
  let '(f, wr) :=
    if Z.land f (Z.lor CO_FL_CURR_WR_ENA CO_FL_DATA_WR_ENA) =? CO_FL_DATA_WR_ENA
    then (Z.lor f CO_FL_CURR_WR_ENA, [fd_want_send (sock_fd c)])
    else if Z.land f (Z.lor CO_FL_CURR_WR_ENA CO_FL_DATA_WR_ENA) =? CO_FL_CURR_WR_ENA
    then (Z.land f (Z.lnot CO_FL_CURR_WR_ENA), [fd_stop_send (sock_fd c)])
    else (f, []) in
  (set_flags c f, rd ++ wr).

(** [conn_update_sock_polling] (connection.c, lines 191-218). *)
Definition conn_update_sock_polling (c : connection)
  : connection * list poll_cmd :=
  let f := flags c in
  if negb (conn_ctrl_ready c) then (c, []) else
  (* update read status if needed *)
  let '(f, rd) :=
    if Z.land f (Z.lor CO_FL_CURR_RD_ENA CO_FL_SOCK_RD_ENA) =? CO_FL_SOCK_RD_ENA
    then (Z.lor f CO_FL_CURR_RD_ENA, [fd_want_recv (sock_fd c)])
    else if Z.land f (Z.lor CO_FL_CURR_RD_ENA CO_FL_SOCK_RD_ENA) =? CO_FL_CURR_RD_ENA
    then (Z.land f (Z.lnot CO_FL_CURR_RD_ENA), [fd_stop_recv (sock_fd c)])
    else (f, []) in
  (* update write status if needed *)
  let '(f, wr) :=
    if Z.land f (Z.lor CO_FL_CURR_WR_ENA CO_FL_SOCK_WR_ENA) =? CO_FL_SOCK_WR_ENA
    then (Z.lor f CO_FL_CURR_WR_ENA, [fd_want_send (sock_fd c)])
    else if Z.land f (Z.lor CO_FL_CURR_WR_ENA CO_FL_SOCK_WR_ENA) =? CO_FL_CURR_WR_ENA
    then (Z.land f (Z.lnot CO_FL_CURR_WR_ENA), [fd_stop_send (sock_fd c)])
    else (f, []) in
  (set_flags c f, rd ++ wr).

(** The shape that the four updates of the two reconcilers share, on which
    their property is proved once: the test of one direction on the flags
    [f], for the current bit [curr] and the desire bit [desire]. *)
Definition reconcile_dir (f : Z) (want stop : poll_cmd) (curr desire : co_flag)
  : Z * list poll_cmd :=
  if Z.land f (Z.lor (CO_FL curr) (CO_FL desire)) =? CO_FL desire
  then (Z.lor f (CO_FL curr), [want])
  else if Z.land f (Z.lor (CO_FL curr) (CO_FL desire)) =? CO_FL curr
  then (Z.land f (Z.lnot (CO_FL curr)), [stop])
  else (f, []).

(** What the spec (4.2) asks of one direction, in its own words: from the
    desired bit [d] and the current bit [c], the command to issue (if any)
    and the new value of the current bit. *)
Definition reconcile_cmds (d c : bool) (want stop : poll_cmd) : list poll_cmd :=
  if d && negb c then [want]
  else if negb d && c then [stop]
  else [].

Definition reconcile_curr (d c : bool) : bool :=
  if d && negb c then true
  else if negb d && c then false
  else c.

(** One call of a reconciler on [c], for the desire bits [drd] and [dwr],
    gave [r]: the commands are those the spec asks for each direction, taken
    on the flags on entry; the two [CURR] bits are updated accordingly and
    nothing else of the connection changes. *)
Definition polling_reconciled (drd dwr : co_flag) (c : connection)
  (r : connection * list poll_cmd) : Prop :=
  let f := flags c in
  let f' := flags (fst r) in
  snd r =
    reconcile_cmds (flag_on f drd) (flag_on f F_CURR_RD_ENA)
      (fd_want_recv (sock_fd c)) (fd_stop_recv (sock_fd c)) ++
    reconcile_cmds (flag_on f dwr) (flag_on f F_CURR_WR_ENA)
      (fd_want_send (sock_fd c)) (fd_stop_send (sock_fd c))
  /\ flag_on f' F_CURR_RD_ENA =
       reconcile_curr (flag_on f drd) (flag_on f F_CURR_RD_ENA)
  /\ flag_on f' F_CURR_WR_ENA =
       reconcile_curr (flag_on f dwr) (flag_on f F_CURR_WR_ENA)
  /\ (forall n, 0 <= n -> n <> co_bit F_CURR_RD_ENA ->
        n <> co_bit F_CURR_WR_ENA -> Z.testbit f' n = Z.testbit f n)
  /\ fst r = set_flags c f'.

End Reconciler.

(* ================================================================== *)
(** * Bytes, buffers and C expressions *)

(** The bytes of a string literal. *)
Definition bytes (s : string) : list Z :=
  map (fun a => Z.of_nat (nat_of_ascii a)) (list_ascii_of_string s).

(** [*p] and [*p = v] for a pointer [p] into the buffer [buf]. *)
Definition deref (buf : list Z) (p : Z) : Z := nth (Z.to_nat p) buf 0.

Definition store (buf : list Z) (p : Z) (v : Z) : list Z :=
  if (0 <=? p) && (p <? Z.of_nat (length buf))
  then firstn (Z.to_nat p) buf ++ v :: skipn (S (Z.to_nat p)) buf
  else buf.

(** [holds buf p l]: the bytes [l] are in [buf] from the offset [p] on. *)
Definition holds (buf : list Z) (p : Z) (l : list Z) : Prop :=
  0 <= p /\ Z.of_nat (length l) + p <= Z.of_nat (length buf) /\
  forall i, (i < length l)%nat -> deref buf (p + Z.of_nat i) = nth i l 0.

(** Decimal text: the digits '0'..'9', and the number that a string of
    digits denotes. *)
Definition is_digit (d : Z) : Prop := 48 <= d <= 57.

Definition dec_value (ds : list Z) : Z :=
  fold_left (fun i d => i * 10 + (d - 48)) ds 0.

(** What stops [read_uint] after the digits: the limit [end_], or a byte
    that is not a digit. *)
Definition stops_at (buf : list Z) (q end_ : Z) : Prop :=
  q = end_ \/ (q < end_ /\ 0 <= deref buf q < 256 /\ ~ is_digit (deref buf q)).

(** A field of a PROXY line: text without space, CR or NUL. *)
Definition is_field (l : list Z) : Prop :=
  Forall (fun x => x <> 32 /\ x <> 13 /\ x <> 0) l.

(** The bytes from [p] on, and the C string that starts at [p]. *)
Definition from (buf : list Z) (p : Z) : list Z := skipn (Z.to_nat p) buf.

Fixpoint cstring (l : list Z) : list Z :=
  match l with
  | [] => []
  | x :: l' => if x =? 0 then [] else x :: cstring l'
  end.

(** [unsigned int] arithmetic wraps. *)
Definition u32 (z : Z) : Z := z mod 2 ^ 32.

(** C truth values: [if (e)], [!e] and [a != b]. *)
Definition c_true (e : Z) : bool := negb (e =? 0).
Definition c_not (e : Z) : Z := if e =? 0 then 1 else 0.
Definition c_ne (a b : Z) : Z := if a =? b then 0 else 1.

(** libc [memcmp] on the first [n] bytes: zero when they are equal, else the
    difference of the first pair of bytes that differ. *)
Fixpoint memcmp (a b : list Z) (n : nat) : Z :=
  match n with
  | O => 0
  | S n' =>
      let x := hd 0 a in
      let y := hd 0 b in
      if x =? y then memcmp (tl a) (tl b) n' else x - y
  end.

(** libc [strncmp]: as [memcmp], but it also stops after a NUL. *)
Fixpoint strncmp (a b : list Z) (n : nat) : Z :=
  match n with
  | O => 0
  | S n' =>
      let x := hd 0 a in
      let y := hd 0 b in
      if x =? y then (if x =? 0 then 0 else strncmp (tl a) (tl b) n')
      else x - y
  end.

(** [htons] and [htonl], giving the bytes in memory (big endian) of a
    16-bit and of a 32-bit value; the argument of [htons] is converted to
    [uint16_t] first.  [ntohs] reads two such bytes back. *)
Definition htons (x : Z) : list Z := [(x / 2 ^ 8) mod 2 ^ 8; x mod 2 ^ 8].

Definition htonl (x : Z) : list Z :=
  [(x / 2 ^ 24) mod 2 ^ 8; (x / 2 ^ 16) mod 2 ^ 8; (x / 2 ^ 8) mod 2 ^ 8;
   x mod 2 ^ 8].

Definition ntohs (b : list Z) : Z :=
  match b with
  | [hi; lo] => hi * 2 ^ 8 + lo
  | _ => 0
  end.

(** libc [printf("%u")]: the decimal digits of an [unsigned int], most
    significant first and without leading zeros (ten digits at most). *)
Fixpoint utoa_aux (fuel : nat) (n : Z) (acc : list Z) : list Z :=
  match fuel with
  | O => acc
  | S fuel' =>
      let acc' := (48 + n mod 10) :: acc in
      if n <? 10 then acc' else utoa_aux fuel' (n / 10) acc'
  end.

Definition utoa (n : Z) : list Z := utoa_aux 10 n [].

(** libc [snprintf(buf, size, ...)] for an output that expands to [s]: it
    returns the length of [s] and writes what fits in [size - 1] bytes.
    The parameter [size] is a [size_t]: an [int] that is negative, as
    [buf_len - ret] may be in [make_proxy_line], converts to a value that
    is larger than any text written here, so that all of [s] is written. *)
Definition snprintf (size : Z) (s : list Z) : Z * list Z :=
  (Z.of_nat (length s),
   if size <? 0 then s else firstn (Z.to_nat (size - 1)) s).

(** The text forms of libc [inet_ntop]: dotted decimal for [AF_INET].  For
    [AF_INET6] the conversions of the C library are parameters. *)
Definition inet_ntop4 (a : list Z) : list Z :=
  match a with
  | [a1; a2; a3; a4] =>
      utoa a1 ++ [46] ++ utoa a2 ++ [46] ++ utoa a3 ++ [46] ++ utoa a4
  | _ => []
  end.

Class libc_inet6 : Type := {
  (* inet_pton(AF_INET6, text, &addr) == 1, and the 16 bytes it stores *)
  inet_pton6 : list Z -> option (list Z);
  (* the text that inet_ntop(AF_INET6, &addr, ...) produces *)
  inet_ntop6 : list Z -> list Z
}.

(** [inet_ntop(af, src, dst, size)] returns NULL when the text and its
    final NUL do not fit in [size] bytes. *)
Definition inet_ntop (text : list Z) (size : Z) : option (list Z) :=
  if size <? Z.of_nat (length text) + 1 then None else Some text.

(* ================================================================== *)
(** * Helpers of standard.c used by the PROXY parser *)

(** Modelled from the spec: [read_uint] is defined in common/standard.h,
    which is not part of the sources at hand.  The grammar of the spec
    (4.3) has a "port" in decimal text; the helper reads decimal digits
    from [*s] into an [unsigned int], stops at the first byte that is not a
    digit or at [end], and leaves [*s] on the first unread byte.  The result
    is the value and the new [*s]. *)
Fixpoint read_uint_loop (fuel : nat) (buf : list Z) (ptr end_ : Z) (i : Z)
  : Z * Z :=
  match fuel with
  | O => (i, ptr)
  | S fuel' =>
      if ptr <? end_ then
        let j := u32 (deref buf ptr - 48) in
        let k := u32 (i * 10) in
        if j >? 9 then (i, ptr)
        else read_uint_loop fuel' buf (ptr + 1) end_ (u32 (k + j))
      else (i, ptr)
  end.

Definition read_uint (buf : list Z) (s end_ : Z) : Z * Z :=
  read_uint_loop (Z.to_nat (end_ - s)) buf s end_ 0.

(** Modelled from the spec: [inetaddr_host_lim_ret] is defined in
    standard.c, which is not part of the sources at hand.  The grammar of
    the spec (4.3) has an "ip4" in "canonical textual form"; the helper
    reads at most four decimal components separated by dots, never reads
    at or after [stop], and gives the address in host byte order and the
    pointer to the first byte it did not parse.  A component that runs into
    [stop] is not counted. *)
Fixpoint inetaddr_loop (n : nat) (buf : list Z) (p stop : Z) (s : Z) (acc : Z)
  : Z * Z :=
  let '(v, q) := read_uint buf p stop in
  if stop <=? q then (acc, q)
  else
    let acc := u32 (acc + Z.shiftl v s) in
    match n with
    | O => (acc, q)
    | S n' =>
        if deref buf q =? 46 (* '.' *)
        then inetaddr_loop n' buf (q + 1) stop (s - 8) acc
        else (acc, q)
    end.

Definition inetaddr_host_lim_ret (buf : list Z) (text stop : Z) : Z * Z :=
  inetaddr_loop 3 buf text stop 24 0.

(* ================================================================== *)
(** * The world around a connection *)

(** The global [trash] chunk. *)
Record chunk : Type := {
  str : list Z;
  len : Z;
  size : Z
}.

(** What [recv] returns: -1 with [errno], or the number of bytes it copied
    into the buffer, with these bytes. *)
Inductive recv_ret : Type :=
| recv_fail (errno : Z)
| recv_ok (data : list Z).

Definition recv_len (r : recv_ret) : Z :=
  match r with
  | recv_fail _ => -1
  | recv_ok data => Z.of_nat (length data)
  end.

Definition recv_errno (r : recv_ret) : Z :=
  match r with
  | recv_fail e => e
  | recv_ok _ => 0
  end.

(** The buffer after [recv] wrote into it. *)
Definition recv_into (buf : list Z) (r : recv_ret) : list Z :=
  match r with
  | recv_fail _ => buf
  | recv_ok data => data ++ skipn (length data) buf
  end.

(** Values of <errno.h> and <sys/socket.h> (Linux). *)
Definition EINTR : Z := 4.
Definition EAGAIN : Z := 11.
Definition MSG_PEEK : Z := 2.

(** Everything the driver works on: the connection, the entry of its file
    descriptor in the fd table (owner, readiness as the poller reports it,
    events), the [trash] buffer, and the state [E] of what lies outside the
    connection core (the kernel, the data layer, ...). *)
Record world (E : Type) : Type := {
  w_conn : connection;
  w_owner : bool;              (* fdtab[fd].owner != NULL *)
  w_recv_ready : bool;
  w_send_ready : bool;
  w_ev : Z;                    (* fdtab[fd].ev *)
  w_trash : chunk;
  w_ext : E
}.
Arguments w_conn {E}.
Arguments w_owner {E}.
Arguments w_recv_ready {E}.
Arguments w_send_ready {E}.
Arguments w_ev {E}.
Arguments w_trash {E}.
Arguments w_ext {E}.

Section WorldUpdates.
Context {E : Type}.

Definition set_conn (w : world E) (c : connection) : world E :=
  {| w_conn := c; w_owner := w_owner w; w_recv_ready := w_recv_ready w;
     w_send_ready := w_send_ready w; w_ev := w_ev w; w_trash := w_trash w;
     w_ext := w_ext w |}.

Definition set_recv_ready (w : world E) (b : bool) : world E :=
  {| w_conn := w_conn w; w_owner := w_owner w; w_recv_ready := b;
     w_send_ready := w_send_ready w; w_ev := w_ev w; w_trash := w_trash w;
     w_ext := w_ext w |}.

Definition set_ev (w : world E) (ev : Z) : world E :=
  {| w_conn := w_conn w; w_owner := w_owner w; w_recv_ready := w_recv_ready w;
     w_send_ready := w_send_ready w; w_ev := ev; w_trash := w_trash w;
     w_ext := w_ext w |}.

Definition set_trash (w : world E) (t : chunk) : world E :=
  {| w_conn := w_conn w; w_owner := w_owner w; w_recv_ready := w_recv_ready w;
     w_send_ready := w_send_ready w; w_ev := w_ev w; w_trash := t;
     w_ext := w_ext w |}.

Definition set_ext (w : world E) (e : E) : world E :=
  {| w_conn := w_conn w; w_owner := w_owner w; w_recv_ready := w_recv_ready w;
     w_send_ready := w_send_ready w; w_ev := w_ev w; w_trash := w_trash w;
     w_ext := e |}.

(** Modelled from the spec: [fd_recv_ready], [fd_send_ready] and
    [fd_cant_recv] are declared in proto/fd.h, which is not part of the
    sources at hand.  They are the poller's "readiness predicates
    recv_ready(fd), send_ready(fd)" and "cant_recv (record that the kernel
    returned EAGAIN)", which clears "fd recv-ready" (spec 4.3 and 6). *)
Definition fd_recv_ready (w : world E) : bool := w_recv_ready w.
Definition fd_send_ready (w : world E) : bool := w_send_ready w.
Definition fd_cant_recv (w : world E) : world E := set_recv_ready w false.

End WorldUpdates.

(** The kernel: [sys_recv e fd n flags] is [recv(fd, buf, n, flags)] in the
    state [e]; it gives what [recv] returns and the state after the call.
    Any kernel will do: it is a parameter. *)
Class kernel (E : Type) : Type := {
  sys_recv : E -> Z -> Z -> Z -> recv_ret * E
}.

(* ================================================================== *)
(** * The PROXY protocol: [conn_recv_proxy] *)

(** The labels at the end of [conn_recv_proxy]. *)
Inductive label : Type :=
| L_missing | L_bad_header | L_recv_abort | L_fail.

(** The cause that each label records; [fail] keeps the one set before
    the jump. *)
Definition label_code (l : label) (before : co_err) : co_err :=
  match l with
  | L_missing => CO_ER_PRX_TRUNCATED
  | L_bad_header => CO_ER_PRX_BAD_HDR
  | L_recv_abort => CO_ER_PRX_ABORT
  | L_fail => before
  end.

(** How the parse of the peeked line ends: at a label, or with the
    connection updated and [line] after the final LF; in both cases with
    the buffer as the parse left it. *)
Inductive parsed : Type :=
| P_goto (l : label) (buf : list Z)
| P_done (c : connection) (buf : list Z) (line : Z).

Section RecvProxy.
Context {L : co_layout} {CL : ctrl_layer} {LC : libc_inet6}.

(** Modelled from the spec: [__conn_sock_stop_both] is declared in
    proto/connection.h, which is not part of the sources at hand.  It is the
    "stop both sock-read and sock-write" of the spec (4.1, step 5): the
    sock layer's desire bits [SOCK_RD_ENA] and [SOCK_WR_ENA] (3.2) are
    cleared. *)
Definition __conn_sock_stop_both (c : connection) : connection :=
  set_flags c
    (Z.land (flags c) (Z.lnot (Z.lor CO_FL_SOCK_WR_ENA CO_FL_SOCK_RD_ENA))).

(** The two tests on the protocol tag, lines 292 and 333, as C evaluates
    them. *)
Definition tcp4_test (buf : list Z) (line : Z) : Z :=
  c_ne (c_not (memcmp (from buf line) (bytes "TCP4 ") 5)) 0.

Definition tcp6_test (buf : list Z) (line : Z) : Z :=
  c_ne (c_not (memcmp (from buf line) (bytes "TCP6 ") 5)) 0.

(** The TCP4 branch, lines 293-331; [line] is the pointer after "PROXY ". *)
Definition parse_tcp4 (c : connection) (buf : list Z) (line end_ : Z) : parsed :=
  let line := line + 5 in
  let '(src3, line) := inetaddr_host_lim_ret buf line end_ in
  if line =? end_ then P_goto L_missing buf else
  if negb (deref buf line =? 32) then P_goto L_bad_header buf else
  let line := line + 1 in
  let '(dst3, line) := inetaddr_host_lim_ret buf line end_ in
  if line =? end_ then P_goto L_missing buf else
  if negb (deref buf line =? 32) then P_goto L_bad_header buf else
  let line := line + 1 in
  let '(sport, line) := read_uint buf line end_ in
  if line =? end_ then P_goto L_missing buf else
  if negb (deref buf line =? 32) then P_goto L_bad_header buf else
  let line := line + 1 in
  let '(dport, line) := read_uint buf line end_ in
  if line >? end_ - 2 then P_goto L_missing buf else
  if negb (deref buf line =? 13) then P_goto L_bad_header buf else
  let line := line + 1 in
  if negb (deref buf line =? 10) then P_goto L_bad_header buf else
  let line := line + 1 in
  (* update the session's addresses and mark them set *)
  let c := set_addr_from c
             {| ss_family := AF_INET; sin_port := htons sport;
                sin_addr := htonl src3;
                sin6_addr := sin6_addr (addr_from c) |} in
  let c := set_addr_to c
             {| ss_family := AF_INET; sin_port := htons dport;
                sin_addr := htonl dst3;
                sin6_addr := sin6_addr (addr_to c) |} in
  let c := set_flags c
             (Z.lor (flags c) (Z.lor CO_FL_ADDR_FROM_SET CO_FL_ADDR_TO_SET)) in
  P_done c buf line.

(** The scan of the TCP6 branch, lines 343-365: it ends at a label, or
    with [line] after the LF and the three field pointers; in both cases
    with the buffer, where the spaces and the CR met are overwritten with
    NUL. *)
Fixpoint tcp6_scan (fuel : nat) (buf : list Z) (line end_ : Z)
  (dst_s sport_s dport_s : option Z)
  : list Z * (label + (Z * option Z * option Z * option Z)) :=
  match fuel with
  | O => (buf, inl L_missing)
  | S fuel' =>
      if line >? end_ - 2 then (buf, inl L_missing)
      else if deref buf line =? 13 then
        let buf := store buf line 0 in
        let line := line + 1 in
        if negb (deref buf line =? 10) then (buf, inl L_bad_header)
        else (buf, inr (line + 1, dst_s, sport_s, dport_s))
      else if deref buf line =? 32 then
        let buf := store buf line 0 in
        match dst_s, sport_s, dport_s with
        | None, _, _ =>
            tcp6_scan fuel' buf (line + 1) end_ (Some (line + 1)) sport_s dport_s
        | Some _, None, _ =>
            tcp6_scan fuel' buf (line + 1) end_ dst_s (Some (line + 1)) dport_s
        | Some _, Some _, None =>
            tcp6_scan fuel' buf (line + 1) end_ dst_s sport_s (Some (line + 1))
        | Some _, Some _, Some _ =>
            tcp6_scan fuel' buf (line + 1) end_ dst_s sport_s dport_s
        end
      else tcp6_scan fuel' buf (line + 1) end_ dst_s sport_s dport_s
  end.

(** The TCP6 branch, lines 334-392. *)
Definition parse_tcp6 (c : connection) (buf : list Z) (line end_ : Z) : parsed :=
  let line := line + 5 in
  let src_s := line in
  match tcp6_scan (S (Z.to_nat (end_ - line))) buf line end_ None None None with
  | (buf, inl l) => P_goto l buf
  | (buf, inr (line, Some dst_s, Some sport_s, Some dport_s)) =>
      let '(sport, sport_s) := read_uint buf sport_s (dport_s - 1) in
      if negb (deref buf sport_s =? 0) then P_goto L_bad_header buf else
      let '(dport, dport_s) := read_uint buf dport_s (line - 2) in
      if negb (deref buf dport_s =? 0) then P_goto L_bad_header buf else
      match inet_pton6 (cstring (from buf src_s)) with
      | None => P_goto L_bad_header buf
      | Some src3 =>
          match inet_pton6 (cstring (from buf dst_s)) with
          | None => P_goto L_bad_header buf
          | Some dst3 =>
              (* update the session's addresses and mark them set *)
              let c := set_addr_from c
                         {| ss_family := AF_INET6; sin_port := htons sport;
                            sin_addr := sin_addr (addr_from c);
                            sin6_addr := src3 |} in
              let c := set_addr_to c
                         {| ss_family := AF_INET6; sin_port := htons dport;
                            sin_addr := sin_addr (addr_to c);
                            sin6_addr := dst3 |} in
              let c := set_flags c
                         (Z.lor (flags c)
                            (Z.lor CO_FL_ADDR_FROM_SET CO_FL_ADDR_TO_SET)) in
              P_done c buf line
          end
      end
  | (buf, inr _) => P_goto L_bad_header buf
  end.

Context {E : Type} {K : kernel E}.

(** The code at the labels, lines 416-437.  The result is what
    [conn_recv_proxy] returns and the world it leaves. *)
Definition proxy_fail (w : world E) : Z * world E :=
  let c := __conn_sock_stop_both (w_conn w) in
  let c := set_flags c (Z.lor (flags c) CO_FL_ERROR) in
  (0, set_conn w c).

Definition proxy_goto (l : label) (w : world E) : Z * world E :=
  match l with
  | L_missing =>
      proxy_fail (set_conn w (set_err_code (w_conn w) CO_ER_PRX_TRUNCATED))
  | L_bad_header =>
      proxy_fail (set_conn w (set_err_code (w_conn w) CO_ER_PRX_BAD_HDR))
  | L_recv_abort =>
      let c := set_err_code (w_conn w) CO_ER_PRX_ABORT in
      let c := set_flags c
                 (Z.lor (flags c) (Z.lor CO_FL_SOCK_RD_SH CO_FL_SOCK_WR_SH)) in
      proxy_fail (set_conn w c)
  | L_fail => proxy_fail w
  end.

(** Lines 270-398: what follows the peek, with [trash.len] what the peek
    returned, up to the end of the parse.  It ends at a label, with the
    result of [conn_recv_proxy] ([inl]), or with a header that is valid:
    the world, where the addresses are set, and [line], the pointer after
    the header ([inr]). *)
Definition proxy_header (w : world E) : (Z * world E) + (world E * Z) :=
  let trash := w_trash w in
  let c := w_conn w in
  if len trash =? 0 then
    (* client shutdown *)
    inl (proxy_goto L_fail (set_conn w (set_err_code c CO_ER_PRX_EMPTY)))
  else if len trash <? 6 then inl (proxy_goto L_missing w)
  else
    let line := 0 in
    let end_ := len trash in
    (* Decode a possible proxy request, fail early if it does not match *)
    if c_true (c_ne (strncmp (from (str trash) line) (bytes "PROXY ") 6) 0) then
      inl (proxy_goto L_fail (set_conn w (set_err_code c CO_ER_PRX_NOT_HDR)))
    else
      let line := line + 6 in
      if len trash <? 18 then inl (proxy_goto L_missing w)
      else
        let p :=
          if c_true (tcp4_test (str trash) line)
          then Some (parse_tcp4 c (str trash) line end_)
          else if c_true (tcp6_test (str trash) line)
          then Some (parse_tcp6 c (str trash) line end_)
          else None in
        match p with
        | None =>
            (* The protocol does not match something known (TCP4/TCP6) *)
            inl (proxy_goto L_fail
                   (set_conn w (set_err_code c CO_ER_PRX_BAD_PROTO)))
        | Some (P_goto l buf) =>
            inl (proxy_goto l
                   (set_trash w
                      {| str := buf; len := len trash; size := size trash |}))
        | Some (P_done c buf line) =>
            inr (set_trash (set_conn w c)
                   {| str := buf; len := len trash; size := size trash |},
                 line)
        end.

(** Lines 400-414: the line is read again, for good. *)
Definition proxy_reread (w : world E) (flag : Z) (line : Z) : Z * world E :=
  let fd := sock_fd (w_conn w) in
  let '(r, e) := sys_recv (w_ext w) fd line 0 in
  let w := set_ext w e in
  let w := set_trash w {| str := recv_into (str (w_trash w)) r; len := line;
                          size := size (w_trash w) |} in
  let len2 := recv_len r in
  if negb ((len2 <? 0) && (recv_errno r =? EINTR)) && negb (len2 =? line)
  then proxy_goto L_recv_abort w
  else
    let c := w_conn w in
    (1, set_conn w (set_flags c (Z.land (flags c) (Z.lnot flag)))).

(** Lines 270-414. *)
Definition proxy_parse (w : world E) (flag : Z) : Z * world E :=
  match proxy_header w with
  | inl r => r
  | inr (w, line) => proxy_reread w flag line
  end.

(** The world after the peek returned [r] and left the kernel in [e]. *)
Definition after_peek (w : world E) (r : recv_ret) (e : E) : world E :=
  set_trash (set_ext w e)
    {| str := recv_into (str (w_trash w)) r; len := recv_len r;
       size := size (w_trash w) |}.

(** [conn_recv_proxy], lines 243-438. *)
Definition conn_recv_proxy (w : world E) (flag : Z) : Z * world E :=
  (* we might have been called just after an asynchronous shutr *)
  if c_true (Z.land (flags (w_conn w)) CO_FL_SOCK_RD_SH) then proxy_goto L_fail w
  else if negb (conn_ctrl_ready (w_conn w)) then proxy_goto L_fail w
  else if negb (fd_recv_ready w) then (0, w)
  else
    let trash := w_trash w in
    let '(r, e) := sys_recv (w_ext w) (sock_fd (w_conn w)) (size trash) MSG_PEEK in
    let w := after_peek w r e in
    if recv_len r <? 0 then
      (* [continue] in a [do ... while (0)] leaves the loop *)
      if recv_errno r =? EINTR then proxy_parse w flag
      else if recv_errno r =? EAGAIN then (0, fd_cant_recv w)
      else proxy_goto L_recv_abort w
    else proxy_parse w flag.

(** [conn_recv_proxy] gets as far as the peek, which gives [data] and
    leaves the kernel in [e]. *)
Definition peeks (w : world E) (data : list Z) (e : E) : Prop :=
  flag_on (flags (w_conn w)) F_SOCK_RD_SH = false /\
  conn_ctrl_ready (w_conn w) = true /\
  fd_recv_ready w = true /\
  sys_recv (w_ext w) (sock_fd (w_conn w)) (size (w_trash w)) MSG_PEEK
  = (recv_ok data, e).

(** A failure of the handshake on the connection [c], with the cause
    [code]: [ERROR] is set and both directions of the sock layer's polling
    are stopped. *)
Definition proxy_failed (c : connection) (code : co_err) : Prop :=
  err_code c = code /\
  flag_on (flags c) F_ERROR = true /\
  flag_on (flags c) F_SOCK_RD_ENA = false /\
  flag_on (flags c) F_SOCK_WR_ENA = false.

End RecvProxy.

(* ================================================================== *)
(** * The PROXY protocol: [make_proxy_line] *)

Section MakeProxyLine.
Context {LC : libc_inet6}.

(** [make_proxy_line], lines 447-518.  [src] and [dst] may be null.  The
    result is what the function returns and what it wrote to [buf] (the
    final NUL left out). *)
Definition make_proxy_line (buf_len : Z) (src dst : option sockaddr_storage)
  : Z * list Z :=
  let unknown :=
    (* unknown family combination *)
    let '(ret, buf) := snprintf buf_len (bytes "PROXY UNKNOWN" ++ [13; 10]) in
    if ret >=? buf_len then (0, buf) else (ret, buf) in
  match src, dst with
  | Some src, Some dst =>
      if (ss_family src =? ss_family dst) && (ss_family src =? AF_INET) then
        let '(ret, buf) := snprintf buf_len (bytes "PROXY TCP4 ") in
        if ret >=? buf_len then (0, buf) else
        (* IPv4 src *)
        match inet_ntop (inet_ntop4 (sin_addr src)) (buf_len - ret) with
        | None => (0, buf)
        | Some t =>
            let buf := buf ++ t in
            let ret := ret + Z.of_nat (length t) in
            if ret >=? buf_len then (0, buf) else
            let buf := buf ++ [32] in
            let ret := ret + 1 in
            (* IPv4 dst *)
            match inet_ntop (inet_ntop4 (sin_addr dst)) (buf_len - ret) with
            | None => (0, buf)
            | Some t =>
                let buf := buf ++ t in
                let ret := ret + Z.of_nat (length t) in
                if ret >=? buf_len then (0, buf) else
                (* source and destination ports *)
                let '(n, out) :=
                  snprintf (buf_len - ret)
                    ([32] ++ utoa (ntohs (sin_port src)) ++ [32] ++
                     utoa (ntohs (sin_port dst)) ++ [13; 10]) in
                let buf := buf ++ out in
                let ret := ret + n in
                if ret >=? buf_len then (0, buf) else (ret, buf)
            end
        end
      else if (ss_family src =? ss_family dst) && (ss_family src =? AF_INET6) then
        let '(ret, buf) := snprintf buf_len (bytes "PROXY TCP6 ") in
        if ret >=? buf_len then (0, buf) else
        (* IPv6 src *)
        match inet_ntop (inet_ntop6 (sin6_addr src)) (buf_len - ret) with
        | None => (0, buf)
        | Some t =>
            let buf := buf ++ t in
            let ret := ret + Z.of_nat (length t) in
            if ret >=? buf_len then (0, buf) else
            let buf := buf ++ [32] in
            let ret := ret + 1 in
            (* IPv6 dst *)
            match inet_ntop (inet_ntop6 (sin6_addr dst)) (buf_len - ret) with
            | None => (0, buf)
            | Some t =>
                let buf := buf ++ t in
                let ret := ret + Z.of_nat (length t) in
                if ret >=? buf_len then (0, buf) else
                (* source and destination ports *)
                let '(n, out) :=
                  snprintf (buf_len - ret)
                    ([32] ++ utoa (ntohs (sin_port src)) ++ [32] ++
                     utoa (ntohs (sin_port dst)) ++ [13; 10]) in
                let buf := buf ++ out in
                let ret := ret + n in
                if ret >=? buf_len then (0, buf) else (ret, buf)
            end
        end
      else unknown
  | _, _ => unknown
  end.

End MakeProxyLine.

(* ================================================================== *)
(** * The I/O driver: [conn_fd_handler] *)

(** The calls to the data layer that the driver makes, each with the value
    of [conn->flags] at the moment of the call. *)
Inductive event : Type :=
| Ev_data_init (f : Z)
| Ev_data_recv (f : Z)
| Ev_data_send (f : Z)
| Ev_data_wake (f : Z).

(** The functions that connection.c calls and does not define: they are
    parameters, any functions on the world.  The ones that return an [int]
    give it with the world.  [USE_OPENSSL] tells whether the code under the
    [#ifdef] is compiled. *)
Class callbacks (E : Type) : Type := {
  conn_refresh_polling_flags : world E -> world E;
  conn_si_send_proxy : world E -> Z -> Z * world E;
  USE_OPENSSL : bool;
  ssl_sock_handshake : world E -> Z -> Z * world E;
  data_init : world E -> Z * world E;
  data_recv : world E -> world E;
  data_send : world E -> world E;
  data_wake : world E -> Z * world E;
  tcp_connect_probe : world E -> Z * world E;
  conn_cond_update_polling : world E -> world E;
  FD_POLL_STICKY : Z
}.

(** Where the driver stands after the part before [leave]. *)
Inductive progress (E : Type) : Type :=
| At_leave (w : world E) (flags_ : Z) (tr : list event)
    (* control is at [leave], with the local variable [flags] *)
| Returned (w : world E) (tr : list event)
    (* [return 0] at line 47 or 89 *)
| Running (tr : list event).
    (* the loops did not end within the fuel *)
Arguments At_leave {E}.
Arguments Returned {E}.
Arguments Running {E}.

Section Driver.
Context {L : co_layout} {CL : ctrl_layer} {LC : libc_inet6}.
Context {E : Type} {K : kernel E} {CB : callbacks E}.

(** The [while] loop of lines 61-77.  [Some (true, w)] stands for
    [goto leave], [Some (false, w)] for the end of the loop, and [None] for
    a loop that is still running when the fuel is spent. *)
Fixpoint handshake_loop (fuel : nat) (w : world E) : option (bool * world E) :=
  match fuel with
  | O => None
  | S fuel' =>
      if c_true (Z.land (flags (w_conn w)) (Z.lor CO_FL_HANDSHAKE CO_FL_ERROR)) then
        if c_true (Z.land (flags (w_conn w)) CO_FL_ERROR) then Some (true, w) else
        let '(r, w) :=
          if c_true (Z.land (flags (w_conn w)) CO_FL_ACCEPT_PROXY)
          then conn_recv_proxy w CO_FL_ACCEPT_PROXY else (1, w) in
        if r =? 0 then Some (true, w) else
        let '(r, w) :=
          if c_true (Z.land (flags (w_conn w)) CO_FL_SEND_PROXY)
          then conn_si_send_proxy w CO_FL_SEND_PROXY else (1, w) in
        if r =? 0 then Some (true, w) else
        let '(r, w) :=
          if USE_OPENSSL && c_true (Z.land (flags (w_conn w)) CO_FL_SSL_WAIT_HS)
          then ssl_sock_handshake w CO_FL_SSL_WAIT_HS else (1, w) in
        if r =? 0 then Some (true, w) else
        handshake_loop fuel' w
      else Some (false, w)
  end.

(** Lines 95-102 and 104-111: the two steps of the data phase.  The
    result is the world, the local variable [flags] and the events. *)
Definition data_recv_step (w : world E) (flags_ : Z) (tr : list event)
  : world E * Z * list event :=
  let f := flags (w_conn w) in
  if xprt (w_conn w) && fd_recv_ready w &&
     (Z.land f (Z.lor CO_FL_DATA_RD_ENA (Z.lor CO_FL_WAIT_ROOM
                  (Z.lor CO_FL_ERROR CO_FL_HANDSHAKE))) =? CO_FL_DATA_RD_ENA)
  then (data_recv w, Z.lor CO_FL_WAIT_L4_CONN CO_FL_CONNECTED,
        tr ++ [Ev_data_recv f])
  else (w, flags_, tr).

Definition data_send_step (w : world E) (flags_ : Z) (tr : list event)
  : world E * Z * list event :=
  let f := flags (w_conn w) in
  if xprt (w_conn w) && fd_send_ready w &&
     (Z.land f (Z.lor CO_FL_DATA_WR_ENA (Z.lor CO_FL_WAIT_DATA
                  (Z.lor CO_FL_ERROR CO_FL_HANDSHAKE))) =? CO_FL_DATA_WR_ENA)
  then (data_send w, Z.lor CO_FL_WAIT_L4_CONN CO_FL_CONNECTED,
        tr ++ [Ev_data_send f])
  else (w, flags_, tr).

(** From the label [process_handshake] to the label [leave], lines
    52-126. *)
Fixpoint process_handshake (fuel : nat) (w : world E) (flags_ : Z)
  (tr : list event) : progress E :=
  match fuel with
  | O => Running tr
  | S fuel' =>
      match handshake_loop fuel' w with
      | None => Running tr
      | Some (true, w) => At_leave w flags_ tr
      | Some (false, w) =>
          (* Once we're purely in the data phase, we disable handshake polling *)
          let w :=
            if negb (c_true (Z.land (flags (w_conn w)) CO_FL_POLL_SOCK))
            then set_conn w (__conn_sock_stop_both (w_conn w)) else w in
          let f := flags (w_conn w) in
          let '(r, w, tr) :=
            if c_true (Z.land f CO_FL_INIT_DATA)
            then let '(r, w) := data_init w in (r, w, tr ++ [Ev_data_init f])
            else (0, w, tr) in
          if r <? 0 then Returned w tr else
          let '(w, flags_, tr) := data_recv_step w flags_ tr in
          let '(w, flags_, tr) := data_send_step w flags_ tr in
          (* It may happen during the data phase that a handshake is
             enabled again (eg: SSL) *)
          if c_true (Z.land (flags (w_conn w)) (Z.lor CO_FL_HANDSHAKE CO_FL_ERROR))
          then process_handshake fuel' w flags_ tr
          else if c_true (Z.land (flags (w_conn w)) CO_FL_WAIT_L4_CONN)
          then At_leave (snd (tcp_connect_probe w)) flags_ tr
          else At_leave w flags_ tr
      end
  end.

(** From the entry of [conn_fd_handler] to [leave], lines 43-126. *)
Definition conn_fd_handler_enter (fuel : nat) (w : world E) : progress E :=
  if negb (w_owner w) then Returned w [] else
  let w := conn_refresh_polling_flags w in
  (* ensure to call the wake handler upon error *)
  let flags_ := Z.land (flags (w_conn w)) (Z.lnot CO_FL_ERROR) in
  process_handshake fuel w flags_ [].

(** The code at [leave], lines 128-147. *)
Definition conn_fd_handler_leave (w : world E) (flags_ : Z) (tr : list event)
  : world E * list event :=
  let f := flags (w_conn w) in
  let '(r, w, tr) :=
    if c_true (Z.land f CO_FL_WAKE_DATA) &&
       c_true (Z.land (Z.lxor f flags_) CO_FL_CONN_STATE)
    then let '(r, w) := data_wake w in (r, w, tr ++ [Ev_data_wake f])
    else (0, w, tr) in
  if r <? 0 then (w, tr) else
  (* Last check, verify if the connection just established *)
  let c := w_conn w in
  let w :=
    if negb (c_true (Z.land (flags c)
               (Z.lor CO_FL_WAIT_L4_CONN (Z.lor CO_FL_WAIT_L6_CONN CO_FL_CONNECTED))))
    then set_conn w (set_flags c (Z.lor (flags c) CO_FL_CONNECTED)) else w in
  (* remove the events before leaving *)
  let w := set_ev w (Z.land (w_ev w) FD_POLL_STICKY) in
  (* commit polling changes *)
  (conn_cond_update_polling w, tr).

(** [conn_fd_handler], lines 41-148: the world and the events of one entry
    of the driver, or [None] when it is still in its loops after [fuel]
    rounds. *)
Definition conn_fd_handler (fuel : nat) (w : world E)
  : option (world E * list event) :=
  match conn_fd_handler_enter fuel w with
  | At_leave w flags_ tr => Some (conn_fd_handler_leave w flags_ tr)
  | Returned w tr => Some (w, tr)
  | Running _ => None
  end.

(** The events of the first [fuel] rounds of an entry, whether it ends or
    not. *)
Definition conn_fd_handler_events (fuel : nat) (w : world E) : list event :=
  match conn_fd_handler_enter fuel w with
  | At_leave w flags_ tr => snd (conn_fd_handler_leave w flags_ tr)
  | Returned _ tr => tr
  | Running tr => tr
  end.

End Driver.

(** A data-layer call that must not be made while a handshake is pending:
    [data->recv] or [data->send] with one of the [HANDSHAKE] bits set. *)
Definition during_handshake {L : co_layout} (e : event) : Prop :=
  match e with
  | Ev_data_recv f | Ev_data_send f =>
      flag_on f F_ACCEPT_PROXY = true \/ flag_on f F_SEND_PROXY = true \/
      flag_on f F_SSL_WAIT_HS = true
  | _ => False
  end.

(* ================================================================== *)
(** * PROXY lines *)

(** [n] bytes: what [sin_addr] (4), [sin_port] (2) and [sin6_addr] (16)
    hold. *)
Definition is_bytes (n : nat) (a : list Z) : Prop :=
  length a = n /\ Forall (fun b => 0 <= b < 256) a.

(** A TCP4 line and a TCP6 line of the PROXY protocol, from the two
    addresses as they are in memory and the text of the two ports. *)
Definition tcp4_line (src dst sport dport : list Z) : list Z :=
  bytes "PROXY TCP4 " ++ inet_ntop4 src ++ [32] ++ inet_ntop4 dst ++ [32] ++
  sport ++ [32] ++ dport ++ [13; 10].

Definition tcp6_line {LC : libc_inet6} (src dst sport dport : list Z) : list Z :=
  bytes "PROXY TCP6 " ++ inet_ntop6 src ++ [32] ++ inet_ntop6 dst ++ [32] ++
  sport ++ [32] ++ dport ++ [13; 10].

(** The connection after a header with these addresses and ports was
    parsed: family, port and address of [addr.from] and [addr.to] are set
    and both [ADDR_*_SET] flags are raised. *)
Definition with_addrs4 {L : co_layout} (c : connection)
  (src dst : list Z) (sport dport : Z) : connection :=
  let c := set_addr_from c
             {| ss_family := AF_INET; sin_port := htons sport; sin_addr := src;
                sin6_addr := sin6_addr (addr_from c) |} in
  let c := set_addr_to c
             {| ss_family := AF_INET; sin_port := htons dport; sin_addr := dst;
                sin6_addr := sin6_addr (addr_to c) |} in
  set_flags c (Z.lor (flags c) (Z.lor CO_FL_ADDR_FROM_SET CO_FL_ADDR_TO_SET)).

Definition with_addrs6 {L : co_layout} (c : connection)
  (src dst : list Z) (sport dport : Z) : connection :=
  let c := set_addr_from c
             {| ss_family := AF_INET6; sin_port := htons sport;
                sin_addr := sin_addr (addr_from c); sin6_addr := src |} in
  let c := set_addr_to c
             {| ss_family := AF_INET6; sin_port := htons dport;
                sin_addr := sin_addr (addr_to c); sin6_addr := dst |} in
  set_flags c (Z.lor (flags c) (Z.lor CO_FL_ADDR_FROM_SET CO_FL_ADDR_TO_SET)).

(** The ports of [addr.from] and [addr.to], read back with [ntohs]. *)
Definition ports_stored (c : connection) (sport dport : Z) : Prop :=
  ntohs (sin_port (addr_from c)) = sport /\
  ntohs (sin_port (addr_to c)) = dport.



(** The events of a [progress]. *)
Definition progress_events {E : Type} (p : progress E) : list event :=
  match p with
  | At_leave _ _ tr | Returned _ tr | Running tr => tr
  end.

(** No event of [tr] is a data-layer call made during a handshake. *)
Definition quiet {L : co_layout} (tr : list event) : Prop :=
  Forall (fun ev => ~ during_handshake ev) tr.

(* ================================================================== *)
(** * Concrete worlds, to run the model *)

(** A control layer: the connection is ready when bit 8 of its flags
    ([CO_FL_CTRL_READY] in HAProxy 1.5) is set. *)
Definition haproxy_ctrl : ctrl_layer :=
  {| conn_ctrl_ready := fun c => Z.testbit (flags c) 8 |}.

(** A kernel whose state is the bytes queued on the socket: [recv] gives
    the first bytes of the queue and removes them unless [MSG_PEEK] is set;
    an empty queue gives [EAGAIN]. *)
Definition queue_kernel : kernel (list Z) :=
  {| sys_recv := fun q _ n fl =>
       match q with
       | [] => (recv_fail EAGAIN, q)
       | _ => (recv_ok (firstn (Z.to_nat n) q),
               if fl =? MSG_PEEK then q else skipn (Z.to_nat n) q)
       end |}.

(** A kernel that plays a script: each [recv] gives the next result. *)
Definition script_kernel : kernel (list recv_ret) :=
  {| sys_recv := fun e _ _ _ =>
       match e with
       | [] => (recv_fail EAGAIN, [])
       | r :: e' => (r, e')
       end |}.

(** A C library that knows the text of two IPv6 addresses. *)
Definition ip6_a : list Z := [32; 1; 13; 184; 0; 0; 0; 0; 0; 0; 0; 0; 0; 0; 0; 1].
Definition ip6_b : list Z := [32; 1; 13; 184; 0; 0; 0; 0; 0; 0; 0; 0; 0; 0; 0; 2].

Definition list_Z_eqb (a b : list Z) : bool :=
  if list_eq_dec Z.eq_dec a b then true else false.

Definition sample_inet6 : libc_inet6 :=
  {| inet_pton6 := fun t =>
       if list_Z_eqb t (bytes "2001:db8::1") then Some ip6_a
       else if list_Z_eqb t (bytes "2001:db8::2") then Some ip6_b
       else None;
     inet_ntop6 := fun a =>
       if list_Z_eqb a ip6_a then bytes "2001:db8::1"
       else if list_Z_eqb a ip6_b then bytes "2001:db8::2"
       else [] |}.

(** Upper layers that do nothing. *)
Definition idle_callbacks (E : Type) : callbacks E :=
  {| conn_refresh_polling_flags := fun w => w;
     conn_si_send_proxy := fun w _ => (1, w);
     USE_OPENSSL := false;
     ssl_sock_handshake := fun w _ => (1, w);
     data_init := fun w => (0, w);
     data_recv := fun w => w;
     data_send := fun w => w;
     data_wake := fun w => (0, w);
     tcp_connect_probe := fun w => (1, w);
     conn_cond_update_polling := fun w => w;
     FD_POLL_STICKY := 0 |}.

Definition sockaddr_zero : sockaddr_storage :=
  {| ss_family := 0; sin_port := [0; 0]; sin_addr := [0; 0; 0; 0];
     sin6_addr := repeat 0 16 |}.

(** A connection with the flags [f] on descriptor 7, and a world around it
    with a 16 kB [trash]. *)
Definition conn_with (f : Z) : connection :=
  {| flags := f; err_code := CO_ER_NONE; xprt := true; sock_fd := 7;
     addr_from := sockaddr_zero; addr_to := sockaddr_zero |}.

Definition world_with {E : Type} (f : Z) (e : E) : world E :=
  {| w_conn := conn_with f; w_owner := true; w_recv_ready := true;
     w_send_ready := true; w_ev := 0;
     w_trash := {| str := repeat 0 64; len := 0; size := 16384 |};
     w_ext := e |}.

(** The line of the first scenario of the spec (47 bytes), and the one of
    the second. *)
Definition line_tcp4 : list Z :=
  bytes "PROXY TCP4 192.168.0.1 192.168.0.11 56324 443" ++ [13; 10].

Definition line_tcp6 : list Z :=
  bytes "PROXY TCP6 2001:db8::1 2001:db8::2 40000 443" ++ [13; 10].

(** Flag words in the layout of HAProxy: control-ready (bit 8) with
    [ACCEPT_PROXY], and control-ready with [WAKE_DATA], [ERROR] and
    [CONNECTED]. *)
Definition flags_accept : Z := 0x04000100.
Definition flags_error : Z := 0x00308100.

Definition ip4_a : list Z := [192; 168; 0; 1].
Definition ip4_b : list Z := [192; 168; 0; 11].

(** The first scenario: the TCP4 line is queued on the socket, followed by
    the start of a request. *)
Definition accept_world : world (list Z) :=
  world_with flags_accept (line_tcp4 ++ bytes "GET /").

(** A line with a tag that is not known, and a line cut after "PROXY ". *)
Definition line_tcp5 : list Z :=
  bytes "PROXY TCP5 192.168.0.1 192.168.0.11 56324 443" ++ [13; 10].

Definition tcp5_world : world (list Z) := world_with flags_accept line_tcp5.

Definition cut_world : world (list Z) := world_with flags_accept (bytes "PROXY ").

(** The fifth scenario: the peek gives the 47 bytes of the line and the
    second read gives 30 of them. *)
Definition split_world : world (list recv_ret) :=
  world_with flags_accept [recv_ok line_tcp4; recv_ok (firstn 30 line_tcp4)].

Definition split_world_valid : world (list recv_ret) :=
  let w1 := after_peek split_world (recv_ok line_tcp4)
              [recv_ok (firstn 30 line_tcp4)] in
  set_trash
    (set_conn w1 (with_addrs4 (L := haproxy_layout) (w_conn w1) ip4_a ip4_b 56324 443))
    (w_trash w1).

(** A line with a source port that does not fit in 16 bits. *)
Definition line_port : list Z :=
  tcp4_line ip4_a ip4_b (bytes "70000") (bytes "443").

Definition port_world : world (list Z) := world_with flags_accept line_port.

(** Two IPv6 endpoints, and the world where the line that
    [make_proxy_line] writes for them is queued on the socket. *)
Definition endpoint6_a : sockaddr_storage :=
  {| ss_family := AF_INET6; sin_port := [156; 64]; sin_addr := [0; 0; 0; 0];
     sin6_addr := ip6_a |}.




(** A data layer whose first [recv] asks for an SSL handshake again, and an
    SSL layer that completes it at once.  The state outside the core tells
    whether the handshake was asked for already. *)
Definition rearm_callbacks : callbacks bool :=
  {| conn_refresh_polling_flags := fun w => w;
     conn_si_send_proxy := fun w _ => (1, w);
     USE_OPENSSL := true;
     ssl_sock_handshake := fun w flag =>
       (1, set_conn w (set_flags (w_conn w)
                         (Z.land (flags (w_conn w)) (Z.lnot flag))));
     data_init := fun w => (0, w);
     data_recv := fun w : world bool =>
       if w_ext w then w
       else set_ext
              (set_conn w (set_flags (w_conn w)
                             (Z.lor (flags (w_conn w)) 0x02000000)))
              true;
     data_send := fun w => w;
     data_wake := fun w => (0, w);
     tcp_connect_probe := fun w => (1, w);
     conn_cond_update_polling := fun w => w;
     FD_POLL_STICKY := 0 |}.

Definition no_kernel_bool : kernel bool :=
  {| sys_recv := fun e _ _ _ => (recv_fail EAGAIN, e) |}.

(** Control-ready and connected, with [DATA_RD_ENA] and [DATA_WR_ENA]. *)
Definition flags_data : Z := 0x00200122.

(** A connection on which an error was reported, with [WAKE_DATA]. *)
Definition error_world : world unit := world_with flags_error tt.

Definition no_kernel : kernel unit :=
  {| sys_recv := fun e _ _ _ => (recv_fail EAGAIN, e) |}.

(* ================================================================== *)
(** * Definitions for the further properties *)

(** The flags that a failure of [conn_recv_proxy] may change: [ERROR], the
    sock layer's two desire bits, the two shutdown bits of [recv_abort],
    and the two [ADDR_*_SET] bits that a header parsed before the failure
    has set. *)
Definition proxy_fail_bit (x : co_flag) : bool :=
  match x with
  | F_ERROR | F_SOCK_RD_ENA | F_SOCK_WR_ENA | F_SOCK_RD_SH | F_SOCK_WR_SH
  | F_ADDR_FROM_SET | F_ADDR_TO_SET => true
  | _ => false
  end.

(** Decimal components joined by dots: the text of [inet_ntop4], for any
    number of components. *)
Fixpoint dotted (l : list Z) : list Z :=
  match l with
  | [] => []
  | a :: l' =>
      match l' with
      | [] => utoa a
      | _ => utoa a ++ [46] ++ dotted l'
      end
  end.

(** The number of spaces in a text. *)
Definition spaces (l : list Z) : nat := count_occ Z.eq_dec l 32.

(** The events that are calls of [data->recv] or [data->send], and the
    ones that are calls of [data->wake]. *)
Definition is_data (ev : event) : bool :=
  match ev with
  | Ev_data_recv _ | Ev_data_send _ => true
  | _ => false
  end.

Definition is_wake (ev : event) : bool :=
  match ev with
  | Ev_data_wake _ => true
  | _ => false
  end.

(** Inputs and worlds on which the further properties are run.  Flag
    words, in the layout of HAProxy: control-ready with [ACCEPT_PROXY] and
    [SOCK_RD_SH]; control-ready and connected with [INIT_DATA]; and
    control-ready and connected with [DATA_RD_ENA], [DATA_WR_ENA] and
    [WAKE_DATA]. *)
Definition flags_shut : Z := 0x04040100.
Definition flags_init : Z := 0x00204100.
Definition flags_wake : Z := 0x00208122.

(** A connection on which a shutdown for reading was seen. *)
Definition shut_world : world (list Z) := world_with flags_shut line_tcp4.

(** A peek that is interrupted, a peek that fails with [ECONNRESET] (104),
    and a peek that finds the connection closed. *)
Definition intr_peek_world : world (list recv_ret) :=
  world_with flags_accept [recv_fail EINTR].

Definition reset_peek_world : world (list recv_ret) :=
  world_with flags_accept [recv_fail 104].

Definition closed_world : world (list recv_ret) :=
  world_with flags_accept [recv_ok []].

(** A client that does not speak the PROXY protocol. *)
Definition line_get : list Z := bytes "GET / HTTP/1.1" ++ [13; 10].

Definition get_world : world (list Z) := world_with flags_accept line_get.

(** The peek gives the 47 bytes of the TCP4 line and the second read is
    interrupted. *)
Definition intr_world : world (list recv_ret) :=
  world_with flags_accept [recv_ok line_tcp4; recv_fail EINTR].

Definition intr_world_valid : world (list recv_ret) :=
  let w1 := after_peek intr_world (recv_ok line_tcp4) [recv_fail EINTR] in
  set_trash
    (set_conn w1 (with_addrs4 (L := haproxy_layout) (w_conn w1) ip4_a ip4_b 56324 443))
    (w_trash w1).

(** The first 30 bytes of the TCP4 line and of the TCP6 line. *)
Definition cut4_world : world (list Z) :=
  world_with flags_accept (firstn 30 line_tcp4).

Definition cut6_world : world (list Z) :=
  world_with flags_accept (firstn 30 line_tcp6).

(** A TCP4 line with a space after the destination port, a TCP6 line with
    the two addresses only, and a TCP6 line with text after the destination
    port. *)
Definition line_tcp4_space : list Z :=
  bytes "PROXY TCP4 192.168.0.1 192.168.0.11 56324 443 " ++ [13; 10].

Definition line_tcp6_short : list Z :=
  bytes "PROXY TCP6 2001:db8::1 2001:db8::2" ++ [13; 10].

Definition line_tcp6_text : list Z :=
  bytes "PROXY TCP6 2001:db8::1 2001:db8::2 40000 443 and more" ++ [13; 10].

Definition space_world : world (list Z) :=
  world_with flags_accept line_tcp4_space.

(** The TCP4 line of the first scenario ended by a bare LF, with nothing
    after it. *)
Definition line_tcp4_lf : list Z :=
  bytes "PROXY TCP4 192.168.0.1 192.168.0.11 56324 443" ++ [10].

Definition bare_lf_world : world (list Z) :=
  world_with flags_accept line_tcp4_lf.

Definition short6_world : world (list Z) :=
  world_with flags_accept line_tcp6_short.

Definition text6_world : world (list Z) :=
  world_with flags_accept (line_tcp6_text ++ bytes "GET /").

(** Two IPv4 endpoints. *)
Definition endpoint4_a : sockaddr_storage :=
  {| ss_family := AF_INET; sin_port := [220; 4]; sin_addr := ip4_a;
     sin6_addr := repeat 0 16 |}.

Definition endpoint4_b : sockaddr_storage :=
  {| ss_family := AF_INET; sin_port := [1; 187]; sin_addr := ip4_b;
     sin6_addr := repeat 0 16 |}.

(** A data layer whose [init] fails. *)
Definition failing_init_callbacks (E : Type) : callbacks E :=
  {| conn_refresh_polling_flags := fun w => w;
     conn_si_send_proxy := fun w _ => (1, w);
     USE_OPENSSL := false;
     ssl_sock_handshake := fun w _ => (1, w);
     data_init := fun w => (-1, w);
     data_recv := fun w => w;
     data_send := fun w => w;
     data_wake := fun w => (0, w);
     tcp_connect_probe := fun w => (1, w);
     conn_cond_update_polling := fun w => w;
     FD_POLL_STICKY := 0 |}.

(* ================================================================== *)
(** * Theorems *)

Lemma haproxy_layout_ok : layout_ok haproxy_layout.
Proof.
  split.
  - intros x; destruct x; simpl; lia.
  - intros x y; destruct x; destruct y; simpl; intros H;
      first [reflexivity | discriminate H].
Qed.

(* ------------------------------------------------------------------ *)
(** ** Bits of the flag word *)

Section FlagLemmas.
Context {L : co_layout} (OK : layout_ok L).

Lemma co_bit_nonneg x : 0 <= co_bit x.
Proof. apply (co_bit_range L OK x). Qed.

Lemma co_bit_eqb x y : (co_bit x =? co_bit y) = co_flag_eqb x y.
Proof.
  unfold co_flag_eqb. destruct (co_flag_eq_dec x y) as [->|N].
  - apply Z.eqb_refl.
  - apply Z.eqb_neq. intros H. apply N. now apply (co_bit_inj L OK).
Qed.

Lemma testbit_CO_FL x n : Z.testbit (CO_FL x) n = (co_bit x =? n).
Proof. unfold CO_FL. apply Z.pow2_bits_eqb. apply co_bit_nonneg. Qed.

Lemma flag_on_CO_FL x y : flag_on (CO_FL x) y = co_flag_eqb x y.
Proof. unfold flag_on. rewrite testbit_CO_FL. apply co_bit_eqb. Qed.

Lemma flag_on_lor f g y : flag_on (Z.lor f g) y = flag_on f y || flag_on g y.
Proof. unfold flag_on. apply Z.lor_spec. Qed.

Lemma flag_on_land f g y : flag_on (Z.land f g) y = flag_on f y && flag_on g y.
Proof. unfold flag_on. apply Z.land_spec. Qed.

Lemma flag_on_lxor f g y : flag_on (Z.lxor f g) y = xorb (flag_on f y) (flag_on g y).
Proof. unfold flag_on. apply Z.lxor_spec. Qed.

Lemma flag_on_lnot f y : flag_on (Z.lnot f) y = negb (flag_on f y).
Proof. unfold flag_on. apply Z.lnot_spec. apply co_bit_nonneg. Qed.

Lemma flag_on_0 y : flag_on 0 y = false.
Proof. unfold flag_on. apply Z.bits_0. Qed.

(** The C test [if (f & CO_FL_X)]. *)
Lemma land_CO_FL_eq0 f x : (Z.land f (CO_FL x) =? 0) = negb (flag_on f x).
Proof.
  unfold flag_on. destruct (Z.testbit f (co_bit x)) eqn:E; simpl.
  - apply Z.eqb_neq. intros H.
    apply (f_equal (fun z => Z.testbit z (co_bit x))) in H.
    rewrite Z.land_spec, testbit_CO_FL, E, Z.eqb_refl, Z.bits_0 in H.
    discriminate.
  - apply Z.eqb_eq. apply Z.bits_inj'. intros n Hn.
    rewrite Z.land_spec, testbit_CO_FL, Z.bits_0.
    destruct (Z.eqb_spec (co_bit x) n) as [<-|]; [rewrite E|];
      now rewrite ?andb_false_r.
Qed.

(** The C test [(f & (CO_FL_A | CO_FL_B)) == CO_FL_B]. *)
Lemma land_mask2_eqb f a b :
  a <> b ->
  (Z.land f (Z.lor (CO_FL a) (CO_FL b)) =? CO_FL b)
  = flag_on f b && negb (flag_on f a).
Proof.
  intros Hab. unfold flag_on.
  assert (Hne : (co_bit a =? co_bit b) = false).
  { rewrite co_bit_eqb. unfold co_flag_eqb.
    now destruct (co_flag_eq_dec a b). }
  assert (Hne' : (co_bit b =? co_bit a) = false) by now rewrite Z.eqb_sym.
  destruct (Z.testbit f (co_bit b)) eqn:Eb;
    destruct (Z.testbit f (co_bit a)) eqn:Ea; simpl.
  - apply Z.eqb_neq. intros H.
    apply (f_equal (fun z => Z.testbit z (co_bit a))) in H.
    rewrite Z.land_spec, Z.lor_spec, !testbit_CO_FL, Ea, Z.eqb_refl, Hne' in H.
    discriminate.
  - apply Z.eqb_eq. apply Z.bits_inj'. intros n Hn.
    rewrite Z.land_spec, Z.lor_spec, !testbit_CO_FL.
    destruct (Z.eqb_spec (co_bit a) n) as [Ha|Ha];
      destruct (Z.eqb_spec (co_bit b) n) as [Hb|Hb];
      try subst n; rewrite ?Ea, ?Eb; simpl; try reflexivity;
      try now rewrite ?andb_false_r.
    rewrite Hb in Hne. now rewrite Z.eqb_refl in Hne.
  - apply Z.eqb_neq. intros H.
    apply (f_equal (fun z => Z.testbit z (co_bit b))) in H.
    rewrite Z.land_spec, Z.lor_spec, !testbit_CO_FL, Eb, Z.eqb_refl in H.
    discriminate.
  - apply Z.eqb_neq. intros H.
    apply (f_equal (fun z => Z.testbit z (co_bit b))) in H.
    rewrite Z.land_spec, Z.lor_spec, !testbit_CO_FL, Eb, Z.eqb_refl in H.
    discriminate.
Qed.

Lemma testbit_set_flag f x n :
  0 <= n -> n <> co_bit x -> Z.testbit (Z.lor f (CO_FL x)) n = Z.testbit f n.
Proof.
  intros Hn Hx. rewrite Z.lor_spec, testbit_CO_FL.
  destruct (Z.eqb_spec (co_bit x) n); [congruence | apply orb_false_r].
Qed.

Lemma testbit_clear_flag f x n :
  0 <= n -> n <> co_bit x ->
  Z.testbit (Z.land f (Z.lnot (CO_FL x))) n = Z.testbit f n.
Proof.
  intros Hn Hx. rewrite Z.land_spec, Z.lnot_spec, testbit_CO_FL by assumption.
  destruct (Z.eqb_spec (co_bit x) n); [congruence | apply andb_true_r].
Qed.

End FlagLemmas.

(** Rewriting a [flag_on] of an updated flag word down to the bits of the
    word before the update. *)
Ltac flag_simpl OK :=
  repeat first
    [ rewrite (flag_on_lor)
    | rewrite (flag_on_land)
    | rewrite (flag_on_lxor)
    | rewrite (flag_on_lnot OK)
    | rewrite (flag_on_CO_FL OK)
    | rewrite (flag_on_0) ];
  cbn [co_flag_eqb co_flag_eq_dec co_flag_rec co_flag_rect sumbool_rec sumbool_rect];
  rewrite ?orb_false_r, ?orb_true_r, ?andb_true_r, ?andb_false_r.

(* ------------------------------------------------------------------ *)
(** ** The poll reconciler *)

Section ReconcilerLemmas.
Context {L : co_layout} (OK : layout_ok L) {CL : ctrl_layer}.

Lemma reconcile_dir_spec f want stop curr desire :
  curr <> desire ->
  let r := reconcile_dir f want stop curr desire in
  snd r = reconcile_cmds (flag_on f desire) (flag_on f curr) want stop
  /\ flag_on (fst r) curr = reconcile_curr (flag_on f desire) (flag_on f curr)
  /\ (forall n, 0 <= n -> n <> co_bit curr ->
        Z.testbit (fst r) n = Z.testbit f n).
Proof.
  intros Hne. unfold reconcile_dir, reconcile_cmds, reconcile_curr.
  rewrite (land_mask2_eqb OK f curr desire Hne).
  rewrite (Z.lor_comm (CO_FL curr) (CO_FL desire)).
  rewrite (land_mask2_eqb OK f desire curr (not_eq_sym Hne)).
  rewrite (andb_comm (flag_on f curr) (negb (flag_on f desire))).
  destruct (flag_on f desire) eqn:Ed; destruct (flag_on f curr) eqn:Ec;
    cbn [andb negb fst snd]; (split; [reflexivity | split]);
    try (intros n Hn Hc; first [ reflexivity
           | apply (testbit_set_flag OK); assumption
           | apply (testbit_clear_flag OK); assumption ]);
    try assumption.
  - rewrite flag_on_lor, (flag_on_CO_FL OK). unfold co_flag_eqb.
    destruct (co_flag_eq_dec curr curr); [apply orb_true_r | congruence].
  - rewrite flag_on_land, (flag_on_lnot OK), (flag_on_CO_FL OK).
    unfold co_flag_eqb.
    destruct (co_flag_eq_dec curr curr); [apply andb_false_r | congruence].
Qed.

Lemma reconcile_two f cf drd dwr :
  F_CURR_RD_ENA <> drd -> F_CURR_WR_ENA <> dwr ->
  F_CURR_RD_ENA <> dwr -> F_CURR_RD_ENA <> F_CURR_WR_ENA ->
  let r1 := reconcile_dir f (fd_want_recv cf) (fd_stop_recv cf) F_CURR_RD_ENA drd in
  let r2 := reconcile_dir (fst r1) (fd_want_send cf) (fd_stop_send cf) F_CURR_WR_ENA dwr in
  snd r1 ++ snd r2 =
    reconcile_cmds (flag_on f drd) (flag_on f F_CURR_RD_ENA)
      (fd_want_recv cf) (fd_stop_recv cf) ++
    reconcile_cmds (flag_on f dwr) (flag_on f F_CURR_WR_ENA)
      (fd_want_send cf) (fd_stop_send cf)
  /\ flag_on (fst r2) F_CURR_RD_ENA =
       reconcile_curr (flag_on f drd) (flag_on f F_CURR_RD_ENA)
  /\ flag_on (fst r2) F_CURR_WR_ENA =
       reconcile_curr (flag_on f dwr) (flag_on f F_CURR_WR_ENA)
  /\ (forall n, 0 <= n -> n <> co_bit F_CURR_RD_ENA ->
        n <> co_bit F_CURR_WR_ENA -> Z.testbit (fst r2) n = Z.testbit f n).
Proof.
  intros H1 H2 H3 H4 r1 r2.
  destruct (reconcile_dir_spec f (fd_want_recv cf) (fd_stop_recv cf) _ _ H1)
    as (C1 & B1 & U1).
  destruct (reconcile_dir_spec (fst r1) (fd_want_send cf) (fd_stop_send cf) _ _ H2)
    as (C2 & B2 & U2).
  fold r1 in C1, B1, U1. fold r2 in C2, B2, U2.
  assert (D : forall x, x <> F_CURR_RD_ENA -> flag_on (fst r1) x = flag_on f x).
  { intros x Hx. apply U1; [apply (co_bit_nonneg OK)|].
    intros E. apply Hx. now apply (co_bit_inj L OK). }
  rewrite C1, C2, B2, !D by congruence.
  repeat split; trivial.
  - unfold flag_on at 1. rewrite U2, <- B1; [reflexivity| apply (co_bit_nonneg OK) |].
    intros E. apply H4. now apply (co_bit_inj L OK).
  - intros n Hn N1 N2. rewrite U2, U1; auto.
Qed.

End ReconcilerLemmas.

Lemma conn_update_data_polling_eq
  {L : co_layout} {CL : ctrl_layer} (c : connection) :
  conn_update_data_polling c =
  if negb (conn_ctrl_ready c) then (c, []) else
  let r1 := reconcile_dir (flags c) (fd_want_recv (sock_fd c))
              (fd_stop_recv (sock_fd c)) F_CURR_RD_ENA F_DATA_RD_ENA in
  let r2 := reconcile_dir (fst r1) (fd_want_send (sock_fd c))
              (fd_stop_send (sock_fd c)) F_CURR_WR_ENA F_DATA_WR_ENA in
  (set_flags c (fst r2), snd r1 ++ snd r2).
Proof.
  unfold conn_update_data_polling, reconcile_dir.
  cbv beta delta [CO_FL_CURR_RD_ENA CO_FL_DATA_RD_ENA
                  CO_FL_CURR_WR_ENA CO_FL_DATA_WR_ENA].
  destruct (negb (conn_ctrl_ready c)); [reflexivity|]. cbv zeta.
  repeat match goal with
  | |- context [if ?b then _ else _] => destruct b; cbn [fst snd]
  end; reflexivity.
Qed.

Lemma conn_update_sock_polling_eq
  {L : co_layout} {CL : ctrl_layer} (c : connection) :
  conn_update_sock_polling c =
  if negb (conn_ctrl_ready c) then (c, []) else
  let r1 := reconcile_dir (flags c) (fd_want_recv (sock_fd c))
              (fd_stop_recv (sock_fd c)) F_CURR_RD_ENA F_SOCK_RD_ENA in
  let r2 := reconcile_dir (fst r1) (fd_want_send (sock_fd c))
              (fd_stop_send (sock_fd c)) F_CURR_WR_ENA F_SOCK_WR_ENA in
  (set_flags c (fst r2), snd r1 ++ snd r2).
Proof.
  unfold conn_update_sock_polling, reconcile_dir.
  cbv beta delta [CO_FL_CURR_RD_ENA CO_FL_SOCK_RD_ENA
                  CO_FL_CURR_WR_ENA CO_FL_SOCK_WR_ENA].
  destruct (negb (conn_ctrl_ready c)); [reflexivity|]. cbv zeta.
  repeat match goal with
  | |- context [if ?b then _ else _] => destruct b; cbn [fst snd]
  end; reflexivity.
Qed.

(** C9. Poll reconciliation, for the data layer and for the sock layer: for
    each direction independently the poller is told [want] and [CURR_*_ENA]
    is set exactly when the desire bit is set and [CURR_*_ENA] is clear,
    told [stop] and [CURR_*_ENA] is cleared exactly when the desire bit is
    clear and [CURR_*_ENA] is set, and told nothing otherwise; a connection
    that is not control-ready is left as it is and no command is issued. *)
Theorem conn_update_polling_reconciles
  {L : co_layout} (OK : layout_ok L) {CL : ctrl_layer} (c : connection) :
  (conn_ctrl_ready c = false ->
     conn_update_data_polling c = (c, []) /\
     conn_update_sock_polling c = (c, []))
  /\
  (conn_ctrl_ready c = true ->
     polling_reconciled F_DATA_RD_ENA F_DATA_WR_ENA c (conn_update_data_polling c) /\
     polling_reconciled F_SOCK_RD_ENA F_SOCK_WR_ENA c (conn_update_sock_polling c)).
Proof.
  rewrite conn_update_data_polling_eq, conn_update_sock_polling_eq.
  split; intros R; rewrite R; cbn [negb].
  - split; reflexivity.
  - unfold polling_reconciled. cbv zeta. cbn [fst snd flags set_flags].
    split.
    + pose proof (reconcile_two OK (flags c) (sock_fd c) F_DATA_RD_ENA F_DATA_WR_ENA
                    ltac:(discriminate) ltac:(discriminate)
                    ltac:(discriminate) ltac:(discriminate)) as H.
      cbv zeta in H. intuition.
    + pose proof (reconcile_two OK (flags c) (sock_fd c) F_SOCK_RD_ENA F_SOCK_WR_ENA
                    ltac:(discriminate) ltac:(discriminate)
                    ltac:(discriminate) ltac:(discriminate)) as H.
      cbv zeta in H. intuition.
Qed.

(* ------------------------------------------------------------------ *)
(** ** Buffers *)

Lemma holds_prefix l tail : holds (l ++ tail) 0 l.
Proof.
  repeat split; try lia.
  - rewrite length_app. lia.
  - intros i Hi. unfold deref. rewrite Z.add_0_l, Nat2Z.id.
    now apply app_nth1.
Qed.

Lemma holds_app buf p l1 l2 :
  holds buf p (l1 ++ l2) <->
  holds buf p l1 /\ holds buf (p + Z.of_nat (length l1)) l2.
Proof.
  unfold holds. rewrite length_app. split.
  - intros (H0 & HL & H). repeat split; try lia.
    + intros i Hi. rewrite H by lia. now apply app_nth1.
    + intros i Hi. rewrite <- Z.add_assoc, <- Nat2Z.inj_add, H by lia.
      rewrite app_nth2 by lia. f_equal. lia.
  - intros ((H0 & HL1 & H1) & (_ & HL2 & H2)). repeat split; try lia.
    intros i Hi. destruct (Nat.lt_ge_cases i (length l1)) as [C|C].
    + rewrite app_nth1 by assumption. now apply H1.
    + rewrite app_nth2 by assumption.
      rewrite <- H2 by lia. f_equal. lia.
Qed.

Lemma holds_cons buf p x l :
  holds buf p (x :: l) <-> deref buf p = x /\ p < Z.of_nat (length buf) /\
                           0 <= p /\ holds buf (p + 1) l.
Proof.
  change (x :: l) with ([x] ++ l). rewrite holds_app. cbn [length].
  change (Z.of_nat 1) with 1. split.
  - intros ((H0 & HL & H) & H2). cbn [length] in HL.
    specialize (H 0%nat ltac:(simpl; lia)). rewrite Z.add_0_r in H.
    simpl in H. split; [exact H|]. split; [lia|]. split; [lia|exact H2].
  - intros (H1 & HL & H0 & H2). split; [|exact H2].
    split; [lia|]. split; [cbn [length]; lia|].
    intros i Hi. cbn [length] in Hi. assert (i = 0%nat) as -> by lia.
    now rewrite Z.add_0_r.
Qed.

Lemma holds_nonneg buf p l : holds buf p l -> 0 <= p.
Proof. now intros (H & _). Qed.

Lemma holds_bound buf p l :
  holds buf p l -> Z.of_nat (length l) + p <= Z.of_nat (length buf).
Proof. now intros (_ & H & _). Qed.

Lemma length_store buf q v : length (store buf q v) = length buf.
Proof.
  unfold store.
  destruct ((0 <=? q) && (q <? Z.of_nat (length buf))) eqn:C; [|reflexivity].
  apply andb_true_iff in C. destruct C as [C1 C2].
  apply Z.leb_le in C1. apply Z.ltb_lt in C2.
  rewrite length_app. cbn [length]. rewrite length_firstn, length_skipn. lia.
Qed.

Lemma deref_store_same buf q v :
  0 <= q < Z.of_nat (length buf) -> deref (store buf q v) q = v.
Proof.
  intros H. unfold store, deref.
  destruct (Z.leb_spec 0 q); [|lia].
  destruct (Z.ltb_spec q (Z.of_nat (length buf))); [|lia].
  cbn [andb]. rewrite app_nth2 by (rewrite length_firstn; lia).
  rewrite length_firstn.
  replace (Z.to_nat q - Nat.min (Z.to_nat q) (length buf))%nat with 0%nat by lia.
  reflexivity.
Qed.

Lemma deref_store_other buf q v p :
  0 <= p -> p <> q -> deref (store buf q v) p = deref buf p.
Proof.
  intros Hp Hne. unfold store, deref.
  destruct (Z.leb_spec 0 q); [|reflexivity].
  destruct (Z.ltb_spec q (Z.of_nat (length buf))); [|reflexivity].
  cbn [andb].
  destruct (Z.lt_ge_cases p q) as [C|C].
  - rewrite app_nth1 by (rewrite length_firstn; lia).
    rewrite nth_firstn.
    destruct (Nat.ltb_spec (Z.to_nat p) (Z.to_nat q)); [reflexivity|lia].
  - rewrite app_nth2 by (rewrite length_firstn; lia).
    rewrite length_firstn.
    replace (Z.to_nat p - Nat.min (Z.to_nat q) (length buf))%nat
      with (S (Z.to_nat p - S (Z.to_nat q)))%nat by lia.
    cbn [nth]. rewrite nth_skipn. f_equal. lia.
Qed.

Lemma holds_store buf q v p l :
  holds buf p l -> q < p \/ p + Z.of_nat (length l) <= q ->
  holds (store buf q v) p l.
Proof.
  intros (H0 & HL & H) Hq. unfold holds. rewrite length_store.
  repeat split; trivial. intros i Hi.
  rewrite deref_store_other by lia. now apply H.
Qed.

(* ------------------------------------------------------------------ *)
(** ** Decimal numbers: [read_uint] and [utoa] *)

Lemma u32_step i d :
  u32 (u32 (i mod 2 ^ 32 * 10) + u32 (d - 48)) = (i * 10 + (d - 48)) mod 2 ^ 32.
Proof.
  unfold u32. rewrite <- Z.add_mod by lia.
  rewrite Z.add_mod, Z.mul_mod_idemp_l, <- Z.add_mod by lia. reflexivity.
Qed.

Lemma fold_u32 ds : forall i,
  fold_left (fun i d => u32 (u32 (i * 10) + u32 (d - 48))) ds (i mod 2 ^ 32)
  = fold_left (fun i d => i * 10 + (d - 48)) ds i mod 2 ^ 32.
Proof.
  induction ds as [|d ds IH]; intros i; cbn [fold_left]; [reflexivity|].
  rewrite u32_step. apply IH.
Qed.

Lemma read_uint_loop_digits ds : forall buf p end_ i,
  Forall is_digit ds -> holds buf p ds ->
  stops_at buf (p + Z.of_nat (length ds)) end_ ->
  read_uint_loop (Z.to_nat (end_ - p)) buf p end_ i
  = (fold_left (fun i d => u32 (u32 (i * 10) + u32 (d - 48))) ds i,
     p + Z.of_nat (length ds)).
Proof.
  induction ds as [|d ds IH]; intros buf p end_ i Hd Hh Hs.
  - cbn [length fold_left] in *. rewrite Z.add_0_r in *.
    destruct Hs as [-> | (Hlt & Hr & Hn)].
    + rewrite Z.sub_diag. reflexivity.
    + replace (Z.to_nat (end_ - p)) with (S (Z.to_nat (end_ - p - 1))) by lia.
      cbn [read_uint_loop]. destruct (Z.ltb_spec p end_); [|lia].
      unfold is_digit in Hn.
      assert ((u32 (deref buf p - 48) >? 9) = true) as ->; [|reflexivity].
      apply Z.gtb_lt. unfold u32. change (2 ^ 32) with 4294967296.
      Z.div_mod_to_equations. lia.
  - apply holds_cons in Hh. destruct Hh as (Hx & Hlen & H0 & Hh).
    inversion Hd as [|? ? Hdd Hds]; subst.
    cbn [length fold_left] in *.
    assert (p < end_).
    { destruct Hs as [Hs|(Hs & _)]; lia. }
    replace (Z.to_nat (end_ - p)) with (S (Z.to_nat (end_ - (p + 1)))) by lia.
    cbn [read_uint_loop]. destruct (Z.ltb_spec p end_); [|lia].
    unfold is_digit in Hdd.
    assert ((u32 (deref buf p - 48) >? 9) = false) as ->.
    { unfold u32. rewrite Z.mod_small by lia.
      destruct (Z.gtb_spec (deref buf p - 48) 9); [lia|reflexivity]. }
    rewrite IH; trivial.
    + f_equal. lia.
    + replace (p + 1 + Z.of_nat (length ds))
        with (p + Z.of_nat (S (length ds))) by lia. exact Hs.
Qed.

Lemma read_uint_digits buf p end_ ds :
  Forall is_digit ds -> holds buf p ds ->
  stops_at buf (p + Z.of_nat (length ds)) end_ ->
  read_uint buf p end_ = (dec_value ds mod 2 ^ 32, p + Z.of_nat (length ds)).
Proof.
  intros Hd Hh Hs. unfold read_uint.
  rewrite (read_uint_loop_digits ds); trivial. f_equal.
  change 0 with (0 mod 2 ^ 32) at 1. apply fold_u32.
Qed.

Lemma utoa_aux_spec fuel : forall n acc,
  0 <= n < 10 ^ Z.of_nat fuel ->
  exists ds, utoa_aux fuel n acc = ds ++ acc /\ Forall is_digit ds /\
             dec_value ds = n /\ (length ds <= fuel)%nat.
Proof.
  induction fuel as [|fuel IH]; intros n acc Hn.
  - exists []. cbn in *. repeat split; [constructor | lia | lia].
  - cbn [utoa_aux]. destruct (Z.ltb_spec n 10) as [C|C].
    + exists [48 + n mod 10]. rewrite Z.mod_small by lia.
      repeat split; try (unfold dec_value; cbn [fold_left length]; lia).
      constructor; [unfold is_digit; lia | constructor].
    + assert (Hq : 0 <= n / 10 < 10 ^ Z.of_nat fuel).
      { rewrite Nat2Z.inj_succ, Z.pow_succ_r in Hn by lia.
        split; [apply Z.div_pos; lia | apply Z.div_lt_upper_bound; lia]. }
      destruct (IH (n / 10) ((48 + n mod 10) :: acc) Hq) as (ds & E & D & V & Ln).
      exists (ds ++ [48 + n mod 10]). rewrite E, <- app_assoc.
      repeat split.
      * apply Forall_app. split; [exact D|].
        constructor; [|constructor]. unfold is_digit.
        pose proof (Z.mod_pos_bound n 10). lia.
      * unfold dec_value in *. rewrite fold_left_app, V. cbn [fold_left].
        pose proof (Z.div_mod n 10). lia.
      * rewrite length_app. cbn [length]. lia.
Qed.

Lemma utoa_spec n :
  0 <= n < 2 ^ 32 ->
  Forall is_digit (utoa n) /\ dec_value (utoa n) = n /\
  (length (utoa n) <= 10)%nat.
Proof.
  intros Hn. unfold utoa.
  destruct (utoa_aux_spec 10 n []) as (ds & E & D & V & Ln).
  { change (10 ^ Z.of_nat 10) with 10000000000.
    change (2 ^ 32) with 4294967296 in Hn. lia. }
  rewrite E, app_nil_r. auto.
Qed.

(* ------------------------------------------------------------------ *)
(** ** Dotted-decimal addresses *)

Lemma inetaddr_loop_step n buf p stop s acc a :
  0 <= a < 2 ^ 32 -> holds buf p (utoa a) ->
  p + Z.of_nat (length (utoa a)) < stop ->
  0 <= deref buf (p + Z.of_nat (length (utoa a))) < 256 ->
  ~ is_digit (deref buf (p + Z.of_nat (length (utoa a)))) ->
  inetaddr_loop n buf p stop s acc =
  let q := p + Z.of_nat (length (utoa a)) in
  let acc' := u32 (acc + Z.shiftl a s) in
  match n with
  | O => (acc', q)
  | S n' =>
      if deref buf q =? 46 then inetaddr_loop n' buf (q + 1) stop (s - 8) acc'
      else (acc', q)
  end.
Proof.
  intros Ha Hh Hq Hr Hn.
  destruct (utoa_spec a Ha) as (D & V & _).
  assert (R : read_uint buf p stop = (a, p + Z.of_nat (length (utoa a)))).
  { rewrite (read_uint_digits buf p stop (utoa a)); trivial.
    - rewrite V, Z.mod_small by lia. reflexivity.
    - right. auto. }
  destruct n; cbn [inetaddr_loop]; rewrite R;
    (destruct (Z.leb_spec stop (p + Z.of_nat (length (utoa a)))); [lia|]);
    reflexivity.
Qed.

Lemma inetaddr_host_lim_ret_ntop4 buf p stop a1 a2 a3 a4 :
  0 <= a1 < 256 -> 0 <= a2 < 256 -> 0 <= a3 < 256 -> 0 <= a4 < 256 ->
  holds buf p (inet_ntop4 [a1; a2; a3; a4]) ->
  let q := p + Z.of_nat (length (inet_ntop4 [a1; a2; a3; a4])) in
  q < stop -> 0 <= deref buf q < 256 -> ~ is_digit (deref buf q) ->
  inetaddr_host_lim_ret buf p stop =
  (a1 * 2 ^ 24 + a2 * 2 ^ 16 + a3 * 2 ^ 8 + a4, q).
Proof.
  intros H1 H2 H3 H4 Hh q Hq Hr Hn. subst q.
  unfold inet_ntop4 in *. repeat rewrite length_app in *.
  cbn [length] in *.
  repeat (rewrite holds_app in Hh || rewrite holds_cons in Hh).
  cbn [length] in Hh. change (Z.of_nat 1) with 1 in *.
  rewrite !Nat2Z.inj_add in *. change (Z.of_nat 1) with 1 in *.
  destruct Hh as (Ha1 & (D1 & _ & _ & _) & Ha2 & (D2 & _ & _ & _) & Ha3 &
                  (D3 & _ & _ & _) & Ha4).
  pose proof (holds_nonneg _ _ _ Ha1) as P0.
  assert (ND : ~ is_digit 46) by (unfold is_digit; lia).
  unfold inetaddr_host_lim_ret.
  rewrite (inetaddr_loop_step 3 buf p stop 24 0 a1); trivial;
    rewrite ?D1; try lia; try exact ND.
  cbv zeta. rewrite D1. cbn [Z.eqb Pos.eqb].
  rewrite (inetaddr_loop_step 2 buf _ stop _ _ a2); trivial;
    rewrite ?D2; try lia; try exact ND.
  cbv zeta. rewrite D2. cbn [Z.eqb Pos.eqb].
  rewrite (inetaddr_loop_step 1 buf _ stop _ _ a3); trivial;
    rewrite ?D3; try lia; try exact ND.
  cbv zeta. rewrite D3. cbn [Z.eqb Pos.eqb].
  rewrite (inetaddr_loop_step 0 buf _ stop _ _ a4); trivial; try lia.
  - cbv zeta. f_equal; [|lia].
    unfold u32. rewrite !Z.shiftl_mul_pow2 by lia.
    change (24 - 8) with 16. change (16 - 8) with 8. change (8 - 8) with 0.
    change (2 ^ 0) with 1. change (2 ^ 8) with 256.
    change (2 ^ 16) with 65536. change (2 ^ 24) with 16777216.
    change (2 ^ 32) with 4294967296.
    rewrite (Z.mod_small (0 + _)) by lia.
    rewrite (Z.mod_small (_ + a2 * _)) by lia.
    rewrite (Z.mod_small (_ + a3 * _)) by lia.
    rewrite (Z.mod_small (_ + a4 * _)) by lia. lia.
  - match goal with |- 0 <= deref buf ?x < 256 =>
      match type of Hr with 0 <= deref buf ?y < 256 =>
        replace x with y by lia; exact Hr end end.
  - match goal with |- ~ is_digit (deref buf ?x) =>
      match type of Hn with ~ is_digit (deref buf ?y) =>
        replace x with y by lia; exact Hn end end.
Qed.

Lemma htonl_bytes a1 a2 a3 a4 :
  0 <= a1 < 256 -> 0 <= a2 < 256 -> 0 <= a3 < 256 -> 0 <= a4 < 256 ->
  htonl (a1 * 2 ^ 24 + a2 * 2 ^ 16 + a3 * 2 ^ 8 + a4) = [a1; a2; a3; a4].
Proof.
  intros H1 H2 H3 H4. unfold htonl.
  change (2 ^ 8) with 256. change (2 ^ 16) with 65536.
  change (2 ^ 24) with 16777216.
  repeat f_equal; Z.div_mod_to_equations; lia.
Qed.


Lemma htons_uint16 x : htons (x mod 2 ^ 16) = htons x.
Proof.
  unfold htons. change (2 ^ 8) with 256. change (2 ^ 16) with (256 * 256).
  rewrite Z.rem_mul_r by lia. f_equal; [|f_equal].
  - rewrite (Z.mul_comm 256), Z.div_add by lia.
    rewrite (Z.div_small (x mod 256)) by (apply Z.mod_pos_bound; lia).
    rewrite Z.add_0_l. apply Z.mod_mod. lia.
  - rewrite (Z.mul_comm 256), Z.mod_add by lia. apply Z.mod_mod. lia.
Qed.

Lemma htons_mod x : htons (x mod 2 ^ 32) = htons (x mod 2 ^ 16).
Proof.
  rewrite <- (htons_uint16 (x mod 2 ^ 32)). f_equal.
  apply Z.mod_mod_divide. exists (2 ^ 16). reflexivity.
Qed.

Lemma ntohs_range hi lo :
  0 <= hi < 256 -> 0 <= lo < 256 -> 0 <= ntohs [hi; lo] < 2 ^ 16.
Proof.
  intros H1 H2. unfold ntohs. change (2 ^ 8) with 256.
  change (2 ^ 16) with 65536. lia.
Qed.

(* ------------------------------------------------------------------ *)
(** ** The TCP4 branch on a TCP4 line *)

Lemma is_bytes_4 a :
  is_bytes 4 a ->
  exists a1 a2 a3 a4, a = [a1; a2; a3; a4] /\ 0 <= a1 < 256 /\
    0 <= a2 < 256 /\ 0 <= a3 < 256 /\ 0 <= a4 < 256.
Proof.
  intros (Hl & Hf).
  destruct a as [|a1 [|a2 [|a3 [|a4 [|]]]]]; try discriminate.
  inversion Hf as [|? ? ? Hf1]; inversion Hf1 as [|? ? ? Hf2];
    inversion Hf2 as [|? ? ? Hf3]; inversion Hf3; subst.
  exists a1, a2, a3, a4. auto.
Qed.

Lemma not_digit_32 : ~ is_digit 32.
Proof. unfold is_digit. lia. Qed.

Lemma not_digit_13 : ~ is_digit 13.
Proof. unfold is_digit. lia. Qed.

Lemma parse_tcp4_line {L : co_layout} c buf end_ src dst sport dport :
  is_bytes 4 src -> is_bytes 4 dst ->
  Forall is_digit sport -> Forall is_digit dport ->
  holds buf 0 (tcp4_line src dst sport dport) ->
  Z.of_nat (length (tcp4_line src dst sport dport)) <= end_ ->
  parse_tcp4 c buf 6 end_ =
  P_done (with_addrs4 c src dst (dec_value sport mod 2 ^ 32)
            (dec_value dport mod 2 ^ 32))
    buf (Z.of_nat (length (tcp4_line src dst sport dport))).
Proof.
  intros Hs Hd Hp1 Hp2 Hh He.
  destruct (is_bytes_4 _ Hs) as (a1 & a2 & a3 & a4 & -> & A1 & A2 & A3 & A4).
  destruct (is_bytes_4 _ Hd) as (b1 & b2 & b3 & b4 & -> & B1 & B2 & B3 & B4).
  unfold tcp4_line in *.
  set (ta := inet_ntop4 [a1; a2; a3; a4]) in *.
  set (tb := inet_ntop4 [b1; b2; b3; b4]) in *.
  repeat rewrite length_app in He.
  repeat (rewrite holds_app in Hh || rewrite holds_cons in Hh).
  repeat rewrite length_app.
  change (length (bytes "PROXY TCP4 ")) with 11%nat in *.
  cbn [length] in *. rewrite ?Nat2Z.inj_add in *.
  change (Z.of_nat 11) with 11 in *. change (Z.of_nat 1) with 1 in *.
  change (Z.of_nat 2) with 2 in *. rewrite !Z.add_0_l in Hh.
  destruct Hh as (_ & Ha & (D1 & _ & _ & _) & Hb & (D2 & _ & _ & _) & H3 &
                  (D3 & _ & _ & _) & H4 & D4 & _ & _ & D5 & _).
  unfold parse_tcp4. change (6 + 5) with 11.
  rewrite (inetaddr_host_lim_ret_ntop4 buf 11 end_ a1 a2 a3 a4); trivial;
    fold ta; rewrite ?D1; try lia; try exact not_digit_32.
  destruct (Z.eqb_spec (11 + Z.of_nat (length ta)) end_); [lia|].
  cbn [negb Z.eqb Pos.eqb].
  rewrite (inetaddr_host_lim_ret_ntop4 buf _ end_ b1 b2 b3 b4); trivial;
    fold tb; rewrite ?D2; try lia; try exact not_digit_32.
  match goal with |- context [?x =? end_] =>
    destruct (Z.eqb_spec x end_); [lia|] end.
  cbn [negb Z.eqb Pos.eqb].
  rewrite (read_uint_digits buf _ end_ sport); trivial.
  2:{ right. rewrite D3. split; [lia|]. split; [lia|exact not_digit_32]. }
  match goal with |- context [?x =? end_] =>
    destruct (Z.eqb_spec x end_); [lia|] end.
  rewrite D3. cbn [negb Z.eqb Pos.eqb].
  rewrite (read_uint_digits buf _ end_ dport); trivial.
  2:{ right. rewrite D4. split; [lia|]. split; [lia|exact not_digit_13]. }
  match goal with |- context [?x >? ?y] =>
    destruct (Z.gtb_spec x y); [lia|] end.
  rewrite D4, D5. cbn [negb Z.eqb Pos.eqb].
  rewrite !htonl_bytes by assumption.
  unfold with_addrs4. f_equal. lia.
Qed.

(* ------------------------------------------------------------------ *)
(** ** [memcmp], [strncmp] and the tests on the protocol tag *)

Lemma hd_from buf p : 0 <= p -> hd 0 (from buf p) = deref buf p.
Proof.
  intros Hp. unfold from, deref. generalize (Z.to_nat p). clear.
  intros n. revert buf. induction n as [|n IH]; intros [|x buf];
    cbn; auto.
Qed.

Lemma tl_from buf p : 0 <= p -> tl (from buf p) = from buf (p + 1).
Proof.
  intros Hp. unfold from. replace (Z.to_nat (p + 1)) with (S (Z.to_nat p)) by lia.
  generalize (Z.to_nat p). clear. intros n. revert buf.
  induction n as [|n IH]; intros [|x buf]; cbn; auto.
Qed.

Lemma memcmp_from tag : forall buf p t,
  holds buf p tag -> length tag = length t ->
  (memcmp (from buf p) t (length t) = 0 <-> tag = t).
Proof.
  induction tag as [|y tag IH]; intros buf p [|x t] Hh Hl; try discriminate.
  - cbn. tauto.
  - apply holds_cons in Hh. destruct Hh as (D & _ & P0 & Hh).
    cbn [length memcmp hd tl]. rewrite hd_from, tl_from, D by assumption.
    injection Hl as Hl. destruct (Z.eqb_spec y x) as [->|N].
    + rewrite (IH buf (p + 1) t Hh Hl). split; congruence.
    + split; [lia | congruence].
Qed.

Lemma strncmp_from tag : forall buf p t,
  holds buf p tag -> length tag = length t -> Forall (fun x => x <> 0) t ->
  (strncmp (from buf p) t (length t) = 0 <-> tag = t).
Proof.
  induction tag as [|y tag IH]; intros buf p [|x t] Hh Hl Hz; try discriminate.
  - cbn. tauto.
  - apply holds_cons in Hh. destruct Hh as (D & _ & P0 & Hh).
    pose proof (Forall_inv Hz) as Hx. apply Forall_inv_tail in Hz.
    cbn beta in Hx. cbn [length strncmp hd tl]. rewrite hd_from, tl_from, D by assumption.
    injection Hl as Hl. destruct (Z.eqb_spec y x) as [->|N].
    + destruct (Z.eqb_spec x 0); [contradiction|].
      rewrite (IH buf (p + 1) t Hh Hl Hz). split; congruence.
    + split; [lia | congruence].
Qed.

(** The value of the test of line 292 (and of line 333): 1 when the five
    bytes are the tag, 0 otherwise. *)
Lemma tag_test_value buf p tag t :
  holds buf p tag -> length tag = 5%nat -> length t = 5%nat ->
  c_ne (c_not (memcmp (from buf p) t 5)) 0 = if list_Z_eqb tag t then 1 else 0.
Proof.
  intros Hh H5 Ht.
  pose proof (memcmp_from tag buf p t Hh ltac:(congruence)) as M.
  rewrite Ht in M. unfold c_ne, c_not, list_Z_eqb.
  destruct (list_eq_dec Z.eq_dec tag t) as [E|E].
  - apply M in E. rewrite E. reflexivity.
  - destruct (Z.eqb_spec (memcmp (from buf p) t 5) 0) as [C|C].
    + apply M in C. contradiction.
    + reflexivity.
Qed.

(* ------------------------------------------------------------------ *)
(** ** The TCP6 branch on a TCP6 line *)

Lemma digits_field ds : Forall is_digit ds -> is_field ds.
Proof.
  unfold is_field. apply Forall_impl. unfold is_digit. intros a Ha. lia.
Qed.

Lemma tcp6_scan_field f : forall fuel buf p end_ d s dp,
  is_field f -> holds buf p f -> p + Z.of_nat (length f) <= end_ - 1 ->
  (length f <= fuel)%nat ->
  tcp6_scan fuel buf p end_ d s dp =
  tcp6_scan (fuel - length f) buf (p + Z.of_nat (length f)) end_ d s dp.
Proof.
  induction f as [|x f IH]; intros fuel buf p end_ d s dp Hf Hh He Hfu.
  - cbn [length]. rewrite Nat.sub_0_r, Z.add_0_r. reflexivity.
  - apply holds_cons in Hh. destruct Hh as (D & _ & P0 & Hh).
    pose proof (Forall_inv Hf) as (X1 & X2 & _). apply Forall_inv_tail in Hf.
    cbn [length] in *. destruct fuel as [|fuel]; [lia|].
    cbn [tcp6_scan]. rewrite D.
    destruct (Z.gtb_spec p (end_ - 2)); [lia|].
    destruct (Z.eqb_spec x 13); [contradiction|].
    destruct (Z.eqb_spec x 32); [contradiction|].
    rewrite (IH fuel buf (p + 1) end_ d s dp) by (trivial; lia).
    replace (S fuel - S (length f))%nat with (fuel - length f)%nat by lia.
    f_equal. lia.
Qed.

Lemma tcp6_scan_space fuel buf p end_ d s dp :
  deref buf p = 32 -> p <= end_ - 2 ->
  tcp6_scan (S fuel) buf p end_ d s dp =
  match d, s, dp with
  | None, _, _ => tcp6_scan fuel (store buf p 0) (p + 1) end_ (Some (p + 1)) s dp
  | Some _, None, _ => tcp6_scan fuel (store buf p 0) (p + 1) end_ d (Some (p + 1)) dp
  | Some _, Some _, None => tcp6_scan fuel (store buf p 0) (p + 1) end_ d s (Some (p + 1))
  | Some _, Some _, Some _ => tcp6_scan fuel (store buf p 0) (p + 1) end_ d s dp
  end.
Proof.
  intros D He. cbn [tcp6_scan]. rewrite D.
  destruct (Z.gtb_spec p (end_ - 2)); [lia|]. reflexivity.
Qed.

Lemma tcp6_scan_crlf fuel buf p end_ d s dp :
  deref buf p = 13 -> deref buf (p + 1) = 10 -> 0 <= p -> p <= end_ - 2 ->
  tcp6_scan (S fuel) buf p end_ d s dp =
  (store buf p 0, inr (p + 2, d, s, dp)).
Proof.
  intros D1 D2 P0 He. cbn [tcp6_scan]. rewrite D1.
  destruct (Z.gtb_spec p (end_ - 2)); [lia|]. cbn [Z.eqb Pos.eqb].
  rewrite deref_store_other, D2 by lia. cbn [Z.eqb Pos.eqb negb].
  replace (p + 1 + 1) with (p + 2) by lia. reflexivity.
Qed.

Lemma from_cons buf p :
  0 <= p < Z.of_nat (length buf) -> from buf p = deref buf p :: from buf (p + 1).
Proof.
  intros Hp. rewrite <- tl_from, <- hd_from by lia.
  unfold from. destruct (skipn (Z.to_nat p) buf) eqn:E; [|reflexivity].
  apply (f_equal (@length Z)) in E. rewrite length_skipn in E. cbn in E. lia.
Qed.

Lemma cstring_from t : forall buf p,
  holds buf p t -> Forall (fun x => x <> 0) t ->
  deref buf (p + Z.of_nat (length t)) = 0 ->
  cstring (from buf p) = t.
Proof.
  induction t as [|x t IH]; intros buf p Hh Hz D.
  - cbn [length] in D. rewrite Z.add_0_r in D.
    pose proof (holds_nonneg _ _ _ Hh) as P0.
    rewrite <- hd_from in D by assumption.
    destruct (from buf p) as [|y l]; [reflexivity|].
    cbn [hd] in D. subst y. reflexivity.
  - apply holds_cons in Hh. destruct Hh as (Dx & Hl & P0 & Hh).
    pose proof (Forall_inv Hz) as Hx. apply Forall_inv_tail in Hz.
    cbn beta in Hx. rewrite from_cons, Dx by lia. cbn [cstring].
    destruct (Z.eqb_spec x 0); [contradiction|]. f_equal.
    apply IH; trivial. cbn [length] in D.
    replace (p + 1 + Z.of_nat (length t)) with (p + Z.of_nat (S (length t))) by lia.
    exact D.
Qed.

Lemma tcp6_scan_space' fuel buf p end_ d s dp :
  (0 < fuel)%nat -> deref buf p = 32 -> p <= end_ - 2 ->
  tcp6_scan fuel buf p end_ d s dp =
  match d, s, dp with
  | None, _, _ =>
      tcp6_scan (fuel - 1) (store buf p 0) (p + 1) end_ (Some (p + 1)) s dp
  | Some _, None, _ =>
      tcp6_scan (fuel - 1) (store buf p 0) (p + 1) end_ d (Some (p + 1)) dp
  | Some _, Some _, None =>
      tcp6_scan (fuel - 1) (store buf p 0) (p + 1) end_ d s (Some (p + 1))
  | Some _, Some _, Some _ =>
      tcp6_scan (fuel - 1) (store buf p 0) (p + 1) end_ d s dp
  end.
Proof.
  intros Hf. destruct fuel as [|fuel]; [lia|].
  replace (S fuel - 1)%nat with fuel by lia. apply tcp6_scan_space.
Qed.

Lemma tcp6_scan_crlf' fuel buf p end_ d s dp :
  (0 < fuel)%nat ->
  deref buf p = 13 -> deref buf (p + 1) = 10 -> 0 <= p -> p <= end_ - 2 ->
  tcp6_scan fuel buf p end_ d s dp = (store buf p 0, inr (p + 2, d, s, dp)).
Proof.
  intros Hf. destruct fuel as [|fuel]; [lia|]. apply tcp6_scan_crlf.
Qed.

Lemma parse_tcp6_text {L : co_layout} {LC : libc_inet6}
  c buf end_ t1 t2 a b ds1 ds2 :
  is_field t1 -> is_field t2 -> Forall is_digit ds1 -> Forall is_digit ds2 ->
  inet_pton6 t1 = Some a -> inet_pton6 t2 = Some b ->
  let line := bytes "PROXY TCP6 " ++ t1 ++ [32] ++ t2 ++ [32] ++
              ds1 ++ [32] ++ ds2 ++ [13; 10] in
  holds buf 0 line -> Z.of_nat (length line) <= end_ ->
  exists buf',
    parse_tcp6 c buf 6 end_ =
    P_done (with_addrs6 c a b (dec_value ds1 mod 2 ^ 32)
              (dec_value ds2 mod 2 ^ 32))
      buf' (Z.of_nat (length line)).
Proof.
  intros F1 F2 G1 G2 Pa Pb line Hh He. subst line.
  pose proof (digits_field _ G1) as F3. pose proof (digits_field _ G2) as F4.
  pose proof (holds_bound _ _ _ Hh) as Hb.
  repeat rewrite length_app in He, Hb.
  repeat (rewrite holds_app in Hh || rewrite holds_cons in Hh).
  repeat rewrite length_app.
  change (length (bytes "PROXY TCP6 ")) with 11%nat in *.
  cbn [length] in *. rewrite ?Nat2Z.inj_add in *.
  change (Z.of_nat 11) with 11 in *. change (Z.of_nat 1) with 1 in *.
  change (Z.of_nat 2) with 2 in *. rewrite !Z.add_0_l in Hh.
  rewrite Z.add_0_r in Hb.
  set (q1 := 11 + Z.of_nat (length t1)) in *.
  set (q2 := q1 + 1 + Z.of_nat (length t2)) in *.
  set (q3 := q2 + 1 + Z.of_nat (length ds1)) in *.
  set (q4 := q3 + 1 + Z.of_nat (length ds2)) in *.
  destruct Hh as (_ & H1 & (D1 & _ & _ & _) & H2 & (D2 & _ & _ & _) & H3 &
                  (D3 & _ & _ & _) & H4 & D4 & _ & _ & D5 & _).
  set (b1 := store buf q1 0). set (b2 := store b1 q2 0).
  set (b3 := store b2 q3 0). set (b4 := store b3 q4 0).
  assert (Q : 11 <= q1 < q2 /\ q2 < q3 /\ q3 < q4 /\
              q4 + 2 <= Z.of_nat (length buf) /\ q4 + 2 <= end_) by lia.
  assert (L1 : length b1 = length buf) by apply length_store.
  assert (L2 : length b2 = length buf) by (unfold b2; now rewrite length_store).
  assert (L3 : length b3 = length buf) by (unfold b3; now rewrite length_store).
  (* the scan *)
  assert (S : tcp6_scan (S (Z.to_nat (end_ - 11))) buf 11 end_ None None None =
              (b4, inr (q4 + 2, Some (q1 + 1), Some (q2 + 1), Some (q3 + 1)))).
  { rewrite (tcp6_scan_field t1) by (trivial; lia). fold q1.
    rewrite tcp6_scan_space' by (trivial; lia). fold b1.
    rewrite (tcp6_scan_field t2);
      [ | trivial | apply holds_store; [trivial | lia] | lia | lia ].
    fold q2.
    rewrite tcp6_scan_space';
      [ | lia | unfold b1; rewrite deref_store_other by lia; trivial | lia ].
    fold b2.
    rewrite (tcp6_scan_field ds1);
      [ | trivial | repeat (apply holds_store; [ | lia ]); trivial | lia | lia ].
    fold q3.
    rewrite tcp6_scan_space';
      [ | lia | unfold b2, b1; rewrite !deref_store_other by lia; trivial | lia ].
    fold b3.
    rewrite (tcp6_scan_field ds2);
      [ | trivial | repeat (apply holds_store; [ | lia ]); trivial | lia | lia ].
    fold q4.
    rewrite tcp6_scan_crlf';
      [ reflexivity | lia
      | unfold b3, b2, b1; rewrite !deref_store_other by lia; trivial
      | unfold b3, b2, b1; rewrite !deref_store_other by lia; trivial
      | lia | lia ]. }
  exists b4. unfold parse_tcp6. change (6 + 5) with 11. rewrite S.
  (* the two ports *)
  assert (Z3 : deref b4 q3 = 0).
  { unfold b4. rewrite deref_store_other by lia.
    unfold b3. apply deref_store_same. lia. }
  assert (Z4 : deref b4 q4 = 0).
  { unfold b4. apply deref_store_same. lia. }
  assert (Z1 : deref b4 q1 = 0).
  { unfold b4, b3, b2. rewrite !deref_store_other by lia.
    unfold b1. apply deref_store_same. lia. }
  assert (Z2 : deref b4 q2 = 0).
  { unfold b4, b3. rewrite !deref_store_other by lia.
    unfold b2. apply deref_store_same. lia. }
  replace (q3 + 1 - 1) with q3 by lia.
  rewrite (read_uint_digits b4 (q2 + 1) q3 ds1);
    [ | trivial | repeat (apply holds_store; [ | lia ]); trivial
      | left; reflexivity ].
  fold q3. rewrite Z3. cbn [Z.eqb negb].
  replace (q4 + 2 - 2) with q4 by lia.
  rewrite (read_uint_digits b4 (q3 + 1) q4 ds2);
    [ | trivial | repeat (apply holds_store; [ | lia ]); trivial
      | left; reflexivity ].
  fold q4. rewrite Z4. cbn [Z.eqb negb].
  (* the two addresses *)
  assert (NZ : forall t, is_field t -> Forall (fun x => x <> 0) t).
  { intros t. apply Forall_impl. tauto. }
  rewrite (cstring_from t1 b4 11);
    [ | repeat (apply holds_store; [ | lia ]); trivial | auto
      | fold q1; exact Z1 ].
  rewrite Pa.
  rewrite (cstring_from t2 b4 (q1 + 1));
    [ | repeat (apply holds_store; [ | lia ]); trivial | auto
      | fold q2; exact Z2 ].
  rewrite Pb. unfold with_addrs6. f_equal. lia.
Qed.

(* ------------------------------------------------------------------ *)
(** ** [conn_recv_proxy]: the labels *)

Ltac unfold_flags :=
  unfold CO_FL_HANDSHAKE, CO_FL_SOCK_RD_ENA, CO_FL_DATA_RD_ENA,
    CO_FL_CURR_RD_ENA, CO_FL_SOCK_WR_ENA, CO_FL_DATA_WR_ENA,
    CO_FL_CURR_WR_ENA, CO_FL_WAIT_DATA, CO_FL_WAIT_ROOM, CO_FL_ADDR_FROM_SET,
    CO_FL_ADDR_TO_SET, CO_FL_INIT_DATA, CO_FL_WAKE_DATA, CO_FL_SOCK_RD_SH,
    CO_FL_SOCK_WR_SH, CO_FL_ERROR, CO_FL_CONNECTED, CO_FL_WAIT_L4_CONN,
    CO_FL_WAIT_L6_CONN, CO_FL_SEND_PROXY, CO_FL_SSL_WAIT_HS,
    CO_FL_ACCEPT_PROXY in *.

Section RecvProxyLemmas.
Context {L : co_layout} (OK : layout_ok L) {CL : ctrl_layer} {LC : libc_inet6}.
Context {E : Type} {K : kernel E}.

Lemma c_true_flag f x : c_true (Z.land f (CO_FL x)) = flag_on f x.
Proof. unfold c_true. rewrite (land_CO_FL_eq0 OK). apply negb_involutive. Qed.

(** The flags after [fail]: [ERROR] is set, the sock layer's two desire
    bits are clear and the other bits are as before. *)
Lemma proxy_fail_flags (w : world E) x :
  flag_on (flags (w_conn (snd (proxy_fail w)))) x =
  match x with
  | F_ERROR => true
  | F_SOCK_RD_ENA | F_SOCK_WR_ENA => false
  | _ => flag_on (flags (w_conn w)) x
  end.
Proof.
  unfold proxy_fail, __conn_sock_stop_both. cbn [snd w_conn set_conn flags set_flags].
  unfold_flags. flag_simpl OK.
  destruct x; cbn; rewrite ?orb_false_r, ?andb_true_r, ?andb_false_r,
    ?orb_true_r; reflexivity.
Qed.

Lemma proxy_fail_other (w : world E) :
  fst (proxy_fail w) = 0 /\
  err_code (w_conn (snd (proxy_fail w))) = err_code (w_conn w) /\
  addr_from (w_conn (snd (proxy_fail w))) = addr_from (w_conn w) /\
  addr_to (w_conn (snd (proxy_fail w))) = addr_to (w_conn w) /\
  w_ext (snd (proxy_fail w)) = w_ext w /\
  w_recv_ready (snd (proxy_fail w)) = w_recv_ready w.
Proof. repeat split. Qed.

Lemma proxy_fail_failed (w : world E) :
  proxy_failed (w_conn (snd (proxy_fail w))) (err_code (w_conn w)).
Proof.
  unfold proxy_failed. rewrite !proxy_fail_flags. repeat split.
Qed.

Lemma proxy_goto_failed l (w : world E) :
  fst (proxy_goto l w) = 0 /\
  proxy_failed (w_conn (snd (proxy_goto l w))) (label_code l (err_code (w_conn w))) /\
  w_ext (snd (proxy_goto l w)) = w_ext w /\
  fd_recv_ready (snd (proxy_goto l w)) = fd_recv_ready w.
Proof.
  destruct l; cbn [proxy_goto label_code]; cbv zeta;
    (split; [reflexivity | split; [apply proxy_fail_failed | split; reflexivity]]).
Qed.

(** With the entry tests passed and data peeked, what remains is the
    parse. *)
Lemma conn_recv_proxy_peeks (w : world E) flag data e :
  peeks w data e ->
  conn_recv_proxy w flag = proxy_parse (after_peek w (recv_ok data) e) flag.
Proof.
  intros (H1 & H2 & H3 & H4). unfold conn_recv_proxy.
  unfold CO_FL_SOCK_RD_SH. rewrite c_true_flag, H1, H2, H3, H4.
  cbn [negb recv_len].
  destruct (Z.ltb_spec (Z.of_nat (length data)) 0); [lia|reflexivity].
Qed.

Lemma after_peek_holds (w : world E) data e :
  holds (str (w_trash (after_peek w (recv_ok data) e))) 0 data.
Proof. cbn. apply holds_prefix. Qed.

End RecvProxyLemmas.

(* ------------------------------------------------------------------ *)
(** ** [conn_recv_proxy]: failures before the parse *)

(** C6. When the peek returns between 1 and 5 bytes, or returns fewer than
    18 bytes that start with "PROXY ", [conn_recv_proxy] records
    [CO_ER_PRX_TRUNCATED], stops both directions of the sock layer's
    polling, sets [ERROR] and returns 0; it does not tell the poller to
    wait for more data and nothing is read for good. *)
Theorem conn_recv_proxy_truncated
  {L : co_layout} (OK : layout_ok L) {CL : ctrl_layer} {LC : libc_inet6}
  {E : Type} {K : kernel E} (w : world E) (flag : Z) (data : list Z) (e : E) :
  peeks w data e ->
  (1 <= Z.of_nat (length data) <= 5 \/
   ((exists rest, data = bytes "PROXY " ++ rest) /\
    Z.of_nat (length data) < 18)) ->
  fst (conn_recv_proxy w flag) = 0 /\
  proxy_failed (w_conn (snd (conn_recv_proxy w flag))) CO_ER_PRX_TRUNCATED /\
  w_ext (snd (conn_recv_proxy w flag)) = e /\
  fd_recv_ready (snd (conn_recv_proxy w flag)) = true.
Proof.
  intros Hp Hd. rewrite (conn_recv_proxy_peeks OK w flag data e Hp).
  pose proof Hp as (_ & _ & Hr & _).
  assert (G : proxy_parse (after_peek w (recv_ok data) e) flag =
              proxy_goto L_missing (after_peek w (recv_ok data) e)).
  { unfold proxy_parse, proxy_header.
    cbn [w_trash after_peek set_trash len recv_len str].
    destruct Hd as [Hd | ((rest & ->) & Hd)].
    - destruct (Z.eqb_spec (Z.of_nat (length data)) 0); [lia|].
      destruct (Z.ltb_spec (Z.of_nat (length data)) 6); [reflexivity|lia].
    - set (data := bytes "PROXY " ++ rest) in *.
      assert (6 <= Z.of_nat (length data)).
      { unfold data. rewrite length_app. cbn [length bytes]. cbn. lia. }
      destruct (Z.eqb_spec (Z.of_nat (length data)) 0); [lia|].
      destruct (Z.ltb_spec (Z.of_nat (length data)) 6); [lia|].
      assert (S0 : strncmp (from (recv_into (str (w_trash w)) (recv_ok data)) 0)
                     (bytes "PROXY ") 6 = 0).
      { apply (strncmp_from (bytes "PROXY ")); try reflexivity.
        - cbn [recv_into]. unfold data. rewrite <- app_assoc.
          apply holds_prefix.
        - cbn. repeat constructor; lia. }
      rewrite S0. cbn [c_ne c_true Z.eqb negb].
      destruct (Z.ltb_spec (Z.of_nat (length data)) 18); [reflexivity|lia]. }
  rewrite G.
  destruct (proxy_goto_failed OK L_missing (after_peek w (recv_ok data) e))
    as (R1 & R2 & R3 & R4).
  cbn [label_code] in R2.
  split; [exact R1|]. split; [exact R2|]. split; [exact R3|].
  rewrite R4. exact Hr.
Qed.

(** C3. When the peeked bytes start with "PROXY ", are 18 bytes or more,
    and the five bytes that follow are neither "TCP4 " nor "TCP6 ",
    [conn_recv_proxy] records [CO_ER_PRX_BAD_PROTO], stops both directions
    of the sock layer's polling, sets [ERROR] and returns 0. *)
Theorem conn_recv_proxy_bad_proto
  {L : co_layout} (OK : layout_ok L) {CL : ctrl_layer} {LC : libc_inet6}
  {E : Type} {K : kernel E} (w : world E) (flag : Z)
  (data tag rest : list Z) (e : E) :
  peeks w data e ->
  data = bytes "PROXY " ++ tag ++ rest ->
  length tag = 5%nat ->
  18 <= Z.of_nat (length data) ->
  tag <> bytes "TCP4 " -> tag <> bytes "TCP6 " ->
  fst (conn_recv_proxy w flag) = 0 /\
  proxy_failed (w_conn (snd (conn_recv_proxy w flag))) CO_ER_PRX_BAD_PROTO.
Proof.
  intros Hp Hd Ht Hl N4 N6. rewrite (conn_recv_proxy_peeks OK w flag data e Hp).
  set (w1 := after_peek w (recv_ok data) e).
  assert (Hh : holds (str (w_trash w1)) 0 data) by apply after_peek_holds.
  assert (G : proxy_parse w1 flag =
              proxy_goto L_fail
                (set_conn w1 (set_err_code (w_conn w1) CO_ER_PRX_BAD_PROTO))).
  { unfold proxy_parse, proxy_header.
    replace (len (w_trash w1)) with (Z.of_nat (length data)) by reflexivity.
    destruct (Z.eqb_spec (Z.of_nat (length data)) 0); [lia|].
    destruct (Z.ltb_spec (Z.of_nat (length data)) 6); [lia|].
    rewrite Hd in Hh. apply holds_app in Hh. destruct Hh as (H1 & H2).
    apply holds_app in H2. destruct H2 as (H2 & _).
    assert (S0 : strncmp (from (str (w_trash w1)) 0) (bytes "PROXY ") 6 = 0).
    { apply (strncmp_from (bytes "PROXY ")); try reflexivity; trivial.
      cbn. repeat constructor; lia. }
    rewrite S0. cbn [c_ne c_true Z.eqb negb].
    destruct (Z.ltb_spec (Z.of_nat (length data)) 18); [lia|].
    unfold tcp4_test, tcp6_test.
    change (0 + Z.of_nat (length (bytes "PROXY "))) with 6 in H2.
    change (0 + 6) with 6.
    rewrite (tag_test_value _ 6 tag (bytes "TCP4 ") H2 Ht eq_refl).
    rewrite (tag_test_value _ 6 tag (bytes "TCP6 ") H2 Ht eq_refl).
    unfold list_Z_eqb.
    destruct (list_eq_dec Z.eq_dec tag (bytes "TCP4 ")); [contradiction|].
    destruct (list_eq_dec Z.eq_dec tag (bytes "TCP6 ")); [contradiction|].
    reflexivity. }
  rewrite G.
  destruct (proxy_goto_failed OK L_fail
              (set_conn w1 (set_err_code (w_conn w1) CO_ER_PRX_BAD_PROTO)))
    as (R1 & R2 & _).
  split; [exact R1 | exact R2].
Qed.

(* ------------------------------------------------------------------ *)
(** ** [conn_recv_proxy]: the second read *)

Section RereadLemmas.
Context {L : co_layout} (OK : layout_ok L) {CL : ctrl_layer} {LC : libc_inet6}.
Context {E : Type} {K : kernel E}.

Ltac break_match :=
  repeat match goal with
  | H : context [match ?x with _ => _ end] |- _ =>
      match type of x with
      | sumbool _ _ => fail 1
      | _ => destruct x eqn:?
      end
  end.

Lemma parse_tcp4_done c buf line end_ c' buf' line' :
  parse_tcp4 c buf line end_ = P_done c' buf' line' ->
  flags c' = Z.lor (flags c) (Z.lor CO_FL_ADDR_FROM_SET CO_FL_ADDR_TO_SET) /\
  err_code c' = err_code c /\ sock_fd c' = sock_fd c.
Proof.
  unfold parse_tcp4. intros H. break_match; try discriminate.
  injection H as <- _ _. repeat split.
Qed.

Lemma parse_tcp6_done c buf line end_ c' buf' line' :
  parse_tcp6 c buf line end_ = P_done c' buf' line' ->
  flags c' = Z.lor (flags c) (Z.lor CO_FL_ADDR_FROM_SET CO_FL_ADDR_TO_SET) /\
  err_code c' = err_code c /\ sock_fd c' = sock_fd c.
Proof.
  unfold parse_tcp6. intros H. break_match; try discriminate.
  injection H as <- _ _. repeat split.
Qed.

(** A valid header changes nothing of the connection but the addresses and
    the two [ADDR_*_SET] flags, and nothing of the kernel. *)
Lemma proxy_header_valid (w w2 : world E) line :
  proxy_header w = inr (w2, line) ->
  flags (w_conn w2) =
    Z.lor (flags (w_conn w)) (Z.lor CO_FL_ADDR_FROM_SET CO_FL_ADDR_TO_SET) /\
  err_code (w_conn w2) = err_code (w_conn w) /\
  sock_fd (w_conn w2) = sock_fd (w_conn w) /\
  w_ext w2 = w_ext w.
Proof.
  unfold proxy_header. intros H. break_match; try discriminate;
    repeat match goal with
    | H : Some _ = Some _ |- _ => injection H as H
    | H : inr _ = inr _ |- _ => injection H as ? ?
    end; subst; cbn [w_conn set_trash set_conn w_ext];
    match goal with
    | H : parse_tcp4 _ _ _ _ = P_done _ _ _ |- _ =>
        apply parse_tcp4_done in H; tauto
    | H : parse_tcp6 _ _ _ _ = P_done _ _ _ |- _ =>
        apply parse_tcp6_done in H; tauto
    end.
Qed.

(** The second read fell short: [recv_abort]. *)
Lemma proxy_reread_abort (w : world E) flag line r e :
  sys_recv (w_ext w) (sock_fd (w_conn w)) line 0 = (r, e) ->
  recv_len r <> line ->
  0 <= recv_len r \/ recv_errno r <> EINTR ->
  exists w', proxy_reread w flag line = proxy_goto L_recv_abort w' /\
             w_conn w' = w_conn w.
Proof.
  intros Hr Hn Hi. unfold proxy_reread. rewrite Hr.
  destruct (Z.eqb_spec (recv_len r) line); [contradiction|].
  assert (((recv_len r <? 0) && (recv_errno r =? EINTR)) = false) as ->.
  { destruct Hi as [Hi|Hi].
    - destruct (Z.ltb_spec (recv_len r) 0); [lia|reflexivity].
    - destruct (Z.eqb_spec (recv_errno r) EINTR); [contradiction|].
      apply andb_false_r. }
  cbn [negb andb]. eexists. split; reflexivity.
Qed.

(** The second read gave the whole line. *)
Lemma proxy_reread_done (w : world E) flag line data e :
  sys_recv (w_ext w) (sock_fd (w_conn w)) line 0 = (recv_ok data, e) ->
  Z.of_nat (length data) = line ->
  fst (proxy_reread w flag line) = 1 /\
  w_conn (snd (proxy_reread w flag line)) =
    set_flags (w_conn w) (Z.land (flags (w_conn w)) (Z.lnot flag)) /\
  w_ext (snd (proxy_reread w flag line)) = e /\
  len (w_trash (snd (proxy_reread w flag line))) = line.
Proof.
  intros Hr Hl. unfold proxy_reread. rewrite Hr. cbn [recv_len].
  rewrite Hl, Z.eqb_refl, andb_false_r. repeat split.
Qed.

End RereadLemmas.

(** C7. When the header peeked is valid and [line] bytes long but the second
    read, of exactly [line] bytes, returns another count of bytes (or fails
    with an error that is not [EINTR]), [conn_recv_proxy] records
    [CO_ER_PRX_ABORT], sets [SOCK_RD_SH] and [SOCK_WR_SH], stops the sock
    layer's polling, sets [ERROR] and returns 0; the handshake bits are as
    they were on entry. *)
Theorem conn_recv_proxy_abort
  {L : co_layout} (OK : layout_ok L) {CL : ctrl_layer} {LC : libc_inet6}
  {E : Type} {K : kernel E} (w : world E) (flag : Z) (data : list Z) (e : E)
  (w2 : world E) (line : Z) (r2 : recv_ret) (e2 : E) :
  peeks w data e ->
  proxy_header (after_peek w (recv_ok data) e) = inr (w2, line) ->
  sys_recv e (sock_fd (w_conn w)) line 0 = (r2, e2) ->
  recv_len r2 <> line ->
  0 <= recv_len r2 \/ recv_errno r2 <> EINTR ->
  let c' := w_conn (snd (conn_recv_proxy w flag)) in
  fst (conn_recv_proxy w flag) = 0 /\
  proxy_failed c' CO_ER_PRX_ABORT /\
  flag_on (flags c') F_SOCK_RD_SH = true /\
  flag_on (flags c') F_SOCK_WR_SH = true /\
  flag_on (flags c') F_ACCEPT_PROXY = flag_on (flags (w_conn w)) F_ACCEPT_PROXY /\
  flag_on (flags c') F_SEND_PROXY = flag_on (flags (w_conn w)) F_SEND_PROXY /\
  flag_on (flags c') F_SSL_WAIT_HS = flag_on (flags (w_conn w)) F_SSL_WAIT_HS.
Proof.
  intros Hp Hh Hr Hn Hi c'. subst c'.
  rewrite (conn_recv_proxy_peeks OK w flag data e Hp).
  unfold proxy_parse. rewrite Hh.
  destruct (proxy_header_valid _ _ _ Hh) as (F2 & _ & S2 & X2).
  cbn [after_peek w_conn w_ext set_trash set_ext] in F2, S2, X2.
  destruct (proxy_reread_abort w2 flag line r2 e2) as (w' & -> & Hc); trivial.
  { rewrite X2, S2. exact Hr. }
  destruct (proxy_goto_failed OK L_recv_abort w') as (R1 & R2 & _).
  split; [exact R1|]. split; [exact R2|].
  cbn [proxy_goto]. cbv zeta. rewrite !(proxy_fail_flags OK).
  cbn [w_conn set_conn flags set_flags set_err_code]. rewrite Hc, F2.
  unfold_flags. flag_simpl OK. cbn. rewrite ?orb_false_r, ?orb_true_r.
  repeat split.
Qed.

(* ------------------------------------------------------------------ *)
(** ** [conn_recv_proxy]: valid headers *)

Lemma utoa_aux_length fuel : forall n acc,
  (length acc <= length (utoa_aux fuel n acc))%nat.
Proof.
  induction fuel as [|fuel IH]; intros n acc; cbn [utoa_aux]; [lia|].
  destruct (n <? 10); cbn [length]; [lia|].
  specialize (IH (n / 10) ((48 + n mod 10) :: acc)). cbn [length] in IH. lia.
Qed.

Lemma utoa_nonempty n : (1 <= length (utoa n))%nat.
Proof.
  unfold utoa. cbn [utoa_aux]. destruct (n <? 10); cbn [length]; [lia|].
  pose proof (utoa_aux_length 9 (n / 10) [48 + n mod 10]) as H.
  cbn [length] in H. exact H.
Qed.

Lemma inet_ntop4_length a : is_bytes 4 a -> (7 <= length (inet_ntop4 a))%nat.
Proof.
  intros H. destruct (is_bytes_4 a H) as (a1 & a2 & a3 & a4 & -> & _).
  unfold inet_ntop4. repeat rewrite length_app. cbn [length].
  pose proof (utoa_nonempty a1). pose proof (utoa_nonempty a2).
  pose proof (utoa_nonempty a3). pose proof (utoa_nonempty a4). lia.
Qed.

Lemma tcp4_line_length src dst sport dport :
  is_bytes 4 src -> is_bytes 4 dst ->
  (30 <= length (tcp4_line src dst sport dport))%nat.
Proof.
  intros Hs Hd. unfold tcp4_line. repeat rewrite length_app.
  change (length (bytes "PROXY TCP4 ")) with 11%nat. cbn [length].
  pose proof (inet_ntop4_length src Hs). pose proof (inet_ntop4_length dst Hd).
  lia.
Qed.

Section HeaderLemmas.
Context {L : co_layout} (OK : layout_ok L) {CL : ctrl_layer} {LC : libc_inet6}.
Context {E : Type} {K : kernel E}.

(** The tests before the dispatch pass on a buffer that starts with
    "PROXY " and is long enough. *)
Lemma proxy_header_prefix (w : world E) tag rest :
  holds (str (w_trash w)) 0 (bytes "PROXY " ++ tag ++ rest) ->
  length tag = 5%nat ->
  18 <= len (w_trash w) ->
  holds (str (w_trash w)) 6 tag /\
  proxy_header w =
    let trash := w_trash w in
    let c := w_conn w in
    let p :=
      if c_true (tcp4_test (str trash) 6)
      then Some (parse_tcp4 c (str trash) 6 (len trash))
      else if c_true (tcp6_test (str trash) 6)
      then Some (parse_tcp6 c (str trash) 6 (len trash))
      else None in
    match p with
    | None =>
        inl (proxy_goto L_fail
               (set_conn w (set_err_code c CO_ER_PRX_BAD_PROTO)))
    | Some (P_goto l buf) =>
        inl (proxy_goto l
               (set_trash w
                  {| str := buf; len := len trash; size := size trash |}))
    | Some (P_done c buf line) =>
        inr (set_trash (set_conn w c)
               {| str := buf; len := len trash; size := size trash |},
             line)
    end.
Proof.
  intros Hh Ht Hl.
  apply holds_app in Hh. destruct Hh as (H1 & H2).
  apply holds_app in H2. destruct H2 as (H2 & _).
  change (0 + Z.of_nat (length (bytes "PROXY "))) with 6 in H2.
  split; [exact H2|].
  unfold proxy_header.
  destruct (Z.eqb_spec (len (w_trash w)) 0); [lia|].
  destruct (Z.ltb_spec (len (w_trash w)) 6); [lia|].
  assert (S0 : strncmp (from (str (w_trash w)) 0) (bytes "PROXY ") 6 = 0).
  { apply (strncmp_from (bytes "PROXY ")); try reflexivity; trivial.
    cbn. repeat constructor; lia. }
  rewrite S0. cbn [c_ne c_true Z.eqb negb].
  destruct (Z.ltb_spec (len (w_trash w)) 18); [lia|].
  reflexivity.
Qed.

Lemma proxy_header_tcp4 (w : world E) src dst sport dport :
  is_bytes 4 src -> is_bytes 4 dst ->
  Forall is_digit sport -> Forall is_digit dport ->
  holds (str (w_trash w)) 0 (tcp4_line src dst sport dport) ->
  Z.of_nat (length (tcp4_line src dst sport dport)) <= len (w_trash w) ->
  proxy_header w =
  inr (set_trash
         (set_conn w (with_addrs4 (w_conn w) src dst
                        (dec_value sport mod 2 ^ 32)
                        (dec_value dport mod 2 ^ 32)))
         {| str := str (w_trash w); len := len (w_trash w);
            size := size (w_trash w) |},
       Z.of_nat (length (tcp4_line src dst sport dport))).
Proof.
  intros Hs Hd G1 G2 Hh Hl.
  pose proof (tcp4_line_length src dst sport dport Hs Hd) as H30.
  destruct (proxy_header_prefix w (bytes "TCP4 ")
              (inet_ntop4 src ++ [32] ++ inet_ntop4 dst ++ [32] ++
               sport ++ [32] ++ dport ++ [13; 10])) as (T & ->);
    [exact Hh | reflexivity | lia |].
  cbv zeta. unfold tcp4_test.
  rewrite (tag_test_value _ 6 (bytes "TCP4 ") (bytes "TCP4 ") T eq_refl eq_refl).
  cbn [list_Z_eqb c_true].
  replace (c_true (if list_Z_eqb (bytes "TCP4 ") (bytes "TCP4 ") then 1 else 0))
    with true by reflexivity.
  rewrite (parse_tcp4_line (w_conn w) _ _ src dst sport dport); trivial.
Qed.

Lemma proxy_header_tcp6 (w : world E) t1 t2 a b sport dport :
  is_field t1 -> is_field t2 ->
  Forall is_digit sport -> Forall is_digit dport ->
  inet_pton6 t1 = Some a -> inet_pton6 t2 = Some b ->
  let line := bytes "PROXY TCP6 " ++ t1 ++ [32] ++ t2 ++ [32] ++
              sport ++ [32] ++ dport ++ [13; 10] in
  holds (str (w_trash w)) 0 line ->
  Z.of_nat (length line) <= len (w_trash w) ->
  18 <= len (w_trash w) ->
  exists buf',
    proxy_header w =
    inr (set_trash
           (set_conn w (with_addrs6 (w_conn w) a b
                          (dec_value sport mod 2 ^ 32)
                          (dec_value dport mod 2 ^ 32)))
           {| str := buf'; len := len (w_trash w);
              size := size (w_trash w) |},
         Z.of_nat (length line)).
Proof.
  intros F1 F2 G1 G2 Pa Pb line Hh Hl H18.
  destruct (proxy_header_prefix w (bytes "TCP6 ")
              (t1 ++ [32] ++ t2 ++ [32] ++
               sport ++ [32] ++ dport ++ [13; 10])) as (T & ->);
    [exact Hh | reflexivity | lia |].
  cbv zeta. unfold tcp4_test, tcp6_test.
  rewrite (tag_test_value _ 6 (bytes "TCP6 ") (bytes "TCP4 ") T eq_refl eq_refl).
  rewrite (tag_test_value _ 6 (bytes "TCP6 ") (bytes "TCP6 ") T eq_refl eq_refl).
  replace (c_true (if list_Z_eqb (bytes "TCP6 ") (bytes "TCP4 ") then 1 else 0))
    with false by reflexivity.
  replace (c_true (if list_Z_eqb (bytes "TCP6 ") (bytes "TCP6 ") then 1 else 0))
    with true by reflexivity.
  destruct (parse_tcp6_text (w_conn w) (str (w_trash w)) (len (w_trash w))
              t1 t2 a b sport dport F1 F2 G1 G2 Pa Pb Hh Hl) as (buf' & ->).
  exists buf'. reflexivity.
Qed.

(** A valid header and a second read that gives the whole line. *)
Lemma conn_recv_proxy_done (w : world E) flag data e w2 line d2 e2 :
  peeks w data e ->
  proxy_header (after_peek w (recv_ok data) e) = inr (w2, line) ->
  sys_recv e (sock_fd (w_conn w)) line 0 = (recv_ok d2, e2) ->
  Z.of_nat (length d2) = line ->
  fst (conn_recv_proxy w flag) = 1 /\
  w_conn (snd (conn_recv_proxy w flag)) =
    set_flags (w_conn w2) (Z.land (flags (w_conn w2)) (Z.lnot flag)) /\
  w_ext (snd (conn_recv_proxy w flag)) = e2 /\
  len (w_trash (snd (conn_recv_proxy w flag))) = line.
Proof.
  intros Hp Hh Hr Hl.
  rewrite (conn_recv_proxy_peeks OK w flag data e Hp).
  unfold proxy_parse. rewrite Hh.
  destruct (proxy_header_valid _ _ _ Hh) as (_ & _ & S2 & X2).
  cbn [after_peek w_conn w_ext set_trash set_ext] in S2, X2.
  apply (proxy_reread_done w2 flag line d2 e2); trivial.
  rewrite X2, S2. exact Hr.
Qed.

End HeaderLemmas.

(* ------------------------------------------------------------------ *)
(** ** [make_proxy_line] *)

Lemma firstn_fits (l : list Z) n :
  Z.of_nat (length l) <= n -> firstn (Z.to_nat n) l = l.
Proof. intros H. apply firstn_all2. lia. Qed.

(** With room for the line and its final NUL, [make_proxy_line] writes the
    TCP4 line of the two addresses and returns its length. *)
Lemma make_proxy_line_tcp4 {LC : libc_inet6} N src dst :
  ss_family src = AF_INET -> ss_family dst = AF_INET ->
  let line := tcp4_line (sin_addr src) (sin_addr dst)
                (utoa (ntohs (sin_port src))) (utoa (ntohs (sin_port dst))) in
  Z.of_nat (length line) < N ->
  make_proxy_line N (Some src) (Some dst) = (Z.of_nat (length line), line).
Proof.
  intros Fs Fd line HN. subst line. unfold tcp4_line in *.
  repeat rewrite length_app in HN.
  change (length (bytes "PROXY TCP4 ")) with 11%nat in HN.
  cbn [length] in HN.
  unfold make_proxy_line. rewrite Fs, Fd. cbn [Z.eqb Pos.eqb andb AF_INET].
  change (AF_INET =? AF_INET) with true. cbn [andb].
  unfold snprintf, inet_ntop.
  change (length (bytes "PROXY TCP4 ")) with 11%nat.
  change (Z.of_nat 11) with 11.
  destruct (Z.geb_spec 11 N); [lia|].
  destruct (Z.ltb_spec N 0); [lia|].
  rewrite (firstn_fits (bytes "PROXY TCP4 ")) by (cbn; lia).
  destruct (Z.ltb_spec (N - 11) (Z.of_nat (length (inet_ntop4 (sin_addr src))) + 1));
    [lia|].
  match goal with |- context [?x >=? N] =>
    destruct (Z.geb_spec x N); [lia|] end.
  match goal with |- context [?x <? ?y + 1] =>
    destruct (Z.ltb_spec x (y + 1)); [lia|] end.
  match goal with |- context [?x >=? N] =>
    destruct (Z.geb_spec x N); [lia|] end.
  match goal with |- context [?x <? 0] =>
    destruct (Z.ltb_spec x 0); [lia|] end.
  rewrite firstn_fits by (repeat rewrite length_app; cbn [length]; lia).
  match goal with |- context [?x >=? N] =>
    destruct (Z.geb_spec x N) as [C|C] end.
  { exfalso. revert C. repeat rewrite length_app. cbn [length]. lia. }
  f_equal.
  - repeat rewrite length_app.
    change (length (bytes "PROXY TCP4 ")) with 11%nat.
    change (length (bytes "PROXY TCP6 ")) with 11%nat.
    cbn [length]. lia.
  - repeat rewrite <- app_assoc. reflexivity.
Qed.

Lemma make_proxy_line_tcp6 {LC : libc_inet6} N src dst :
  ss_family src = AF_INET6 -> ss_family dst = AF_INET6 ->
  let line := tcp6_line (sin6_addr src) (sin6_addr dst)
                (utoa (ntohs (sin_port src))) (utoa (ntohs (sin_port dst))) in
  Z.of_nat (length line) < N ->
  make_proxy_line N (Some src) (Some dst) = (Z.of_nat (length line), line).
Proof.
  intros Fs Fd line HN. subst line. unfold tcp6_line in *.
  repeat rewrite length_app in HN.
  change (length (bytes "PROXY TCP6 ")) with 11%nat in HN.
  cbn [length] in HN.
  unfold make_proxy_line. rewrite Fs, Fd.
  change (AF_INET6 =? AF_INET6) with true.
  change (AF_INET6 =? AF_INET) with false. cbn [andb].
  unfold snprintf, inet_ntop.
  change (length (bytes "PROXY TCP6 ")) with 11%nat.
  change (Z.of_nat 11) with 11.
  destruct (Z.geb_spec 11 N); [lia|].
  destruct (Z.ltb_spec N 0); [lia|].
  rewrite (firstn_fits (bytes "PROXY TCP6 ")) by (cbn; lia).
  destruct (Z.ltb_spec (N - 11) (Z.of_nat (length (inet_ntop6 (sin6_addr src))) + 1));
    [lia|].
  match goal with |- context [?x >=? N] =>
    destruct (Z.geb_spec x N); [lia|] end.
  match goal with |- context [?x <? ?y + 1] =>
    destruct (Z.ltb_spec x (y + 1)); [lia|] end.
  match goal with |- context [?x >=? N] =>
    destruct (Z.geb_spec x N); [lia|] end.
  match goal with |- context [?x <? 0] =>
    destruct (Z.ltb_spec x 0); [lia|] end.
  rewrite firstn_fits by (repeat rewrite length_app; cbn [length]; lia).
  match goal with |- context [?x >=? N] =>
    destruct (Z.geb_spec x N) as [C|C] end.
  { exfalso. revert C. repeat rewrite length_app. cbn [length]. lia. }
  f_equal.
  - repeat rewrite length_app.
    change (length (bytes "PROXY TCP4 ")) with 11%nat.
    change (length (bytes "PROXY TCP6 ")) with 11%nat.
    cbn [length]. lia.
  - repeat rewrite <- app_assoc. reflexivity.
Qed.

(* ------------------------------------------------------------------ *)
(** ** [conn_recv_proxy]: a header accepted *)

Lemma ntohs_htons x : 0 <= x < 2 ^ 16 -> ntohs (htons x) = x.
Proof.
  intros H. unfold ntohs, htons. change (2 ^ 8) with 256.
  change (2 ^ 16) with 65536 in H.
  rewrite (Z.mod_small (x / 256)) by (Z.div_mod_to_equations; lia).
  pose proof (Z.div_mod x 256). lia.
Qed.

Lemma is_bytes_2 a :
  is_bytes 2 a -> exists hi lo, a = [hi; lo] /\ 0 <= hi < 256 /\ 0 <= lo < 256.
Proof.
  intros (Hl & Hf). destruct a as [|hi [|lo [|]]]; try discriminate.
  inversion Hf as [|? ? ? Hf1]; inversion Hf1; subst. eauto.
Qed.

Section AcceptLemmas.
Context {L : co_layout} (OK : layout_ok L) {CL : ctrl_layer} {LC : libc_inet6}.
Context {E : Type} {K : kernel E}.

Lemma accept_tcp4 (w : world E) flag src dst ds1 ds2 rest e d2 e2 :
  is_bytes 4 src -> is_bytes 4 dst ->
  Forall is_digit ds1 -> Forall is_digit ds2 ->
  peeks w (tcp4_line src dst ds1 ds2 ++ rest) e ->
  sys_recv e (sock_fd (w_conn w))
    (Z.of_nat (length (tcp4_line src dst ds1 ds2))) 0 = (recv_ok d2, e2) ->
  length d2 = length (tcp4_line src dst ds1 ds2) ->
  let c2 := with_addrs4 (w_conn w) src dst
              (dec_value ds1 mod 2 ^ 32) (dec_value ds2 mod 2 ^ 32) in
  fst (conn_recv_proxy w flag) = 1 /\
  w_conn (snd (conn_recv_proxy w flag)) =
    set_flags c2 (Z.land (flags c2) (Z.lnot flag)) /\
  w_ext (snd (conn_recv_proxy w flag)) = e2 /\
  len (w_trash (snd (conn_recv_proxy w flag))) =
    Z.of_nat (length (tcp4_line src dst ds1 ds2)).
Proof.
  intros Hs Hd G1 G2 Hp Hr Hl c2.
  set (line := tcp4_line src dst ds1 ds2) in *.
  set (w1 := after_peek w (recv_ok (line ++ rest)) e).
  assert (Hh : holds (str (w_trash w1)) 0 line).
  { pose proof (after_peek_holds w (line ++ rest) e) as H.
    apply holds_app in H. tauto. }
  assert (Hn : Z.of_nat (length line) <= len (w_trash w1)).
  { unfold w1. cbn [after_peek w_trash set_trash len recv_len].
    rewrite length_app. lia. }
  pose proof (proxy_header_tcp4 w1 src dst ds1 ds2 Hs Hd G1 G2 Hh Hn) as Hv.
  apply (conn_recv_proxy_done OK w flag _ e _ _ d2 e2 Hp Hv Hr).
  now rewrite Hl.
Qed.

Lemma accept_tcp6 (w : world E) flag t1 t2 a b ds1 ds2 rest e d2 e2 :
  is_field t1 -> is_field t2 ->
  Forall is_digit ds1 -> Forall is_digit ds2 -> ds1 <> [] -> ds2 <> [] ->
  inet_pton6 t1 = Some a -> inet_pton6 t2 = Some b ->
  let line := bytes "PROXY TCP6 " ++ t1 ++ [32] ++ t2 ++ [32] ++
              ds1 ++ [32] ++ ds2 ++ [13; 10] in
  peeks w (line ++ rest) e ->
  sys_recv e (sock_fd (w_conn w)) (Z.of_nat (length line)) 0 = (recv_ok d2, e2) ->
  length d2 = length line ->
  let c2 := with_addrs6 (w_conn w) a b
              (dec_value ds1 mod 2 ^ 32) (dec_value ds2 mod 2 ^ 32) in
  fst (conn_recv_proxy w flag) = 1 /\
  w_conn (snd (conn_recv_proxy w flag)) =
    set_flags c2 (Z.land (flags c2) (Z.lnot flag)) /\
  w_ext (snd (conn_recv_proxy w flag)) = e2 /\
  len (w_trash (snd (conn_recv_proxy w flag))) = Z.of_nat (length line).
Proof.
  intros F1 F2 G1 G2 N1 N2 Pa Pb line Hp Hr Hl c2.
  set (w1 := after_peek w (recv_ok (line ++ rest)) e).
  assert (Hh : holds (str (w_trash w1)) 0 line).
  { pose proof (after_peek_holds w (line ++ rest) e) as H.
    apply holds_app in H. tauto. }
  assert (Hn : Z.of_nat (length line) <= len (w_trash w1)).
  { unfold w1. cbn [after_peek w_trash set_trash len recv_len].
    rewrite length_app. lia. }
  assert (H18 : 18 <= len (w_trash w1)).
  { assert (18 <= length line)%nat; [|lia].
    unfold line. repeat rewrite length_app.
    change (length (bytes "PROXY TCP6 ")) with 11%nat. cbn [length].
    destruct ds1; [congruence|]. destruct ds2; [congruence|].
    cbn [length]. lia. }
  destruct (proxy_header_tcp6 w1 t1 t2 a b ds1 ds2
              F1 F2 G1 G2 Pa Pb Hh Hn H18) as (buf' & Hv).
  apply (conn_recv_proxy_done OK w flag _ e _ _ d2 e2 Hp Hv Hr).
  now rewrite Hl.
Qed.

End AcceptLemmas.

(** C1. A connection in the [ACCEPT_PROXY] handshake whose peek gives a
    well-formed TCP4 line (with anything after it), and whose second read
    gives the whole line: [conn_recv_proxy] returns 1; [addr.from] is the
    source address and port and [addr.to] the destination address and
    port, with family [AF_INET] and the ports in network byte order;
    [ADDR_FROM_SET] and [ADDR_TO_SET] are set and [ACCEPT_PROXY] is
    cleared; the second read is of exactly the length of the line. *)
Theorem conn_recv_proxy_tcp4_accepted
  {L : co_layout} (OK : layout_ok L) {CL : ctrl_layer} {LC : libc_inet6}
  {E : Type} {K : kernel E} (w : world E)
  (src dst : list Z) (sport dport : Z) (rest : list Z) (e : E)
  (d2 : list Z) (e2 : E) :
  let line := tcp4_line src dst (utoa sport) (utoa dport) in
  is_bytes 4 src -> is_bytes 4 dst ->
  0 <= sport < 2 ^ 16 -> 0 <= dport < 2 ^ 16 ->
  peeks w (line ++ rest) e ->
  sys_recv e (sock_fd (w_conn w)) (Z.of_nat (length line)) 0 = (recv_ok d2, e2) ->
  length d2 = length line ->
  let r := conn_recv_proxy w CO_FL_ACCEPT_PROXY in
  let c' := w_conn (snd r) in
  fst r = 1 /\
  ss_family (addr_from c') = AF_INET /\ sin_addr (addr_from c') = src /\
  sin_port (addr_from c') = htons sport /\
  ss_family (addr_to c') = AF_INET /\ sin_addr (addr_to c') = dst /\
  sin_port (addr_to c') = htons dport /\
  flag_on (flags c') F_ADDR_FROM_SET = true /\
  flag_on (flags c') F_ADDR_TO_SET = true /\
  flag_on (flags c') F_ACCEPT_PROXY = false /\
  len (w_trash (snd r)) = Z.of_nat (length line) /\
  w_ext (snd r) = e2.
Proof.
  intros line Hs Hd Hp1 Hp2 Hp Hr Hl r c'. subst r c' line.
  assert (R1 : 0 <= sport < 2 ^ 32) by (change (2 ^ 16) with 65536 in Hp1;
    change (2 ^ 32) with 4294967296; lia).
  assert (R2 : 0 <= dport < 2 ^ 32) by (change (2 ^ 16) with 65536 in Hp2;
    change (2 ^ 32) with 4294967296; lia).
  destruct (utoa_spec sport R1) as (D1 & V1 & _).
  destruct (utoa_spec dport R2) as (D2 & V2 & _).
  destruct (accept_tcp4 OK w CO_FL_ACCEPT_PROXY src dst (utoa sport) (utoa dport)
              rest e d2 e2 Hs Hd D1 D2 Hp Hr Hl) as (A1 & A2 & A3 & A4).
  rewrite A1, A2, A3, A4, V1, V2, !Z.mod_small by assumption.
  cbn [with_addrs4 set_flags set_addr_from set_addr_to addr_from addr_to
       flags ss_family sin_addr sin_port].
  unfold_flags. flag_simpl OK. cbn. rewrite ?orb_true_r.
  repeat split.
Qed.

(** C10. The ports are not range-checked.  Whatever decimal numbers the two
    port fields hold, a TCP4 line and a TCP6 line that are well formed
    otherwise are accepted: [conn_recv_proxy] returns 1, records no error,
    and stores each port modulo 2^16. *)
Theorem conn_recv_proxy_port_unchecked
  {L : co_layout} (OK : layout_ok L) {CL : ctrl_layer} {LC : libc_inet6}
  {E : Type} {K : kernel E} (w : world E)
  (ds1 ds2 rest : list Z) (e : E) (d2 : list Z) (e2 : E) :
  Forall is_digit ds1 -> Forall is_digit ds2 -> ds1 <> [] -> ds2 <> [] ->
  let r := conn_recv_proxy w CO_FL_ACCEPT_PROXY in
  let c' := w_conn (snd r) in
  let accepted :=
    fst r = 1 /\
    ports_stored c' (dec_value ds1 mod 2 ^ 16) (dec_value ds2 mod 2 ^ 16) /\
    err_code c' = err_code (w_conn w) /\
    flag_on (flags c') F_ERROR = flag_on (flags (w_conn w)) F_ERROR in
  (forall src dst,
     is_bytes 4 src -> is_bytes 4 dst ->
     let line := tcp4_line src dst ds1 ds2 in
     peeks w (line ++ rest) e ->
     sys_recv e (sock_fd (w_conn w)) (Z.of_nat (length line)) 0
     = (recv_ok d2, e2) ->
     length d2 = length line ->
     accepted)
  /\
  (forall t1 t2 a b,
     is_field t1 -> is_field t2 ->
     inet_pton6 t1 = Some a -> inet_pton6 t2 = Some b ->
     let line := bytes "PROXY TCP6 " ++ t1 ++ [32] ++ t2 ++ [32] ++
                 ds1 ++ [32] ++ ds2 ++ [13; 10] in
     peeks w (line ++ rest) e ->
     sys_recv e (sock_fd (w_conn w)) (Z.of_nat (length line)) 0
     = (recv_ok d2, e2) ->
     length d2 = length line ->
     accepted).
Proof.
  intros G1 G2 N1 N2 r c' accepted. subst accepted c' r.
  assert (P : forall x, 0 <= x mod 2 ^ 16 < 2 ^ 16)
    by (intros x; apply Z.mod_pos_bound; reflexivity).
  split.
  - intros src dst Hs Hd line Hp Hr Hl.
    destruct (accept_tcp4 OK w CO_FL_ACCEPT_PROXY src dst ds1 ds2
                rest e d2 e2 Hs Hd G1 G2 Hp Hr Hl) as (A1 & A2 & _).
    rewrite A1, A2. unfold ports_stored.
    cbn [with_addrs4 set_flags set_addr_from set_addr_to addr_from addr_to
         flags sin_port err_code].
    rewrite !htons_mod, !ntohs_htons by apply P.
    unfold_flags. flag_simpl OK. cbn. rewrite ?orb_false_r, ?andb_true_r.
    repeat split.
  - intros t1 t2 a b F1 F2 Pa Pb line Hp Hr Hl.
    destruct (accept_tcp6 OK w CO_FL_ACCEPT_PROXY t1 t2 a b ds1 ds2
                rest e d2 e2 F1 F2 G1 G2 N1 N2 Pa Pb Hp Hr Hl) as (A1 & A2 & _).
    rewrite A1, A2. unfold ports_stored.
    cbn [with_addrs6 set_flags set_addr_from set_addr_to addr_from addr_to
         flags sin_port err_code].
    rewrite !htons_mod, !ntohs_htons by apply P.
    unfold_flags. flag_simpl OK. cbn. rewrite ?orb_false_r, ?andb_true_r.
    repeat split.
Qed.

(* ------------------------------------------------------------------ *)
(** ** Emitting, then parsing *)

Ltac room_step H :=
  match goal with
  | H : fst (if ?b then _ else _) <> 0 |- _ =>
      let C := fresh "C" in
      destruct b eqn:C; [cbn [fst] in H; congruence|]
  | H : fst (match (if ?b then _ else _) with _ => _ end) <> 0 |- _ =>
      let C := fresh "C" in
      destruct b eqn:C; [cbn [fst] in H; congruence|]
  end.

(** When [make_proxy_line] succeeds on two [AF_INET] addresses, there was
    room for the line and its final NUL. *)
Lemma make_proxy_line_tcp4_room {LC : libc_inet6} N src dst :
  ss_family src = AF_INET -> ss_family dst = AF_INET ->
  fst (make_proxy_line N (Some src) (Some dst)) <> 0 ->
  Z.of_nat (length (tcp4_line (sin_addr src) (sin_addr dst)
                      (utoa (ntohs (sin_port src)))
                      (utoa (ntohs (sin_port dst))))) < N.
Proof.
  intros Fs Fd H. unfold make_proxy_line in H. rewrite Fs, Fd in H.
  change (AF_INET =? AF_INET) with true in H. cbn [andb] in H.
  unfold snprintf, inet_ntop in H.
  change (length (bytes "PROXY TCP4 ")) with 11%nat in H.
  change (Z.of_nat 11) with 11 in H.
  repeat room_step H.
  unfold tcp4_line. repeat rewrite length_app.
  repeat rewrite length_app in *.
  change (length (bytes "PROXY TCP4 ")) with 11%nat. cbn [length] in *.
  repeat match goal with
  | C : (_ >=? _) = false |- _ => rewrite Z.geb_leb in C; apply Z.leb_gt in C
  end.
  lia.
Qed.

Lemma make_proxy_line_tcp6_room {LC : libc_inet6} N src dst :
  ss_family src = AF_INET6 -> ss_family dst = AF_INET6 ->
  fst (make_proxy_line N (Some src) (Some dst)) <> 0 ->
  Z.of_nat (length (tcp6_line (sin6_addr src) (sin6_addr dst)
                      (utoa (ntohs (sin_port src)))
                      (utoa (ntohs (sin_port dst))))) < N.
Proof.
  intros Fs Fd H. unfold make_proxy_line in H. rewrite Fs, Fd in H.
  change (AF_INET6 =? AF_INET6) with true in H.
  change (AF_INET6 =? AF_INET) with false in H. cbn [andb] in H.
  unfold snprintf, inet_ntop in H.
  change (length (bytes "PROXY TCP6 ")) with 11%nat in H.
  change (Z.of_nat 11) with 11 in H.
  repeat room_step H.
  unfold tcp6_line. repeat rewrite length_app.
  repeat rewrite length_app in *.
  change (length (bytes "PROXY TCP6 ")) with 11%nat. cbn [length] in *.
  repeat match goal with
  | C : (_ >=? _) = false |- _ => rewrite Z.geb_leb in C; apply Z.leb_gt in C
  end.
  lia.
Qed.



(* ------------------------------------------------------------------ *)
(** ** The tests on the protocol tag *)



(* ------------------------------------------------------------------ *)
(** ** The driver *)

Section DriverLemmas.
Context {L : co_layout} (OK : layout_ok L) {CL : ctrl_layer} {LC : libc_inet6}.
Context {E : Type} {K : kernel E} {CB : callbacks E}.

(** The test that guards [data->recv] (with [d] = [DATA_RD_ENA] and [b] =
    [WAIT_ROOM]) and [data->send] (with [DATA_WR_ENA] and [WAIT_DATA])
    passes only when no handshake bit is set. *)
Lemma data_guard f d b :
  d <> F_SEND_PROXY -> d <> F_SSL_WAIT_HS -> d <> F_ACCEPT_PROXY ->
  (Z.land f (Z.lor (CO_FL d) (Z.lor (CO_FL b)
              (Z.lor CO_FL_ERROR CO_FL_HANDSHAKE))) =? CO_FL d) = true ->
  flag_on f F_ACCEPT_PROXY = false /\ flag_on f F_SEND_PROXY = false /\
  flag_on f F_SSL_WAIT_HS = false.
Proof.
  intros N1 N2 N3 H. apply Z.eqb_eq in H.
  assert (D : forall x, d <> x -> co_flag_eqb d x = false).
  { intros x Hx. unfold co_flag_eqb. now destruct (co_flag_eq_dec d x). }
  repeat split.
  - apply (f_equal (fun z => flag_on z F_ACCEPT_PROXY)) in H.
    unfold_flags. revert H. flag_simpl OK. rewrite (D _ N3). cbn.
    rewrite ?orb_true_r, ?andb_true_r. trivial.
  - apply (f_equal (fun z => flag_on z F_SEND_PROXY)) in H.
    unfold_flags. revert H. flag_simpl OK. rewrite (D _ N1). cbn.
    rewrite ?orb_true_r, ?andb_true_r. trivial.
  - apply (f_equal (fun z => flag_on z F_SSL_WAIT_HS)) in H.
    unfold_flags. revert H. flag_simpl OK. rewrite (D _ N2). cbn.
    rewrite ?orb_true_r, ?andb_true_r. trivial.
Qed.

Lemma quiet_snoc tr ev : quiet tr -> ~ during_handshake ev -> quiet (tr ++ [ev]).
Proof.
  intros H1 H2. apply Forall_app. split; [exact H1|]. now constructor.
Qed.

Lemma data_recv_step_quiet (w : world E) fl tr :
  quiet tr -> quiet (snd (data_recv_step w fl tr)).
Proof.
  intros Q. unfold data_recv_step.
  destruct (xprt (w_conn w) && fd_recv_ready w) ; cbn [andb]; [|exact Q].
  match goal with |- context [if ?b then _ else _] => destruct b eqn:G end;
    [|exact Q].
  cbn [snd]. apply quiet_snoc; [exact Q|].
  apply (data_guard _ F_DATA_RD_ENA F_WAIT_ROOM) in G; try discriminate.
  cbn [during_handshake]. destruct G as (G1 & G2 & G3).
  rewrite G1, G2, G3. intuition discriminate.
Qed.

Lemma data_send_step_quiet (w : world E) fl tr :
  quiet tr -> quiet (snd (data_send_step w fl tr)).
Proof.
  intros Q. unfold data_send_step.
  destruct (xprt (w_conn w) && fd_send_ready w) ; cbn [andb]; [|exact Q].
  match goal with |- context [if ?b then _ else _] => destruct b eqn:G end;
    [|exact Q].
  cbn [snd]. apply quiet_snoc; [exact Q|].
  apply (data_guard _ F_DATA_WR_ENA F_WAIT_DATA) in G; try discriminate.
  cbn [during_handshake]. destruct G as (G1 & G2 & G3).
  rewrite G1, G2, G3. intuition discriminate.
Qed.

Lemma process_handshake_quiet fuel : forall (w : world E) fl tr,
  quiet tr -> quiet (progress_events (process_handshake fuel w fl tr)).
Proof.
  induction fuel as [|fuel IH]; intros w fl tr Q; cbn [process_handshake];
    [exact Q|].
  destruct (handshake_loop fuel w) as [[[|] w1]|]; cbn [progress_events];
    try exact Q.
  set (w2 := if negb (c_true (Z.land (flags (w_conn w1)) CO_FL_POLL_SOCK))
             then set_conn w1 (__conn_sock_stop_both (w_conn w1)) else w1).
  destruct (c_true (Z.land (flags (w_conn w2)) CO_FL_INIT_DATA)).
  - destruct (data_init w2) as [r w3].
    assert (Q3 : quiet (tr ++ [Ev_data_init (flags (w_conn w2))])).
    { apply quiet_snoc; [exact Q|]. cbn. tauto. }
    destruct (r <? 0); [exact Q3|].
    pose proof (data_recv_step_quiet w3 fl _ Q3) as Q4.
    destruct (data_recv_step w3 fl _) as [[w4 fl4] tr4]. cbn [snd] in Q4.
    pose proof (data_send_step_quiet w4 fl4 _ Q4) as Q5.
    destruct (data_send_step w4 fl4 tr4) as [[w5 fl5] tr5]. cbn [snd] in Q5.
    destruct (c_true (Z.land (flags (w_conn w5)) (Z.lor CO_FL_HANDSHAKE CO_FL_ERROR)));
      [apply IH; exact Q5|].
    destruct (c_true (Z.land (flags (w_conn w5)) CO_FL_WAIT_L4_CONN)); exact Q5.
  - cbn [Z.ltb Z.compare].
    pose proof (data_recv_step_quiet w2 fl _ Q) as Q4.
    destruct (data_recv_step w2 fl _) as [[w4 fl4] tr4]. cbn [snd] in Q4.
    pose proof (data_send_step_quiet w4 fl4 _ Q4) as Q5.
    destruct (data_send_step w4 fl4 tr4) as [[w5 fl5] tr5]. cbn [snd] in Q5.
    destruct (c_true (Z.land (flags (w_conn w5)) (Z.lor CO_FL_HANDSHAKE CO_FL_ERROR)));
      [apply IH; exact Q5|].
    destruct (c_true (Z.land (flags (w_conn w5)) CO_FL_WAIT_L4_CONN)); exact Q5.
Qed.

Lemma conn_fd_handler_leave_quiet (w : world E) fl tr :
  quiet tr -> quiet (snd (conn_fd_handler_leave w fl tr)).
Proof.
  intros Q. unfold conn_fd_handler_leave.
  match goal with |- context [if ?b then _ else _] => destruct b end.
  - destruct (data_wake w) as [r w'].
    assert (Q' : quiet (tr ++ [Ev_data_wake (flags (w_conn w))])).
    { apply quiet_snoc; [exact Q|]. cbn. tauto. }
    destruct (r <? 0); exact Q'.
  - cbn [Z.ltb Z.compare snd]. exact Q.
Qed.

End DriverLemmas.

(** C8. In every entry of [conn_fd_handler], however long it runs, neither
    [data->recv] nor [data->send] is called while [ACCEPT_PROXY],
    [SEND_PROXY] or [SSL_WAIT_HS] is set in the flags of the connection;
    this holds also after a handshake was armed again during the data
    phase. *)
Theorem conn_fd_handler_no_data_during_handshake
  {L : co_layout} (OK : layout_ok L) {CL : ctrl_layer} {LC : libc_inet6}
  {E : Type} {K : kernel E} {CB : callbacks E} (fuel : nat) (w : world E) :
  Forall (fun ev => ~ during_handshake ev) (conn_fd_handler_events fuel w).
Proof.
  unfold conn_fd_handler_events, conn_fd_handler_enter.
  destruct (negb (w_owner w)); [constructor|].
  pose proof (process_handshake_quiet OK fuel (conn_refresh_polling_flags w)
                (Z.land (flags (w_conn (conn_refresh_polling_flags w)))
                   (Z.lnot CO_FL_ERROR)) [] ltac:(constructor)) as Q.
  destruct (process_handshake fuel _ _ _); cbn [progress_events] in Q;
    try exact Q.
  now apply conn_fd_handler_leave_quiet.
Qed.

Section LeaveLemmas.
Context {L : co_layout} (OK : layout_ok L) {CL : ctrl_layer} {LC : libc_inet6}.
Context {E : Type} {K : kernel E} {CB : callbacks E}.







End LeaveLemmas.


(* ------------------------------------------------------------------ *)
(** ** The theorems on concrete worlds *)

Ltac solve_forall :=
  repeat first
    [ apply Forall_nil
    | apply Forall_cons; [cbv; intuition (discriminate || lia) | ] ].

Lemma ip4_a_bytes : is_bytes 4 ip4_a.
Proof. split; [reflexivity | solve_forall]. Qed.

Lemma ip4_b_bytes : is_bytes 4 ip4_b.
Proof. split; [reflexivity | solve_forall]. Qed.

(** Reconciling a connection that wants to read data, is not polled for
    reading, and is polled for writing without wanting to write: the poller
    is told [want_recv] and [stop_send]. *)
Lemma conn_update_polling_reconciles_witness :
  layout_ok haproxy_layout /\
  conn_ctrl_ready (ctrl_layer := haproxy_ctrl) (conn_with 0x142) = true /\
  polling_reconciled (L := haproxy_layout) F_DATA_RD_ENA F_DATA_WR_ENA
    (conn_with 0x142)
    (conn_update_data_polling (L := haproxy_layout) (CL := haproxy_ctrl)
       (conn_with 0x142)) /\
  polling_reconciled (L := haproxy_layout) F_SOCK_RD_ENA F_SOCK_WR_ENA
    (conn_with 0x142)
    (conn_update_sock_polling (L := haproxy_layout) (CL := haproxy_ctrl)
       (conn_with 0x142)).
Proof.
  split; [exact haproxy_layout_ok|]. split; [reflexivity|].
  exact (proj2 (conn_update_polling_reconciles (L := haproxy_layout)
                  haproxy_layout_ok (CL := haproxy_ctrl) (conn_with 0x142))
           eq_refl).
Defined.

(** The first scenario of the spec: 47 bytes are taken from the socket and
    what follows them stays queued. *)
Lemma conn_recv_proxy_tcp4_accepted_witness :
  layout_ok haproxy_layout /\
  is_bytes 4 ip4_a /\ is_bytes 4 ip4_b /\
  0 <= 56324 < 2 ^ 16 /\ 0 <= 443 < 2 ^ 16 /\
  peeks (L := haproxy_layout) (CL := haproxy_ctrl) (K := queue_kernel)
    accept_world (line_tcp4 ++ bytes "GET /") (line_tcp4 ++ bytes "GET /") /\
  sys_recv (kernel := queue_kernel) (line_tcp4 ++ bytes "GET /") 7 47 0
  = (recv_ok line_tcp4, bytes "GET /") /\
  length line_tcp4 = 47%nat /\
  let r := conn_recv_proxy (L := haproxy_layout) (CL := haproxy_ctrl)
             (LC := sample_inet6) (K := queue_kernel) accept_world
             (CO_FL_ACCEPT_PROXY (L := haproxy_layout)) in
  let c' := w_conn (snd r) in
  fst r = 1 /\
  ss_family (addr_from c') = AF_INET /\ sin_addr (addr_from c') = ip4_a /\
  sin_port (addr_from c') = htons 56324 /\
  ss_family (addr_to c') = AF_INET /\ sin_addr (addr_to c') = ip4_b /\
  sin_port (addr_to c') = htons 443 /\
  flag_on (L := haproxy_layout) (flags c') F_ADDR_FROM_SET = true /\
  flag_on (L := haproxy_layout) (flags c') F_ADDR_TO_SET = true /\
  flag_on (L := haproxy_layout) (flags c') F_ACCEPT_PROXY = false /\
  len (w_trash (snd r)) = 47 /\
  w_ext (snd r) = bytes "GET /".
Proof.
  split; [exact haproxy_layout_ok|].
  split; [exact ip4_a_bytes|]. split; [exact ip4_b_bytes|].
  split; [split; [lia | reflexivity]|]. split; [split; [lia | reflexivity]|].
  split; [repeat split|]. split; [reflexivity|]. split; [reflexivity|].
  apply (conn_recv_proxy_tcp4_accepted (L := haproxy_layout) haproxy_layout_ok
           (CL := haproxy_ctrl) (LC := sample_inet6) (K := queue_kernel)
           accept_world ip4_a ip4_b 56324 443 (bytes "GET /")
           (line_tcp4 ++ bytes "GET /") line_tcp4 (bytes "GET /"));
    [ exact ip4_a_bytes | exact ip4_b_bytes
    | split; [lia | reflexivity] | split; [lia | reflexivity]
    | repeat split | reflexivity | reflexivity ].
Defined.

(** The tag "TCP5 ". *)
Lemma conn_recv_proxy_bad_proto_witness :
  layout_ok haproxy_layout /\
  peeks (L := haproxy_layout) (CL := haproxy_ctrl) (K := queue_kernel)
    tcp5_world line_tcp5 line_tcp5 /\
  line_tcp5 = bytes "PROXY " ++ bytes "TCP5 " ++
              (bytes "192.168.0.1 192.168.0.11 56324 443" ++ [13; 10]) /\
  length (bytes "TCP5 ") = 5%nat /\
  18 <= Z.of_nat (length line_tcp5) /\
  bytes "TCP5 " <> bytes "TCP4 " /\ bytes "TCP5 " <> bytes "TCP6 " /\
  fst (conn_recv_proxy (L := haproxy_layout) (CL := haproxy_ctrl)
         (LC := sample_inet6) (K := queue_kernel) tcp5_world
         (CO_FL_ACCEPT_PROXY (L := haproxy_layout))) = 0 /\
  proxy_failed (L := haproxy_layout)
    (w_conn (snd (conn_recv_proxy (L := haproxy_layout) (CL := haproxy_ctrl)
                    (LC := sample_inet6) (K := queue_kernel) tcp5_world
                    (CO_FL_ACCEPT_PROXY (L := haproxy_layout)))))
    CO_ER_PRX_BAD_PROTO.
Proof.
  split; [exact haproxy_layout_ok|]. split; [repeat split|].
  split; [reflexivity|]. split; [reflexivity|].
  split; [cbv; discriminate|]. split; [discriminate|]. split; [discriminate|].
  apply (conn_recv_proxy_bad_proto (L := haproxy_layout) haproxy_layout_ok
           (CL := haproxy_ctrl) (LC := sample_inet6) (K := queue_kernel)
           tcp5_world (CO_FL_ACCEPT_PROXY (L := haproxy_layout))
           line_tcp5 (bytes "TCP5 ")
           (bytes "192.168.0.1 192.168.0.11 56324 443" ++ [13; 10]) line_tcp5);
    [ repeat split | reflexivity | reflexivity | cbv; discriminate
    | discriminate | discriminate ].
Defined.

(** The fourth scenario of the spec: the peek gives "PROXY " and no more. *)
Lemma conn_recv_proxy_truncated_witness :
  layout_ok haproxy_layout /\
  peeks (L := haproxy_layout) (CL := haproxy_ctrl) (K := queue_kernel)
    cut_world (bytes "PROXY ") (bytes "PROXY ") /\
  (exists rest, bytes "PROXY " = bytes "PROXY " ++ rest) /\
  Z.of_nat (length (bytes "PROXY ")) < 18 /\
  fst (conn_recv_proxy (L := haproxy_layout) (CL := haproxy_ctrl)
         (LC := sample_inet6) (K := queue_kernel) cut_world
         (CO_FL_ACCEPT_PROXY (L := haproxy_layout))) = 0 /\
  proxy_failed (L := haproxy_layout)
    (w_conn (snd (conn_recv_proxy (L := haproxy_layout) (CL := haproxy_ctrl)
                    (LC := sample_inet6) (K := queue_kernel) cut_world
                    (CO_FL_ACCEPT_PROXY (L := haproxy_layout)))))
    CO_ER_PRX_TRUNCATED /\
  w_ext (snd (conn_recv_proxy (L := haproxy_layout) (CL := haproxy_ctrl)
                (LC := sample_inet6) (K := queue_kernel) cut_world
                (CO_FL_ACCEPT_PROXY (L := haproxy_layout)))) = bytes "PROXY " /\
  fd_recv_ready (snd (conn_recv_proxy (L := haproxy_layout)
                        (CL := haproxy_ctrl) (LC := sample_inet6)
                        (K := queue_kernel) cut_world
                        (CO_FL_ACCEPT_PROXY (L := haproxy_layout)))) = true.
Proof.
  split; [exact haproxy_layout_ok|]. split; [repeat split|].
  split; [exists []; reflexivity|]. split; [reflexivity|].
  apply (conn_recv_proxy_truncated (L := haproxy_layout) haproxy_layout_ok
           (CL := haproxy_ctrl) (LC := sample_inet6) (K := queue_kernel)
           cut_world (CO_FL_ACCEPT_PROXY (L := haproxy_layout))
           (bytes "PROXY ") (bytes "PROXY "));
    [ repeat split | right; split; [exists []; reflexivity | reflexivity] ].
Defined.

(** The fifth scenario of the spec: 47 bytes peeked, 30 read. *)
Lemma conn_recv_proxy_abort_witness :
  layout_ok haproxy_layout /\
  peeks (L := haproxy_layout) (CL := haproxy_ctrl) (K := script_kernel)
    split_world line_tcp4 [recv_ok (firstn 30 line_tcp4)] /\
  proxy_header (L := haproxy_layout) (LC := sample_inet6)
    (after_peek split_world (recv_ok line_tcp4) [recv_ok (firstn 30 line_tcp4)])
  = inr (split_world_valid, 47) /\
  sys_recv (kernel := script_kernel) [recv_ok (firstn 30 line_tcp4)] 7 47 0
  = (recv_ok (firstn 30 line_tcp4), []) /\
  recv_len (recv_ok (firstn 30 line_tcp4)) <> 47 /\
  0 <= recv_len (recv_ok (firstn 30 line_tcp4)) /\
  let c' := w_conn (snd (conn_recv_proxy (L := haproxy_layout)
                           (CL := haproxy_ctrl) (LC := sample_inet6)
                           (K := script_kernel) split_world
                           (CO_FL_ACCEPT_PROXY (L := haproxy_layout)))) in
  fst (conn_recv_proxy (L := haproxy_layout) (CL := haproxy_ctrl)
         (LC := sample_inet6) (K := script_kernel) split_world
         (CO_FL_ACCEPT_PROXY (L := haproxy_layout))) = 0 /\
  proxy_failed (L := haproxy_layout) c' CO_ER_PRX_ABORT /\
  flag_on (L := haproxy_layout) (flags c') F_SOCK_RD_SH = true /\
  flag_on (L := haproxy_layout) (flags c') F_SOCK_WR_SH = true /\
  flag_on (L := haproxy_layout) (flags c') F_ACCEPT_PROXY =
    flag_on (L := haproxy_layout) (flags (w_conn split_world)) F_ACCEPT_PROXY /\
  flag_on (L := haproxy_layout) (flags c') F_SEND_PROXY =
    flag_on (L := haproxy_layout) (flags (w_conn split_world)) F_SEND_PROXY /\
  flag_on (L := haproxy_layout) (flags c') F_SSL_WAIT_HS =
    flag_on (L := haproxy_layout) (flags (w_conn split_world)) F_SSL_WAIT_HS.
Proof.
  split; [exact haproxy_layout_ok|]. split; [repeat split|].
  split; [reflexivity|]. split; [reflexivity|].
  split; [cbv; discriminate|]. split; [cbv; discriminate|].
  apply (conn_recv_proxy_abort (L := haproxy_layout) haproxy_layout_ok
           (CL := haproxy_ctrl) (LC := sample_inet6) (K := script_kernel)
           split_world (CO_FL_ACCEPT_PROXY (L := haproxy_layout))
           line_tcp4 [recv_ok (firstn 30 line_tcp4)] split_world_valid 47
           (recv_ok (firstn 30 line_tcp4)) []);
    [ repeat split | reflexivity | reflexivity | cbv; discriminate
    | left; cbv; discriminate ].
Defined.


(** A source port field of 70000 is accepted and stored as 4464. *)
Lemma conn_recv_proxy_port_unchecked_witness :
  layout_ok haproxy_layout /\
  Forall is_digit (bytes "70000") /\ Forall is_digit (bytes "443") /\
  bytes "70000" <> [] /\ bytes "443" <> [] /\
  is_bytes 4 ip4_a /\ is_bytes 4 ip4_b /\
  peeks (L := haproxy_layout) (CL := haproxy_ctrl) (K := queue_kernel)
    port_world (line_port ++ []) line_port /\
  sys_recv (kernel := queue_kernel) line_port 7
    (Z.of_nat (length line_port)) 0 = (recv_ok line_port, []) /\
  dec_value (bytes "70000") mod 2 ^ 16 = 4464 /\
  let r := conn_recv_proxy (L := haproxy_layout) (CL := haproxy_ctrl)
             (LC := sample_inet6) (K := queue_kernel) port_world
             (CO_FL_ACCEPT_PROXY (L := haproxy_layout)) in
  fst r = 1 /\
  ports_stored (w_conn (snd r)) (dec_value (bytes "70000") mod 2 ^ 16)
    (dec_value (bytes "443") mod 2 ^ 16) /\
  err_code (w_conn (snd r)) = err_code (w_conn port_world) /\
  flag_on (L := haproxy_layout) (flags (w_conn (snd r))) F_ERROR =
    flag_on (L := haproxy_layout) (flags (w_conn port_world)) F_ERROR.
Proof.
  assert (D1 : Forall is_digit (bytes "70000"))
    by (cbn; unfold is_digit; solve_forall).
  assert (D2 : Forall is_digit (bytes "443"))
    by (cbn; unfold is_digit; solve_forall).
  split; [exact haproxy_layout_ok|]. split; [exact D1|]. split; [exact D2|].
  split; [discriminate|]. split; [discriminate|].
  split; [exact ip4_a_bytes|]. split; [exact ip4_b_bytes|].
  split; [repeat split|]. split; [reflexivity|]. split; [reflexivity|].
  apply (proj1 (conn_recv_proxy_port_unchecked (L := haproxy_layout)
                  haproxy_layout_ok (CL := haproxy_ctrl) (LC := sample_inet6)
                  (K := queue_kernel) port_world (bytes "70000") (bytes "443")
                  [] line_port line_port [] D1 D2
                  ltac:(discriminate) ltac:(discriminate)) ip4_a ip4_b);
    [ exact ip4_a_bytes | exact ip4_b_bytes | repeat split
    | reflexivity | reflexivity ].
Defined.

(** An entry of the driver on a connection in the [ACCEPT_PROXY] handshake
    whose socket has nothing to read, and an entry where the data layer
    asks for a handshake again. *)
Lemma conn_fd_handler_no_data_during_handshake_witness :
  layout_ok haproxy_layout /\
  Forall (fun ev => ~ during_handshake (L := haproxy_layout) ev)
    (conn_fd_handler_events (L := haproxy_layout) (CL := haproxy_ctrl)
       (LC := sample_inet6) (K := queue_kernel)
       (CB := idle_callbacks (list Z)) 5
       (world_with flags_accept [])) /\
  Forall (fun ev => ~ during_handshake (L := haproxy_layout) ev)
    (conn_fd_handler_events (L := haproxy_layout) (CL := haproxy_ctrl)
       (LC := sample_inet6) (K := no_kernel_bool) (CB := rearm_callbacks) 5
       (world_with flags_data false)).
Proof.
  split; [exact haproxy_layout_ok|]. split.
  - exact (conn_fd_handler_no_data_during_handshake (L := haproxy_layout)
             haproxy_layout_ok (CL := haproxy_ctrl) (LC := sample_inet6)
             (K := queue_kernel) (CB := idle_callbacks (list Z)) 5
             (world_with flags_accept [])).
  - exact (conn_fd_handler_no_data_during_handshake (L := haproxy_layout)
             haproxy_layout_ok (CL := haproxy_ctrl) (LC := sample_inet6)
             (K := no_kernel_bool) (CB := rearm_callbacks) 5
             (world_with flags_data false)).
Defined.



(** In no layout does the mask of section 3.2 of the spec cover the
    [ERROR] bit. *)
Lemma conn_state_spec_mask_error {L : co_layout} (OK : layout_ok L) :
  flag_on (Z.lor CO_FL_WAIT_L4_CONN (Z.lor CO_FL_WAIT_L6_CONN CO_FL_CONNECTED))
    F_ERROR = false.
Proof. unfold_flags. flag_simpl OK. reflexivity. Qed.


(* ------------------------------------------------------------------ *)
(** ** The loops of the parser end within their fuel *)

(** [read_uint] and the scan of the TCP6 branch are given as many rounds as
    there are bytes before the limit; more rounds change nothing, so the
    results of the model are results of the loops of the code. *)
Lemma read_uint_loop_fuel n : forall extra buf p end_ i,
  n = Z.to_nat (end_ - p) ->
  read_uint_loop (n + extra) buf p end_ i = read_uint_loop n buf p end_ i.
Proof.
  induction n as [|n IH]; intros extra buf p end_ i Hn.
  - destruct extra as [|extra]; [reflexivity|]. cbn [Nat.add read_uint_loop].
    destruct (Z.ltb_spec p end_); [lia | reflexivity].
  - cbn [Nat.add read_uint_loop]. destruct (p <? end_); [|reflexivity].
    destruct (u32 (deref buf p - 48) >? 9); [reflexivity|].
    apply IH. lia.
Qed.

Lemma tcp6_scan_fuel n : forall extra buf line end_ d s dp,
  n = Z.to_nat (end_ - line) ->
  tcp6_scan (S n + extra) buf line end_ d s dp =
  tcp6_scan (S n) buf line end_ d s dp.
Proof.
  induction n as [|n IH]; intros extra buf line end_ d s dp Hn.
  - cbn [Nat.add tcp6_scan].
    destruct (Z.gtb_spec line (end_ - 2)); [reflexivity | lia].
  - change (S (S n) + extra)%nat with (S (S n + extra)).
    remember (S n) as m eqn:Hm.
    cbn [tcp6_scan]. destruct (line >? end_ - 2); [reflexivity|].
    destruct (deref buf line =? 13); [reflexivity|].
    subst m.
    destruct (deref buf line =? 32);
      [destruct d as [?|]; [destruct s as [?|]; [destruct dp as [?|]|]|]|];
      apply IH; lia.
Qed.

(* ------------------------------------------------------------------ *)
(** ** Other scenarios of the spec, run on the model *)

(** The second scenario: a TCP6 line. *)
Example conn_recv_proxy_tcp6_scenario :
  let r := conn_recv_proxy (L := haproxy_layout) (CL := haproxy_ctrl)
             (LC := sample_inet6) (K := queue_kernel)
             (world_with flags_accept line_tcp6)
             (CO_FL_ACCEPT_PROXY (L := haproxy_layout)) in
  fst r = 1 /\
  addr_from (w_conn (snd r)) =
    {| ss_family := AF_INET6; sin_port := htons 40000;
       sin_addr := [0; 0; 0; 0]; sin6_addr := ip6_a |} /\
  addr_to (w_conn (snd r)) =
    {| ss_family := AF_INET6; sin_port := htons 443;
       sin_addr := [0; 0; 0; 0]; sin6_addr := ip6_b |} /\
  w_ext (snd r) = [].
Proof. repeat split. Qed.

(** The third scenario: no address. *)
Example make_proxy_line_unknown :
  make_proxy_line (LC := sample_inet6) 64 None None
  = (15, bytes "PROXY UNKNOWN" ++ [13; 10]).
Proof. reflexivity. Qed.

(** A buffer of 47 bytes is one byte short for the 47 bytes of the first
    scenario and the final NUL. *)
Example make_proxy_line_no_room :
  fst (make_proxy_line (LC := sample_inet6) 47
         (Some {| ss_family := AF_INET; sin_port := htons 56324;
                  sin_addr := ip4_a; sin6_addr := [] |})
         (Some {| ss_family := AF_INET; sin_port := htons 443;
                  sin_addr := ip4_b; sin6_addr := [] |})) = 0 /\
  make_proxy_line (LC := sample_inet6) 48
    (Some {| ss_family := AF_INET; sin_port := htons 56324;
             sin_addr := ip4_a; sin6_addr := [] |})
    (Some {| ss_family := AF_INET; sin_port := htons 443;
             sin_addr := ip4_b; sin6_addr := [] |}) = (47, line_tcp4).
Proof. split; reflexivity. Qed.

(** The other way to group the test of line 292, [!(memcmp(...) != 0)],
    has the same value: no reading of the expression makes it always 0. *)
Lemma tag_test_grouping (m : Z) : c_ne (c_not m) 0 = c_not (c_ne m 0).
Proof. unfold c_ne, c_not. destruct (m =? 0); reflexivity. Qed.

(** A handshake armed again during the data phase: [data->recv] sets
    [SSL_WAIT_HS], so [data->send] is not called in that round; the driver
    goes back to the handshakes, and calls [data->recv] and then
    [data->send] once the bit is cleared. *)
Example conn_fd_handler_rearmed :
  conn_fd_handler_events (L := haproxy_layout) (CL := haproxy_ctrl)
    (LC := sample_inet6) (K := no_kernel_bool) (CB := rearm_callbacks) 5
    (world_with flags_data false)
  = [Ev_data_recv 0x00200122; Ev_data_recv 0x00200122;
     Ev_data_send 0x00200122].
Proof. reflexivity. Qed.

(* ================================================================== *)
(** * Further properties of the code *)

(* ------------------------------------------------------------------ *)
(** ** The poll reconciler, called again *)

Section ReconcilerSettled.
Context {L : co_layout} (OK : layout_ok L) {CL : ctrl_layer}.

(** A direction whose current bit agrees with the desire bit needs no
    command. *)
Lemma reconcile_dir_settled f want stop curr desire :
  curr <> desire ->
  flag_on f curr = flag_on f desire ->
  reconcile_dir f want stop curr desire = (f, []).
Proof.
  intros Hne Heq. unfold reconcile_dir.
  rewrite (land_mask2_eqb OK f curr desire Hne).
  rewrite (Z.lor_comm (CO_FL curr) (CO_FL desire)).
  rewrite (land_mask2_eqb OK f desire curr (not_eq_sym Hne)).
  rewrite Heq. destruct (flag_on f desire); reflexivity.
Qed.

Lemma reconcile_curr_desire d c : reconcile_curr d c = d.
Proof. destruct d, c; reflexivity. Qed.

(** After the two directions were reconciled, each current bit is the
    desire bit and the other flags are as before. *)
Lemma reconcile_two_settles f cf drd dwr :
  F_CURR_RD_ENA <> drd -> F_CURR_WR_ENA <> dwr ->
  F_CURR_RD_ENA <> dwr -> F_CURR_WR_ENA <> drd ->
  let r1 := reconcile_dir f (fd_want_recv cf) (fd_stop_recv cf) F_CURR_RD_ENA drd in
  let r2 := reconcile_dir (fst r1) (fd_want_send cf) (fd_stop_send cf) F_CURR_WR_ENA dwr in
  flag_on (fst r2) F_CURR_RD_ENA = flag_on f drd /\
  flag_on (fst r2) F_CURR_WR_ENA = flag_on f dwr /\
  flag_on (fst r2) drd = flag_on f drd /\
  flag_on (fst r2) dwr = flag_on f dwr.
Proof.
  intros H1 H2 H3 H4 r1 r2.
  destruct (reconcile_two OK f cf drd dwr H1 H2 H3 ltac:(discriminate))
    as (_ & B1 & B2 & U).
  fold r1 in B1, B2, U. fold r2 in B1, B2, U.
  rewrite reconcile_curr_desire in B1, B2.
  assert (D : forall x, F_CURR_RD_ENA <> x -> F_CURR_WR_ENA <> x ->
                flag_on (fst r2) x = flag_on f x).
  { intros x X1 X2. apply U; [apply (co_bit_nonneg OK)| |];
      intros E; [apply X1 | apply X2]; symmetry; now apply (co_bit_inj L OK). }
  repeat split; auto.
Qed.

End ReconcilerSettled.

(** X1. Once a reconciler ran on a control-ready connection, the poller's
    subscription is the desire of the layer: in the flags it leaves,
    [CURR_RD_ENA] is the layer's read desire bit and [CURR_WR_ENA] its write
    desire bit, and the desire bits are those on entry. *)
Theorem conn_update_polling_settles
  {L : co_layout} (OK : layout_ok L) {CL : ctrl_layer} (c : connection) :
  conn_ctrl_ready c = true ->
  let fd := flags (fst (conn_update_data_polling c)) in
  let fs := flags (fst (conn_update_sock_polling c)) in
  (flag_on fd F_CURR_RD_ENA = flag_on (flags c) F_DATA_RD_ENA /\
   flag_on fd F_CURR_WR_ENA = flag_on (flags c) F_DATA_WR_ENA /\
   flag_on fd F_DATA_RD_ENA = flag_on (flags c) F_DATA_RD_ENA /\
   flag_on fd F_DATA_WR_ENA = flag_on (flags c) F_DATA_WR_ENA) /\
  (flag_on fs F_CURR_RD_ENA = flag_on (flags c) F_SOCK_RD_ENA /\
   flag_on fs F_CURR_WR_ENA = flag_on (flags c) F_SOCK_WR_ENA /\
   flag_on fs F_SOCK_RD_ENA = flag_on (flags c) F_SOCK_RD_ENA /\
   flag_on fs F_SOCK_WR_ENA = flag_on (flags c) F_SOCK_WR_ENA).
Proof.
  intros R fd fs. subst fd fs.
  rewrite conn_update_data_polling_eq, conn_update_sock_polling_eq, R.
  cbn [negb]. cbv zeta. cbn [fst flags set_flags]. split.
  - apply (reconcile_two_settles OK (flags c) (sock_fd c)
             F_DATA_RD_ENA F_DATA_WR_ENA); discriminate.
  - apply (reconcile_two_settles OK (flags c) (sock_fd c)
             F_SOCK_RD_ENA F_SOCK_WR_ENA); discriminate.
Qed.

(** X2. The reconcilers are idempotent: called again on the connection that
    a first call left, [conn_update_data_polling] and
    [conn_update_sock_polling] issue no poller command and change nothing. *)
Theorem conn_update_polling_idempotent
  {L : co_layout} (OK : layout_ok L) {CL : ctrl_layer} (c : connection) :
  conn_update_data_polling (fst (conn_update_data_polling c))
  = (fst (conn_update_data_polling c), []) /\
  conn_update_sock_polling (fst (conn_update_sock_polling c))
  = (fst (conn_update_sock_polling c), []).
Proof.
  assert (G : forall drd dwr,
    F_CURR_RD_ENA <> drd -> F_CURR_WR_ENA <> dwr ->
    F_CURR_RD_ENA <> dwr -> F_CURR_WR_ENA <> drd ->
    let r1 := reconcile_dir (flags c) (fd_want_recv (sock_fd c))
                (fd_stop_recv (sock_fd c)) F_CURR_RD_ENA drd in
    let r2 := reconcile_dir (fst r1) (fd_want_send (sock_fd c))
                (fd_stop_send (sock_fd c)) F_CURR_WR_ENA dwr in
    let c2 := set_flags c (fst r2) in
    let s1 := reconcile_dir (flags c2) (fd_want_recv (sock_fd c2))
                (fd_stop_recv (sock_fd c2)) F_CURR_RD_ENA drd in
    let s2 := reconcile_dir (fst s1) (fd_want_send (sock_fd c2))
                (fd_stop_send (sock_fd c2)) F_CURR_WR_ENA dwr in
    (set_flags c2 (fst s2), snd s1 ++ snd s2) = (c2, [])).
  { intros drd dwr H1 H2 H3 H4 r1 r2 c2 s1 s2.
    destruct (reconcile_two_settles OK (flags c) (sock_fd c) drd dwr H1 H2 H3 H4)
      as (B1 & B2 & B3 & B4).
    fold r1 in B1, B2, B3, B4. fold r2 in B1, B2, B3, B4.
    assert (E1 : s1 = (fst r2, [])).
    { unfold s1, c2. cbn [flags set_flags].
      apply (reconcile_dir_settled OK); [exact H1 | congruence]. }
    assert (E2 : s2 = (fst r2, [])).
    { unfold s2. rewrite E1. cbn [fst].
      apply (reconcile_dir_settled OK); [exact H2 | congruence]. }
    rewrite E2, E1. reflexivity. }
  split.
  - rewrite (conn_update_data_polling_eq c).
    destruct (conn_ctrl_ready c) eqn:R; cbn [negb fst].
    + cbv zeta. rewrite conn_update_data_polling_eq.
      match goal with |- context [negb ?b] => destruct b end; cbn [negb];
        [|reflexivity].
      apply (G F_DATA_RD_ENA F_DATA_WR_ENA); discriminate.
    + rewrite conn_update_data_polling_eq, R. reflexivity.
  - rewrite (conn_update_sock_polling_eq c).
    destruct (conn_ctrl_ready c) eqn:R; cbn [negb fst].
    + cbv zeta. rewrite conn_update_sock_polling_eq.
      match goal with |- context [negb ?b] => destruct b end; cbn [negb];
        [|reflexivity].
      apply (G F_SOCK_RD_ENA F_SOCK_WR_ENA); discriminate.
    + rewrite conn_update_sock_polling_eq, R. reflexivity.
Qed.

(* ------------------------------------------------------------------ *)
(** ** [conn_recv_proxy]: every way out *)

Ltac break_if_hyp :=
  repeat match goal with
  | H : context [match ?x with _ => _ end] |- _ =>
      match type of x with
      | sumbool _ _ => fail 1
      | _ => destruct x eqn:?
      end
  end.

Section RecvProxyOutcomes.
Context {L : co_layout} (OK : layout_ok L) {CL : ctrl_layer} {LC : libc_inet6}.
Context {E : Type} {K : kernel E}.

(** The flags after a jump to a label: only the bits of [proxy_fail_bit]
    may differ from those before. *)
Lemma proxy_goto_bits l (w : world E) x :
  proxy_fail_bit x = false ->
  flag_on (flags (w_conn (snd (proxy_goto l w)))) x = flag_on (flags (w_conn w)) x.
Proof.
  intros Hx. destruct l; cbn [proxy_goto]; cbv zeta;
    rewrite (proxy_fail_flags OK);
    cbn [w_conn set_conn flags set_flags set_err_code];
    destruct x; try discriminate Hx; try reflexivity;
    unfold_flags; flag_simpl OK; reflexivity.
Qed.

Lemma proxy_goto_addrs l (w : world E) :
  addr_from (w_conn (snd (proxy_goto l w))) = addr_from (w_conn w) /\
  addr_to (w_conn (snd (proxy_goto l w))) = addr_to (w_conn w).
Proof. destruct l; split; reflexivity. Qed.

(** A header that is not valid leads to a label, with the connection as it
    was but for the cause recorded. *)
Lemma proxy_header_inl (w : world E) r :
  proxy_header w = inl r ->
  exists l w', r = proxy_goto l w' /\
    flags (w_conn w') = flags (w_conn w) /\
    addr_from (w_conn w') = addr_from (w_conn w) /\
    addr_to (w_conn w') = addr_to (w_conn w) /\
    w_ext w' = w_ext w /\ w_recv_ready w' = w_recv_ready w.
Proof.
  unfold proxy_header. intros H. break_if_hyp; try discriminate;
    match type of H with
    | inl ?a = inl _ => assert (X : r = a) by congruence; clear H; subst r
    end;
    eexists; eexists; (split; [reflexivity|]); repeat split.
Qed.

(** What [proxy_parse] gives, whatever the peek left in [trash]. *)
Lemma proxy_parse_outcomes (w : world E) flag :
  let r := proxy_parse w flag in
  let c := w_conn w in
  let c' := w_conn (snd r) in
  (fst r = 1 /\
   flags c' = Z.land (Z.lor (flags c) (Z.lor CO_FL_ADDR_FROM_SET CO_FL_ADDR_TO_SET))
                (Z.lnot flag) /\
   err_code c' = err_code c)
  \/
  (fst r = 0 /\
   flag_on (flags c') F_ERROR = true /\
   flag_on (flags c') F_SOCK_RD_ENA = false /\
   flag_on (flags c') F_SOCK_WR_ENA = false /\
   forall x, proxy_fail_bit x = false ->
     flag_on (flags c') x = flag_on (flags c) x).
Proof.
  intros r c c'. subst r c c'. unfold proxy_parse.
  destruct (proxy_header w) as [r | [w2 line]] eqn:H.
  - right. destruct (proxy_header_inl w r H) as (l & w' & -> & F & _).
    destruct (proxy_goto_failed OK l w') as (R1 & (_ & R2 & R3 & R4) & _).
    repeat split; trivial.
    intros x Hx. rewrite (proxy_goto_bits l w' x Hx), F. reflexivity.
  - destruct (proxy_header_valid _ _ _ H) as (F2 & C2 & _).
    unfold proxy_reread. destruct (sys_recv _ _ _ _) as [r2 e2].
    match goal with |- context [if ?b then _ else _] => destruct b end.
    + right.
      match goal with |- context [proxy_goto L_recv_abort ?w3] =>
        destruct (proxy_goto_failed OK L_recv_abort w3)
          as (R1 & (_ & R2 & R3 & R4) & _);
        pose proof (proxy_goto_bits L_recv_abort w3) as B
      end.
      repeat split; trivial.
      intros x Hx. rewrite (B x Hx).
      cbn [w_conn set_trash set_ext]. rewrite F2.
      destruct x; try discriminate Hx; unfold_flags; flag_simpl OK; reflexivity.
    + left. cbn [fst snd w_conn set_conn set_trash set_ext flags set_flags err_code].
      rewrite F2, C2. repeat split.
Qed.

End RecvProxyOutcomes.

(** The three ways out of [conn_recv_proxy]: it completes, it fails, or
    it waits. *)
Lemma conn_recv_proxy_cases
  {L : co_layout} (OK : layout_ok L) {CL : ctrl_layer} {LC : libc_inet6}
  {E : Type} {K : kernel E} (w : world E) (flag : Z) :
  let r := conn_recv_proxy w flag in
  let c := w_conn w in
  let c' := w_conn (snd r) in
  (fst r = 1 /\
   flags c' = Z.land (Z.lor (flags c) (Z.lor CO_FL_ADDR_FROM_SET CO_FL_ADDR_TO_SET))
                (Z.lnot flag) /\
   err_code c' = err_code c)
  \/
  (fst r = 0 /\
   flag_on (flags c') F_ERROR = true /\
   flag_on (flags c') F_SOCK_RD_ENA = false /\
   flag_on (flags c') F_SOCK_WR_ENA = false /\
   forall x, proxy_fail_bit x = false ->
     flag_on (flags c') x = flag_on (flags c) x)
  \/
  (fst r = 0 /\ c' = c).
Proof.
  intros r c c'. subst r c c'.
  assert (G : forall l,
    fst (proxy_goto l w) = 0 /\
    flag_on (flags (w_conn (snd (proxy_goto l w)))) F_ERROR = true /\
    flag_on (flags (w_conn (snd (proxy_goto l w)))) F_SOCK_RD_ENA = false /\
    flag_on (flags (w_conn (snd (proxy_goto l w)))) F_SOCK_WR_ENA = false /\
    forall x, proxy_fail_bit x = false ->
      flag_on (flags (w_conn (snd (proxy_goto l w)))) x
      = flag_on (flags (w_conn w)) x).
  { intros l.
    destruct (proxy_goto_failed OK l w) as (R1 & (_ & R2 & R3 & R4) & _).
    repeat split; trivial. intros x Hx. now apply proxy_goto_bits. }
  unfold conn_recv_proxy.
  destruct (c_true (Z.land (flags (w_conn w)) CO_FL_SOCK_RD_SH));
    [right; left; apply G|].
  destruct (negb (conn_ctrl_ready (w_conn w))); [right; left; apply G|].
  destruct (negb (fd_recv_ready w)); [right; right; split; reflexivity|].
  destruct (sys_recv _ _ _ _) as [r e].
  pose proof (proxy_parse_outcomes OK (after_peek w r e) flag) as P.
  cbv zeta in P. cbn [after_peek w_conn set_trash set_ext] in P.
  assert (P' : forall r0, r0 = proxy_parse (after_peek w r e) flag ->
    (fst r0 = 1 /\
     flags (w_conn (snd r0)) =
       Z.land (Z.lor (flags (w_conn w))
                 (Z.lor CO_FL_ADDR_FROM_SET CO_FL_ADDR_TO_SET)) (Z.lnot flag) /\
     err_code (w_conn (snd r0)) = err_code (w_conn w)) \/
    (fst r0 = 0 /\
     flag_on (flags (w_conn (snd r0))) F_ERROR = true /\
     flag_on (flags (w_conn (snd r0))) F_SOCK_RD_ENA = false /\
     flag_on (flags (w_conn (snd r0))) F_SOCK_WR_ENA = false /\
     (forall x, proxy_fail_bit x = false ->
        flag_on (flags (w_conn (snd r0))) x = flag_on (flags (w_conn w)) x)) \/
    fst r0 = 0 /\ w_conn (snd r0) = w_conn w).
  { intros r0 ->. destruct P as [P|P]; [left | right; left]; exact P. }
  destruct (recv_len r <? 0); [|apply P'; reflexivity].
  destruct (recv_errno r =? EINTR); [apply P'; reflexivity|].
  destruct (recv_errno r =? EAGAIN); [right; right; split; reflexivity|].
  right; left.
  destruct (proxy_goto_failed OK L_recv_abort (after_peek w r e))
    as (R1 & (_ & R2 & R3 & R4) & _).
  repeat split; trivial. intros x Hx.
  now rewrite (proxy_goto_bits OK L_recv_abort (after_peek w r e) x Hx).
Qed.

(** X3. Every call of [conn_recv_proxy] ends in one of three ways.  It
    completes: it returns 1 and the flags are those on entry with
    [ADDR_FROM_SET] and [ADDR_TO_SET] set and the handshake flag cleared,
    no cause being recorded.  Or it fails: it returns 0 with [ERROR] set
    and the sock layer's polling stopped, and no flag has changed but
    [ERROR], [SOCK_RD_ENA], [SOCK_WR_ENA], [SOCK_RD_SH], [SOCK_WR_SH] and
    the two [ADDR_*_SET] flags; the handshake flags stay as they were.  Or
    it waits: it returns 0 and the connection is untouched. *)
Theorem conn_recv_proxy_outcomes
  {L : co_layout} (OK : layout_ok L) {CL : ctrl_layer} {LC : libc_inet6}
  {E : Type} {K : kernel E} (w : world E) (flag : Z) :
  let r := conn_recv_proxy w flag in
  let c := w_conn w in
  let c' := w_conn (snd r) in
  (fst r = 1 /\
   flags c' = Z.land (Z.lor (flags c) (Z.lor CO_FL_ADDR_FROM_SET CO_FL_ADDR_TO_SET))
                (Z.lnot flag) /\
   err_code c' = err_code c)
  \/
  (fst r = 0 /\
   flag_on (flags c') F_ERROR = true /\
   flag_on (flags c') F_SOCK_RD_ENA = false /\
   flag_on (flags c') F_SOCK_WR_ENA = false /\
   forall x, proxy_fail_bit x = false ->
     flag_on (flags c') x = flag_on (flags c) x)
  \/
  (fst r = 0 /\ c' = c).
Proof. exact (conn_recv_proxy_cases OK w flag). Qed.

(* ------------------------------------------------------------------ *)
(** ** [conn_recv_proxy]: before and around the two reads *)

(** X4. [conn_recv_proxy] reads nothing in three cases.  Called after a
    shutdown for reading ([SOCK_RD_SH]) or on a connection that is not
    control-ready, it fails at once: it returns 0 with [ERROR] set and the
    sock layer's polling stopped, records no cause ([err_code] is left as
    it was), and issues no [recv].  Called when the descriptor is not ready
    for reading, it returns 0 and changes nothing. *)
Theorem conn_recv_proxy_without_read
  {L : co_layout} (OK : layout_ok L) {CL : ctrl_layer} {LC : libc_inet6}
  {E : Type} {K : kernel E} (w : world E) (flag : Z) :
  let r := conn_recv_proxy w flag in
  (flag_on (flags (w_conn w)) F_SOCK_RD_SH = true \/
   conn_ctrl_ready (w_conn w) = false ->
   fst r = 0 /\
   proxy_failed (w_conn (snd r)) (err_code (w_conn w)) /\
   w_ext (snd r) = w_ext w /\ w_trash (snd r) = w_trash w /\
   addr_from (w_conn (snd r)) = addr_from (w_conn w) /\
   addr_to (w_conn (snd r)) = addr_to (w_conn w))
  /\
  (flag_on (flags (w_conn w)) F_SOCK_RD_SH = false ->
   conn_ctrl_ready (w_conn w) = true ->
   fd_recv_ready w = false ->
   r = (0, w)).
Proof.
  intros r. subst r. unfold conn_recv_proxy, CO_FL_SOCK_RD_SH.
  rewrite (c_true_flag OK). split.
  - intros H.
    assert (G : conn_recv_proxy w flag = proxy_goto L_fail w).
    { unfold conn_recv_proxy, CO_FL_SOCK_RD_SH. rewrite (c_true_flag OK).
      destruct (flag_on (flags (w_conn w)) F_SOCK_RD_SH); [reflexivity|].
      destruct H as [H|H]; [discriminate | now rewrite H]. }
    unfold conn_recv_proxy, CO_FL_SOCK_RD_SH in G. rewrite (c_true_flag OK) in G.
    rewrite G.
    destruct (proxy_goto_failed OK L_fail w) as (R1 & R2 & R3 & _).
    repeat split; trivial; apply R2.
  - intros H1 H2 H3. now rewrite H1, H2, H3.
Qed.

(** X5. What a failed peek does.  With [EAGAIN] the call waits: it returns
    0, tells the poller that the descriptor cannot be read
    ([fd_cant_recv]) and leaves the connection untouched.  With [EINTR] the
    [continue] leaves the [do ... while (0)] loop with [trash.len] at -1,
    so the call fails with [CO_ER_PRX_TRUNCATED].  With any other error it
    fails with [CO_ER_PRX_ABORT] and sets [SOCK_RD_SH] and [SOCK_WR_SH]. *)
Theorem conn_recv_proxy_peek_fails
  {L : co_layout} (OK : layout_ok L) {CL : ctrl_layer} {LC : libc_inet6}
  {E : Type} {K : kernel E} (w : world E) (flag : Z) (errno : Z) (e : E) :
  flag_on (flags (w_conn w)) F_SOCK_RD_SH = false ->
  conn_ctrl_ready (w_conn w) = true ->
  fd_recv_ready w = true ->
  sys_recv (w_ext w) (sock_fd (w_conn w)) (size (w_trash w)) MSG_PEEK
  = (recv_fail errno, e) ->
  let r := conn_recv_proxy w flag in
  let c' := w_conn (snd r) in
  fst r = 0 /\ w_ext (snd r) = e /\
  (errno = EAGAIN ->
     c' = w_conn w /\ fd_recv_ready (snd r) = false) /\
  (errno = EINTR ->
     proxy_failed c' CO_ER_PRX_TRUNCATED /\
     flag_on (flags c') F_SOCK_RD_SH = false) /\
  (errno <> EAGAIN -> errno <> EINTR ->
     proxy_failed c' CO_ER_PRX_ABORT /\
     flag_on (flags c') F_SOCK_RD_SH = true /\
     flag_on (flags c') F_SOCK_WR_SH = true).
Proof.
  intros H1 H2 H3 H4 r c'. subst r c'.
  unfold conn_recv_proxy, CO_FL_SOCK_RD_SH.
  rewrite (c_true_flag OK), H1, H2, H3, H4. cbn [negb recv_len recv_errno Z.ltb Z.compare].
  set (w1 := after_peek w (recv_fail errno) e).
  destruct (Z.eqb_spec errno EINTR) as [I|I].
  - assert (G : proxy_parse w1 flag = proxy_goto L_missing w1) by reflexivity.
    rewrite G.
    destruct (proxy_goto_failed OK L_missing w1) as (R1 & R2 & R3 & _).
    split; [exact R1|]. split; [exact R3|]. split; [|split].
    + intros A. rewrite A in I. discriminate I.
    + intros _. split; [exact R2|].
      cbn [proxy_goto]. rewrite (proxy_fail_flags OK).
      cbn [w_conn set_conn flags set_err_code]. exact H1.
    + intros _ N. contradiction.
  - destruct (Z.eqb_spec errno EAGAIN) as [A|A].
    + repeat split; try reflexivity; intros; contradiction.
    + destruct (proxy_goto_failed OK L_recv_abort w1) as (R1 & R2 & R3 & _).
      split; [exact R1|]. split; [exact R3|]. split; [|split].
      * intros X. contradiction.
      * intros X. contradiction.
      * intros _ _. split; [exact R2|].
        cbn [proxy_goto]. cbv zeta. rewrite !(proxy_fail_flags OK).
        cbn [w_conn set_conn flags set_flags set_err_code].
        unfold_flags. flag_simpl OK. split; reflexivity.
Qed.

(** X6. What is peeked is not a PROXY header: when the peek returns no
    byte (the client has shut down) the call fails with
    [CO_ER_PRX_EMPTY]; when it returns six bytes or more that do not start
    with "PROXY " the call fails with [CO_ER_PRX_NOT_HDR].  In both cases
    nothing is read for good and the addresses are left as they were. *)
Theorem conn_recv_proxy_not_header
  {L : co_layout} (OK : layout_ok L) {CL : ctrl_layer} {LC : libc_inet6}
  {E : Type} {K : kernel E} (w : world E) (flag : Z) (data : list Z) (e : E) :
  peeks w data e ->
  let r := conn_recv_proxy w flag in
  let c' := w_conn (snd r) in
  (data = [] -> proxy_failed c' CO_ER_PRX_EMPTY) /\
  (6 <= Z.of_nat (length data) -> firstn 6 data <> bytes "PROXY " ->
   proxy_failed c' CO_ER_PRX_NOT_HDR) /\
  (data = [] \/
   (6 <= Z.of_nat (length data) /\ firstn 6 data <> bytes "PROXY ") ->
   fst r = 0 /\ w_ext (snd r) = e /\
   addr_from c' = addr_from (w_conn w) /\ addr_to c' = addr_to (w_conn w)).
Proof.
  intros Hp r c'. subst r c'.
  rewrite (conn_recv_proxy_peeks OK w flag data e Hp).
  set (w1 := after_peek w (recv_ok data) e).
  assert (G0 : data = [] ->
               proxy_parse w1 flag =
               proxy_goto L_fail
                 (set_conn w1 (set_err_code (w_conn w1) CO_ER_PRX_EMPTY))).
  { intros ->. reflexivity. }
  assert (G6 : 6 <= Z.of_nat (length data) -> firstn 6 data <> bytes "PROXY " ->
               proxy_parse w1 flag =
               proxy_goto L_fail
                 (set_conn w1 (set_err_code (w_conn w1) CO_ER_PRX_NOT_HDR))).
  { intros H6 Hn. unfold proxy_parse, proxy_header.
    replace (len (w_trash w1)) with (Z.of_nat (length data)) by reflexivity.
    destruct (Z.eqb_spec (Z.of_nat (length data)) 0); [lia|].
    destruct (Z.ltb_spec (Z.of_nat (length data)) 6); [lia|].
    assert (Hh : holds (str (w_trash w1)) 0 (firstn 6 data)).
    { pose proof (after_peek_holds w data e) as Hw. fold w1 in Hw.
      rewrite <- (firstn_skipn 6 data) in Hw. apply holds_app in Hw. tauto. }
    assert (S0 : strncmp (from (str (w_trash w1)) 0) (bytes "PROXY ") 6 <> 0).
    { intros S0. apply Hn.
      apply (strncmp_from (firstn 6 data) (str (w_trash w1)) 0 (bytes "PROXY "));
        trivial.
      - rewrite length_firstn. change (length (bytes "PROXY ")) with 6%nat. lia.
      - cbn. repeat constructor; lia. }
    unfold c_ne. destruct (Z.eqb_spec (strncmp (from (str (w_trash w1)) 0)
                                         (bytes "PROXY ") 6) 0);
      [contradiction | reflexivity]. }
  split; [|split].
  - intros H. rewrite (G0 H).
    apply (proxy_goto_failed OK L_fail
             (set_conn w1 (set_err_code (w_conn w1) CO_ER_PRX_EMPTY))).
  - intros H6 Hn. rewrite (G6 H6 Hn).
    apply (proxy_goto_failed OK L_fail
             (set_conn w1 (set_err_code (w_conn w1) CO_ER_PRX_NOT_HDR))).
  - intros [H | (H6 & Hn)]; [rewrite (G0 H) | rewrite (G6 H6 Hn)];
      repeat split.
Qed.

(** X7. A second read that is interrupted is taken for a success: when the
    header peeked is valid and the [recv] that is to remove it fails with
    [EINTR], the [continue] leaves the [do ... while (0)] loop, the
    handshake flag is cleared and [conn_recv_proxy] returns 1, with no
    error, although the line has not been read for good. *)
Theorem conn_recv_proxy_reread_interrupted
  {L : co_layout} (OK : layout_ok L) {CL : ctrl_layer} {LC : libc_inet6}
  {E : Type} {K : kernel E} (w : world E) (flag : Z) (data : list Z) (e : E)
  (w2 : world E) (line : Z) (e2 : E) :
  peeks w data e ->
  proxy_header (after_peek w (recv_ok data) e) = inr (w2, line) ->
  sys_recv e (sock_fd (w_conn w)) line 0 = (recv_fail EINTR, e2) ->
  let r := conn_recv_proxy w flag in
  let c' := w_conn (snd r) in
  fst r = 1 /\
  flags c' = Z.land (Z.lor (flags (w_conn w))
                       (Z.lor CO_FL_ADDR_FROM_SET CO_FL_ADDR_TO_SET))
               (Z.lnot flag) /\
  err_code c' = err_code (w_conn w) /\
  w_ext (snd r) = e2.
Proof.
  intros Hp Hh Hr r c'. subst r c'.
  rewrite (conn_recv_proxy_peeks OK w flag data e Hp).
  unfold proxy_parse. rewrite Hh.
  destruct (proxy_header_valid _ _ _ Hh) as (F2 & C2 & S2 & X2).
  cbn [after_peek w_conn w_ext set_trash set_ext] in F2, C2, S2, X2.
  unfold proxy_reread. rewrite X2, S2, Hr.
  cbn [recv_len recv_errno Z.ltb Z.compare Z.eqb Pos.eqb EINTR andb negb].
  cbn [fst snd w_conn set_conn set_trash set_ext flags set_flags err_code w_ext].
  rewrite F2, C2. repeat split.
Qed.

(* ------------------------------------------------------------------ *)
(** ** The TCP4 branch on a line that is cut *)

(** What is held of [s ++ rest] when only its first [n] bytes are there:
    a part of [s], or all of [s] and a part of [rest]. *)
Lemma holds_firstn_cut buf p n (s rest : list Z) :
  holds buf p (firstn n (s ++ rest)) -> (n <= length s)%nat ->
  holds buf p (firstn n s).
Proof.
  intros H Hn. rewrite firstn_app in H.
  replace (n - length s)%nat with 0%nat in H by lia.
  cbn [firstn] in H. now rewrite app_nil_r in H.
Qed.

Lemma holds_firstn_full buf p n (s rest : list Z) :
  holds buf p (firstn n (s ++ rest)) -> (length s <= n)%nat ->
  holds buf p s /\
  holds buf (p + Z.of_nat (length s)) (firstn (n - length s) rest).
Proof.
  intros H Hn. rewrite firstn_app, firstn_all2 in H by lia.
  now apply holds_app in H.
Qed.

(** The byte after a field that is there in full. *)
Lemma holds_firstn_sep buf p n x (rest : list Z) :
  holds buf p (firstn n ([x] ++ rest)) -> (1 <= n)%nat ->
  deref buf p = x /\ holds buf (p + 1) (firstn (n - 1) rest).
Proof.
  intros H Hn. apply holds_firstn_full in H; [|cbn [length]; lia].
  destruct H as (H1 & H2). apply holds_cons in H1. split; [tauto|exact H2].
Qed.

Lemma Forall_firstn_Z (P : Z -> Prop) n : forall l,
  Forall P l -> Forall P (firstn n l).
Proof.
  induction n as [|n IH]; intros [|x l] H; cbn [firstn]; try constructor.
  - exact (Forall_inv H).
  - apply IH. exact (Forall_inv_tail H).
Qed.

(** [read_uint] on digits that run into the limit stops at the limit. *)
Lemma read_uint_cut buf p n s :
  Forall is_digit s -> holds buf p (firstn n s) -> (n <= length s)%nat ->
  snd (read_uint buf p (p + Z.of_nat n)) = p + Z.of_nat n.
Proof.
  intros Hd Hh Hn.
  rewrite (read_uint_digits buf p (p + Z.of_nat n) (firstn n s)); trivial.
  - cbn [snd]. rewrite length_firstn. lia.
  - now apply Forall_firstn_Z.
  - left. rewrite length_firstn. lia.
Qed.

Lemma inetaddr_loop_cut m buf p n s sh acc :
  Forall is_digit s -> holds buf p (firstn n s) -> (n <= length s)%nat ->
  snd (inetaddr_loop m buf p (p + Z.of_nat n) sh acc) = p + Z.of_nat n.
Proof.
  intros Hd Hh Hn. pose proof (read_uint_cut buf p n s Hd Hh Hn) as R.
  destruct m; cbn [inetaddr_loop];
    destruct (read_uint buf p (p + Z.of_nat n)) as [v q]; cbn [snd] in R;
    subst q; rewrite Z.leb_refl; reflexivity.
Qed.

Lemma inet_ntop4_dotted a1 a2 a3 a4 :
  inet_ntop4 [a1; a2; a3; a4] = dotted [a1; a2; a3; a4].
Proof. reflexivity. Qed.

(** [inetaddr_host_lim_ret] on an address whose text runs into the limit
    stops at the limit. *)
Lemma inetaddr_loop_dotted_cut comps : forall m buf p n sh acc,
  length comps = S m ->
  Forall (fun a => 0 <= a < 2 ^ 32) comps ->
  holds buf p (firstn n (dotted comps)) -> (n <= length (dotted comps))%nat ->
  snd (inetaddr_loop m buf p (p + Z.of_nat n) sh acc) = p + Z.of_nat n.
Proof.
  induction comps as [|a comps IH]; intros m buf p n sh acc Hl Hr Hh Hn;
    [discriminate|].
  pose proof (Forall_inv Hr) as Ha. apply Forall_inv_tail in Hr.
  cbn beta in Ha. destruct (utoa_spec a Ha) as (D & _ & _).
  destruct comps as [|b comps].
  - cbn [dotted] in *. now apply (inetaddr_loop_cut m buf p n (utoa a)).
  - change (dotted (a :: b :: comps))
      with (utoa a ++ [46] ++ dotted (b :: comps)) in *.
    destruct (Nat.le_gt_cases n (length (utoa a))) as [C|C].
    + apply holds_firstn_cut in Hh; [|exact C].
      now apply (inetaddr_loop_cut m buf p n (utoa a)).
    + apply holds_firstn_full in Hh; [|lia]. destruct Hh as (H1 & H2).
      apply holds_firstn_sep in H2; [|lia]. destruct H2 as (H2 & H3).
      cbn [length] in Hl. destruct m as [|m]; [discriminate|].
      rewrite (inetaddr_loop_step (S m) buf p _ sh acc a); trivial;
        rewrite ?H2; try lia; [|unfold is_digit; lia].
      cbv zeta. rewrite H2. cbn [Z.eqb Pos.eqb].
      rewrite !length_app in Hn. cbn [length] in Hn, Hl.
      replace (p + Z.of_nat n)
        with (p + Z.of_nat (length (utoa a)) + 1 +
              Z.of_nat (n - length (utoa a) - 1)) by lia.
      apply IH; trivial; [cbn [length]; lia | lia].
Qed.

Lemma inetaddr_host_lim_ret_cut buf p n a :
  is_bytes 4 a -> holds buf p (firstn n (inet_ntop4 a)) ->
  (n <= length (inet_ntop4 a))%nat ->
  snd (inetaddr_host_lim_ret buf p (p + Z.of_nat n)) = p + Z.of_nat n.
Proof.
  intros Ha Hh Hn.
  destruct (is_bytes_4 a Ha) as (a1 & a2 & a3 & a4 & -> & A1 & A2 & A3 & A4).
  rewrite inet_ntop4_dotted in *. unfold inetaddr_host_lim_ret.
  apply (inetaddr_loop_dotted_cut [a1; a2; a3; a4]); trivial.
  change (2 ^ 32) with 4294967296. repeat constructor; lia.
Qed.

Lemma parse_tcp4_cut {L : co_layout} c buf k src dst ds1 ds2 :
  is_bytes 4 src -> is_bytes 4 dst ->
  Forall is_digit ds1 -> Forall is_digit ds2 ->
  holds buf 0 (firstn k (tcp4_line src dst ds1 ds2)) ->
  (11 <= k < length (tcp4_line src dst ds1 ds2))%nat ->
  parse_tcp4 c buf 6 (Z.of_nat k) = P_goto L_missing buf.
Proof.
  intros Hs Hd G1 G2 Hh Hk. unfold tcp4_line in *.
  repeat rewrite length_app in Hk.
  change (length (bytes "PROXY TCP4 ")) with 11%nat in *.
  cbn [length] in Hk.
  set (stop := Z.of_nat k). assert (Es : stop = Z.of_nat k) by reflexivity.
  clearbody stop.
  apply holds_firstn_full in Hh;
    [|change (length (bytes "PROXY TCP4 ")) with 11%nat; lia].
  destruct Hh as (_ & Hh).
  change (length (bytes "PROXY TCP4 ")) with 11%nat in Hh.
  change (0 + Z.of_nat 11) with 11 in Hh.
  unfold parse_tcp4. change (6 + 5) with 11.
  (* the source address *)
  destruct (Nat.le_gt_cases (k - 11) (length (inet_ntop4 src))) as [C1|C1].
  { apply holds_firstn_cut in Hh; [|exact C1].
    pose proof (inetaddr_host_lim_ret_cut buf 11 (k - 11) src Hs Hh C1) as R.
    replace (11 + Z.of_nat (k - 11)) with stop in R by lia.
    destruct (inetaddr_host_lim_ret buf 11 stop) as [v q]. cbn [snd] in R.
    subst q. now rewrite Z.eqb_refl. }
  apply holds_firstn_full in Hh; [|lia]. destruct Hh as (Ha & Hh).
  apply holds_firstn_sep in Hh; [|lia]. destruct Hh as (D1 & Hh).
  destruct (is_bytes_4 _ Hs) as (a1 & a2 & a3 & a4 & Ea & A1 & A2 & A3 & A4).
  rewrite Ea in Ha, D1, Hh, C1, Hk.
  set (ta := inet_ntop4 [a1; a2; a3; a4]) in *.
  rewrite (inetaddr_host_lim_ret_ntop4 buf 11 stop a1 a2 a3 a4); trivial;
    fold ta; rewrite ?D1; try lia; try exact not_digit_32.
  destruct (Z.eqb_spec (11 + Z.of_nat (length ta)) stop); [lia|].
  cbn [negb Z.eqb Pos.eqb].
  set (p2 := 11 + Z.of_nat (length ta) + 1) in *.
  set (n2 := (k - 11 - length ta - 1)%nat) in *.
  assert (E2 : stop = p2 + Z.of_nat n2) by lia.
  (* the destination address *)
  destruct (Nat.le_gt_cases n2 (length (inet_ntop4 dst))) as [C2|C2].
  { apply holds_firstn_cut in Hh; [|exact C2].
    pose proof (inetaddr_host_lim_ret_cut buf p2 n2 dst Hd Hh C2) as R.
    rewrite <- E2 in R.
    destruct (inetaddr_host_lim_ret buf p2 stop) as [v q]. cbn [snd] in R.
    subst q. now rewrite Z.eqb_refl. }
  apply holds_firstn_full in Hh; [|lia]. destruct Hh as (Hb & Hh).
  apply holds_firstn_sep in Hh; [|lia]. destruct Hh as (D2 & Hh).
  destruct (is_bytes_4 _ Hd) as (b1 & b2 & b3 & b4 & Eb & B1 & B2 & B3 & B4).
  rewrite Eb in Hb, D2, Hh, C2, Hk.
  set (tb := inet_ntop4 [b1; b2; b3; b4]) in *.
  rewrite (inetaddr_host_lim_ret_ntop4 buf p2 stop b1 b2 b3 b4); trivial;
    fold tb; rewrite ?D2; try lia; try exact not_digit_32.
  destruct (Z.eqb_spec (p2 + Z.of_nat (length tb)) stop); [lia|].
  cbn [negb Z.eqb Pos.eqb].
  set (p3 := p2 + Z.of_nat (length tb) + 1) in *.
  set (n3 := (n2 - length tb - 1)%nat) in *.
  assert (E3 : stop = p3 + Z.of_nat n3) by lia.
  (* the source port *)
  destruct (Nat.le_gt_cases n3 (length ds1)) as [C3|C3].
  { apply holds_firstn_cut in Hh; [|exact C3].
    pose proof (read_uint_cut buf p3 n3 ds1 G1 Hh C3) as R.
    rewrite <- E3 in R.
    destruct (read_uint buf p3 stop) as [v q]. cbn [snd] in R.
    subst q. now rewrite Z.eqb_refl. }
  apply holds_firstn_full in Hh; [|lia]. destruct Hh as (H3 & Hh).
  apply holds_firstn_sep in Hh; [|lia]. destruct Hh as (D3 & Hh).
  rewrite (read_uint_digits buf p3 stop ds1); trivial.
  2:{ right. rewrite D3. split; [lia|]. split; [lia|exact not_digit_32]. }
  destruct (Z.eqb_spec (p3 + Z.of_nat (length ds1)) stop); [lia|].
  rewrite D3. cbn [negb Z.eqb Pos.eqb].
  set (p4 := p3 + Z.of_nat (length ds1) + 1) in *.
  set (n4 := (n3 - length ds1 - 1)%nat) in *.
  assert (E4 : stop = p4 + Z.of_nat n4) by lia.
  (* the destination port *)
  destruct (Nat.le_gt_cases n4 (length ds2)) as [C4|C4].
  { apply holds_firstn_cut in Hh; [|exact C4].
    pose proof (read_uint_cut buf p4 n4 ds2 G2 Hh C4) as R.
    rewrite <- E4 in R.
    destruct (read_uint buf p4 stop) as [v q]. cbn [snd] in R.
    subst q. destruct (Z.gtb_spec stop (stop - 2)); [reflexivity|lia]. }
  apply holds_firstn_full in Hh; [|lia]. destruct Hh as (H4 & Hh).
  apply holds_firstn_sep in Hh; [|lia]. destruct Hh as (D4 & Hh).
  rewrite (read_uint_digits buf p4 stop ds2); trivial.
  2:{ right. rewrite D4. split; [lia|]. split; [lia|exact not_digit_13]. }
  destruct (Z.gtb_spec (p4 + Z.of_nat (length ds2)) (stop - 2));
    [reflexivity|lia].
Qed.

(** X8. A TCP4 header that does not come in one piece is lost: when the
    peek returns a first part only of a well-formed TCP4 line, wherever the
    cut falls, [conn_recv_proxy] fails with [CO_ER_PRX_TRUNCATED] ([ERROR]
    set, polling of the sock layer stopped, 0 returned); it never waits for
    the rest, never reads what follows the bytes peeked in [trash], and
    leaves the addresses as they were. *)
Theorem conn_recv_proxy_tcp4_cut
  {L : co_layout} (OK : layout_ok L) {CL : ctrl_layer} {LC : libc_inet6}
  {E : Type} {K : kernel E} (w : world E) (flag : Z)
  (src dst ds1 ds2 data rest : list Z) (e : E) :
  is_bytes 4 src -> is_bytes 4 dst ->
  Forall is_digit ds1 -> Forall is_digit ds2 ->
  tcp4_line src dst ds1 ds2 = data ++ rest ->
  data <> [] -> rest <> [] ->
  peeks w data e ->
  let r := conn_recv_proxy w flag in
  let c' := w_conn (snd r) in
  fst r = 0 /\ proxy_failed c' CO_ER_PRX_TRUNCATED /\
  w_ext (snd r) = e /\
  addr_from c' = addr_from (w_conn w) /\ addr_to c' = addr_to (w_conn w).
Proof.
  intros Hs Hd G1 G2 Hl Nd Nr Hp r c'. subst r c'.
  rewrite (conn_recv_proxy_peeks OK w flag data e Hp).
  set (w1 := after_peek w (recv_ok data) e).
  set (line := tcp4_line src dst ds1 ds2) in *.
  set (k := length data).
  assert (Ek : data = firstn k line).
  { rewrite Hl, firstn_app. unfold k.
    now rewrite Nat.sub_diag, firstn_all, app_nil_r. }
  assert (Hk : (0 < k < length line)%nat).
  { rewrite Hl, length_app. unfold k.
    destruct data; [congruence|]. destruct rest; [congruence|].
    cbn [length]. lia. }
  assert (Hh : holds (str (w_trash w1)) 0 (firstn k line)).
  { rewrite <- Ek. apply after_peek_holds. }
  assert (Hn : len (w_trash w1) = Z.of_nat k) by reflexivity.
  assert (G : exists w', proxy_parse w1 flag = proxy_goto L_missing w' /\
                         w_conn w' = w_conn w /\ w_ext w' = e).
  { unfold proxy_parse.
    destruct (Z.lt_ge_cases (Z.of_nat k) 6) as [C6|C6].
    { exists w1. split; [|split; reflexivity]. unfold proxy_header. rewrite Hn.
      destruct (Z.eqb_spec (Z.of_nat k) 0); [lia|].
      destruct (Z.ltb_spec (Z.of_nat k) 6); [reflexivity|lia]. }
    destruct (Z.lt_ge_cases (Z.of_nat k) 18) as [C18|C18].
    { exists w1. split; [|split; reflexivity]. unfold proxy_header. rewrite Hn.
      destruct (Z.eqb_spec (Z.of_nat k) 0); [lia|].
      destruct (Z.ltb_spec (Z.of_nat k) 6); [lia|].
      assert (H6 : holds (str (w_trash w1)) 0 (bytes "PROXY ")).
      { unfold line, tcp4_line in Hh.
        change (bytes "PROXY TCP4 ") with (bytes "PROXY " ++ bytes "TCP4 ") in Hh.
        rewrite <- !app_assoc in Hh.
        apply holds_firstn_full in Hh;
          [tauto | change (length (bytes "PROXY ")) with 6%nat; lia]. }
      assert (S0 : strncmp (from (str (w_trash w1)) 0) (bytes "PROXY ") 6 = 0).
      { apply (strncmp_from (bytes "PROXY ")); try reflexivity; trivial.
        cbn. repeat constructor; lia. }
      rewrite S0. cbn [c_ne c_true Z.eqb negb].
      destruct (Z.ltb_spec (Z.of_nat k) 18); [reflexivity|lia]. }
    assert (H11 : holds (str (w_trash w1)) 0
                    (bytes "PROXY " ++ bytes "TCP4 " ++ [])).
    { pose proof Hh as Hh'. unfold line, tcp4_line in Hh'.
      apply holds_firstn_full in Hh';
        [|change (length (bytes "PROXY TCP4 ")) with 11%nat; lia].
      destruct Hh' as (Hh' & _). exact Hh'. }
    destruct (proxy_header_prefix w1 (bytes "TCP4 ") [] H11 eq_refl
                ltac:(rewrite Hn; lia)) as (T & ->).
    cbv zeta. unfold tcp4_test.
    rewrite (tag_test_value _ 6 (bytes "TCP4 ") (bytes "TCP4 ") T eq_refl eq_refl).
    replace (c_true (if list_Z_eqb (bytes "TCP4 ") (bytes "TCP4 ") then 1 else 0))
      with true by reflexivity.
    rewrite Hn.
    rewrite (parse_tcp4_cut (w_conn w1) _ k src dst ds1 ds2 Hs Hd G1 G2 Hh
               ltac:(fold line; lia)).
    eexists. split; [reflexivity|]. split; reflexivity. }
  destruct G as (w' & -> & Hc & He).
  destruct (proxy_goto_failed OK L_missing w') as (R1 & R2 & R3 & _).
  destruct (proxy_goto_addrs L_missing w') as (A1 & A2).
  cbn [label_code] in R2. rewrite <- Hc, <- He. auto.
Qed.

(* ------------------------------------------------------------------ *)
(** ** The TCP4 branch after the destination port *)

(** The TCP4 branch on four well-formed fields followed by a byte [x] that
    is not a digit: what is left is the tests of lines 316-321. *)
Lemma parse_tcp4_after_port {L : co_layout} c buf end_ src dst sport dport x :
  is_bytes 4 src -> is_bytes 4 dst ->
  Forall is_digit sport -> Forall is_digit dport ->
  0 <= x < 256 -> ~ is_digit x ->
  let text := bytes "PROXY TCP4 " ++ inet_ntop4 src ++ [32] ++
              inet_ntop4 dst ++ [32] ++ sport ++ [32] ++ dport ++ [x] in
  holds buf 0 text -> Z.of_nat (length text) <= end_ ->
  parse_tcp4 c buf 6 end_ =
  let q := Z.of_nat (length text) - 1 in
  if q >? end_ - 2 then P_goto L_missing buf else
  if negb (x =? 13) then P_goto L_bad_header buf else
  if negb (deref buf (q + 1) =? 10) then P_goto L_bad_header buf else
  P_done (with_addrs4 c src dst (dec_value sport mod 2 ^ 32)
            (dec_value dport mod 2 ^ 32))
    buf (q + 2).
Proof.
  intros Hs Hd Hp1 Hp2 Hx Nx text Hh He. subst text.
  destruct (is_bytes_4 _ Hs) as (a1 & a2 & a3 & a4 & -> & A1 & A2 & A3 & A4).
  destruct (is_bytes_4 _ Hd) as (b1 & b2 & b3 & b4 & -> & B1 & B2 & B3 & B4).
  set (ta := inet_ntop4 [a1; a2; a3; a4]) in *.
  set (tb := inet_ntop4 [b1; b2; b3; b4]) in *.
  repeat rewrite length_app in *.
  repeat (rewrite holds_app in Hh || rewrite holds_cons in Hh).
  change (length (bytes "PROXY TCP4 ")) with 11%nat in *.
  cbn [length] in *. rewrite ?Nat2Z.inj_add in *.
  change (Z.of_nat 11) with 11 in *. change (Z.of_nat 1) with 1 in *.
  rewrite !Z.add_0_l in Hh.
  destruct Hh as (_ & Ha & (D1 & _ & _ & _) & Hb & (D2 & _ & _ & _) & H3 &
                  (D3 & _ & _ & _) & H4 & D4 & _).
  unfold parse_tcp4. change (6 + 5) with 11.
  rewrite (inetaddr_host_lim_ret_ntop4 buf 11 end_ a1 a2 a3 a4); trivial;
    fold ta; rewrite ?D1; try lia; try exact not_digit_32.
  destruct (Z.eqb_spec (11 + Z.of_nat (length ta)) end_); [lia|].
  cbn [negb Z.eqb Pos.eqb].
  rewrite (inetaddr_host_lim_ret_ntop4 buf _ end_ b1 b2 b3 b4); trivial;
    fold tb; rewrite ?D2; try lia; try exact not_digit_32.
  match goal with |- context [?x =? end_] =>
    destruct (Z.eqb_spec x end_); [lia|] end.
  cbn [negb Z.eqb Pos.eqb].
  rewrite (read_uint_digits buf _ end_ sport); trivial.
  2:{ right. rewrite D3. split; [lia|]. split; [lia|exact not_digit_32]. }
  match goal with |- context [?x =? end_] =>
    destruct (Z.eqb_spec x end_); [lia|] end.
  rewrite D3. cbn [negb Z.eqb Pos.eqb].
  rewrite (read_uint_digits buf _ end_ dport); trivial.
  2:{ right. rewrite D4. split; [lia|]. split; [lia|exact Nx]. }
  cbv zeta.
  match goal with |- (if ?a >? _ then _ else _) = (if ?b >? _ then _ else _) =>
    replace b with a by lia end.
  rewrite D4. rewrite !htonl_bytes by assumption.
  unfold with_addrs4.
  repeat match goal with |- context [if ?b then _ else _] => destruct b end;
    try reflexivity.
  f_equal. lia.
Qed.

(** X9. What follows the destination port of a TCP4 header.  When the
    byte after the digits of the port is not a digit and is the last byte
    that the peek returned, [conn_recv_proxy] fails with
    [CO_ER_PRX_TRUNCATED], whatever that byte is: line 316 asks for two
    bytes.  When one more byte was peeked, and the first of the two is not
    CR or the second is not LF, it fails with [CO_ER_PRX_BAD_HDR]; so a
    space or any other text after the port, and a bare LF that is not the
    end of the data, are refused as a bad header.  In both cases nothing
    is read for good and the addresses are left as they were. *)
Theorem conn_recv_proxy_tcp4_bad_end
  {L : co_layout} (OK : layout_ok L) {CL : ctrl_layer} {LC : libc_inet6}
  {E : Type} {K : kernel E} (w : world E) (flag : Z)
  (src dst ds1 ds2 : list Z) (x : Z) (tail : list Z) (e : E) :
  is_bytes 4 src -> is_bytes 4 dst ->
  Forall is_digit ds1 -> Forall is_digit ds2 ->
  0 <= x < 256 -> ~ is_digit x ->
  peeks w (bytes "PROXY TCP4 " ++ inet_ntop4 src ++ [32] ++
           inet_ntop4 dst ++ [32] ++ ds1 ++ [32] ++ ds2 ++ x :: tail) e ->
  let r := conn_recv_proxy w flag in
  let c' := w_conn (snd r) in
  let failed code :=
    fst r = 0 /\ proxy_failed c' code /\ w_ext (snd r) = e /\
    addr_from c' = addr_from (w_conn w) /\ addr_to c' = addr_to (w_conn w) in
  match tail with
  | [] => failed CO_ER_PRX_TRUNCATED
  | y :: _ => x <> 13 \/ y <> 10 -> failed CO_ER_PRX_BAD_HDR
  end.
Proof.
  intros Hs Hd G1 G2 Hx Nx Hp r c' failed. subst failed r c'.
  rewrite (conn_recv_proxy_peeks OK w flag _ e Hp).
  set (text := bytes "PROXY TCP4 " ++ inet_ntop4 src ++ [32] ++
               inet_ntop4 dst ++ [32] ++ ds1 ++ [32] ++ ds2 ++ [x]).
  assert (Ed : bytes "PROXY TCP4 " ++ inet_ntop4 src ++ [32] ++
               inet_ntop4 dst ++ [32] ++ ds1 ++ [32] ++ ds2 ++ x :: tail
               = text ++ tail).
  { unfold text. repeat rewrite <- app_assoc. reflexivity. }
  rewrite Ed in *.
  set (w1 := after_peek w (recv_ok (text ++ tail)) e).
  assert (Hh : holds (str (w_trash w1)) 0 (text ++ tail)).
  { apply after_peek_holds. }
  pose proof Hh as Hh'. apply holds_app in Hh'. destruct Hh' as (Ht & Hy).
  assert (Hn : len (w_trash w1) = Z.of_nat (length text) + Z.of_nat (length tail)).
  { unfold w1. cbn [after_peek w_trash set_trash len recv_len].
    rewrite length_app. lia. }
  assert (H18 : (18 <= length text)%nat).
  { unfold text. repeat rewrite length_app.
    change (length (bytes "PROXY TCP4 ")) with 11%nat. cbn [length].
    pose proof (inet_ntop4_length src Hs). lia. }
  assert (P : proxy_parse w1 flag =
              match parse_tcp4 (w_conn w1) (str (w_trash w1)) 6 (len (w_trash w1))
              with
              | P_goto l buf =>
                  proxy_goto l
                    (set_trash w1
                       {| str := buf; len := len (w_trash w1);
                          size := size (w_trash w1) |})
              | P_done c buf line =>
                  proxy_reread
                    (set_trash (set_conn w1 c)
                       {| str := buf; len := len (w_trash w1);
                          size := size (w_trash w1) |}) flag line
              end).
  { unfold proxy_parse.
    destruct (proxy_header_prefix w1 (bytes "TCP4 ")
                (inet_ntop4 src ++ [32] ++ inet_ntop4 dst ++ [32] ++
                 ds1 ++ [32] ++ ds2 ++ [x])) as (T & ->);
      [exact Ht | reflexivity | lia |].
    cbv zeta. unfold tcp4_test.
    rewrite (tag_test_value _ 6 (bytes "TCP4 ") (bytes "TCP4 ") T eq_refl eq_refl).
    replace (c_true (if list_Z_eqb (bytes "TCP4 ") (bytes "TCP4 ") then 1 else 0))
      with true by reflexivity.
    destruct (parse_tcp4 _ _ _ _); reflexivity. }
  rewrite P.
  assert (Hle : Z.of_nat (length text) <= len (w_trash w1)) by lia.
  rewrite (parse_tcp4_after_port (w_conn w1) (str (w_trash w1))
             (len (w_trash w1)) src dst ds1 ds2 x
             Hs Hd G1 G2 Hx Nx Ht Hle).
  fold text. cbv zeta.
  assert (G : forall l w',
    w_conn w' = w_conn w -> w_ext w' = e ->
    fst (proxy_goto l w') = 0 /\
    proxy_failed (w_conn (snd (proxy_goto l w'))) (label_code l (err_code (w_conn w))) /\
    w_ext (snd (proxy_goto l w')) = e /\
    addr_from (w_conn (snd (proxy_goto l w'))) = addr_from (w_conn w) /\
    addr_to (w_conn (snd (proxy_goto l w'))) = addr_to (w_conn w)).
  { intros l w' Hc He.
    destruct (proxy_goto_failed OK l w') as (R1 & R2 & R3 & _).
    destruct (proxy_goto_addrs l w') as (A1 & A2).
    rewrite <- Hc, <- He. auto. }
  destruct tail as [|y tail].
  - cbn [length] in Hn.
    destruct (Z.gtb_spec (Z.of_nat (length text) - 1) (len (w_trash w1) - 2));
      [|lia].
    apply (G L_missing); reflexivity.
  - intros Hxy. cbn [length] in Hn.
    destruct (Z.gtb_spec (Z.of_nat (length text) - 1) (len (w_trash w1) - 2));
      [lia|].
    destruct (Z.eqb_spec x 13) as [X|X]; cbn [negb];
      [|apply (G L_bad_header); reflexivity].
    apply holds_cons in Hy. destruct Hy as (Dy & _).
    replace (Z.of_nat (length text) - 1 + 1) with (0 + Z.of_nat (length text))
      by lia.
    rewrite Dy.
    destruct (Z.eqb_spec y 10) as [Y|Y]; cbn [negb];
      [|apply (G L_bad_header); reflexivity].
    destruct Hxy; contradiction.
Qed.

(* ------------------------------------------------------------------ *)
(** ** The TCP6 branch on a line with too few fields *)

(** The scan of a line with too few spaces for the three field pointers:
    it ends after the LF, and [dport_s] is still null. *)
Lemma tcp6_scan_few body : forall fuel buf p end_ d s dp,
  Forall (fun x => x <> 13) body ->
  holds buf p (body ++ [13; 10]) ->
  p + Z.of_nat (length body) + 2 <= end_ ->
  (length body < fuel)%nat ->
  ((d, s, dp) = (None, None, None) /\ (spaces body < 3)%nat) \/
  ((exists a, (d, s, dp) = (Some a, None, None)) /\
   (spaces body < 2)%nat) \/
  ((exists a b, (d, s, dp) = (Some a, Some b, None)) /\
   (spaces body < 1)%nat) ->
  exists buf' d' s',
    tcp6_scan fuel buf p end_ d s dp =
    (buf', inr (p + Z.of_nat (length body) + 2, d', s', None)).
Proof.
  induction body as [|x body IH]; intros fuel buf p end_ d s dp Hb Hh He Hf Hc.
  - cbn [app length] in *. rewrite Z.add_0_r in *.
    apply holds_cons in Hh. destruct Hh as (D1 & _ & P0 & Hh).
    apply holds_cons in Hh. destruct Hh as (D2 & _ & _ & _).
    rewrite tcp6_scan_crlf' by (trivial; lia).
    assert (dp = None) as ->.
    { destruct Hc as [(C & _) | [((a & C) & _) | ((a & b & C) & _)]];
        congruence. }
    eauto.
  - cbn [app] in Hh. apply holds_cons in Hh. destruct Hh as (D & _ & P0 & Hh).
    pose proof (Forall_inv Hb) as X13. apply Forall_inv_tail in Hb.
    cbn beta in X13. cbn [length] in *.
    destruct fuel as [|fuel]; [lia|].
    replace (p + Z.of_nat (S (length body)) + 2)
      with (p + 1 + Z.of_nat (length body) + 2) by lia.
    destruct (Z.eq_dec x 32) as [X|X].
    + rewrite X in D, Hc. clear X x X13.
      rewrite tcp6_scan_space by (trivial; lia).
      unfold spaces in Hc. rewrite count_occ_cons_eq in Hc by reflexivity.
      fold (spaces body) in Hc.
      assert (Hh' : holds (store buf p 0) (p + 1) (body ++ [13; 10])).
      { apply holds_store; [exact Hh | lia]. }
      destruct Hc as [(C & N) | [((a & C) & N) | ((a & b & C) & N)]];
        injection C as -> -> ->; try lia;
        apply IH; trivial; try lia.
      * right. left. split; [eauto | lia].
      * right. right. split; [eauto | lia].
    + unfold spaces in Hc. rewrite count_occ_cons_neq in Hc by congruence.
      fold (spaces body) in Hc.
      cbn [tcp6_scan]. rewrite D.
      destruct (Z.gtb_spec p (end_ - 2)); [lia|].
      destruct (Z.eqb_spec x 13); [contradiction|].
      destruct (Z.eqb_spec x 32); [contradiction|].
      apply IH; trivial; lia.
Qed.

Lemma parse_tcp6_few {L : co_layout} {LC : libc_inet6} c buf end_ body :
  Forall (fun x => x <> 13) body ->
  (spaces body < 3)%nat ->
  holds buf 0 (bytes "PROXY TCP6 " ++ body ++ [13; 10]) ->
  11 + Z.of_nat (length body) + 2 <= end_ ->
  exists buf', parse_tcp6 c buf 6 end_ = P_goto L_bad_header buf'.
Proof.
  intros Hb Hc Hh He. apply holds_app in Hh. destruct Hh as (_ & Hh).
  change (0 + Z.of_nat (length (bytes "PROXY TCP6 "))) with 11 in Hh.
  unfold parse_tcp6. change (6 + 5) with 11.
  destruct (tcp6_scan_few body (S (Z.to_nat (end_ - 11))) buf 11 end_
              None None None Hb Hh He ltac:(lia) ltac:(left; auto))
    as (buf' & d' & s' & ->).
  exists buf'. destruct d' as [?|]; [destruct s' as [?|]|]; reflexivity.
Qed.

(** X10. A TCP6 header with too few fields is a bad header: when the text
    between "PROXY TCP6 " and CR LF holds fewer than three spaces,
    whatever else it holds, [conn_recv_proxy] fails with
    [CO_ER_PRX_BAD_HDR] (the header peeked being 18 bytes or more);
    nothing is read for good and the addresses are left as they were. *)
Theorem conn_recv_proxy_tcp6_few_fields
  {L : co_layout} (OK : layout_ok L) {CL : ctrl_layer} {LC : libc_inet6}
  {E : Type} {K : kernel E} (w : world E) (flag : Z)
  (body rest : list Z) (e : E) :
  Forall (fun x => x <> 13) body ->
  (spaces body < 3)%nat ->
  (5 <= length body)%nat ->
  peeks w (bytes "PROXY TCP6 " ++ body ++ [13; 10] ++ rest) e ->
  let r := conn_recv_proxy w flag in
  let c' := w_conn (snd r) in
  fst r = 0 /\ proxy_failed c' CO_ER_PRX_BAD_HDR /\
  w_ext (snd r) = e /\
  addr_from c' = addr_from (w_conn w) /\ addr_to c' = addr_to (w_conn w).
Proof.
  intros Hb Hc H5 Hp r c'. subst r c'.
  rewrite (conn_recv_proxy_peeks OK w flag _ e Hp).
  set (text := bytes "PROXY TCP6 " ++ body ++ [13; 10]).
  assert (Ed : bytes "PROXY TCP6 " ++ body ++ [13; 10] ++ rest = text ++ rest).
  { unfold text. repeat rewrite <- app_assoc. reflexivity. }
  rewrite Ed in *.
  set (w1 := after_peek w (recv_ok (text ++ rest)) e).
  assert (Hh : holds (str (w_trash w1)) 0 text).
  { pose proof (after_peek_holds w (text ++ rest) e) as H.
    apply holds_app in H. tauto. }
  assert (Hl : Z.of_nat (length text) = 11 + Z.of_nat (length body) + 2).
  { unfold text. repeat rewrite length_app.
    change (length (bytes "PROXY TCP6 ")) with 11%nat. cbn [length]. lia. }
  assert (Hn : Z.of_nat (length text) <= len (w_trash w1)).
  { unfold w1. cbn [after_peek w_trash set_trash len recv_len].
    rewrite length_app. lia. }
  assert (G : exists w', proxy_parse w1 flag = proxy_goto L_bad_header w' /\
                         w_conn w' = w_conn w /\ w_ext w' = e).
  { unfold proxy_parse.
    destruct (proxy_header_prefix w1 (bytes "TCP6 ") (body ++ [13; 10]))
      as (T & ->); [exact Hh | reflexivity | lia |].
    cbv zeta. unfold tcp4_test, tcp6_test.
    rewrite (tag_test_value _ 6 (bytes "TCP6 ") (bytes "TCP4 ") T eq_refl eq_refl).
    rewrite (tag_test_value _ 6 (bytes "TCP6 ") (bytes "TCP6 ") T eq_refl eq_refl).
    replace (c_true (if list_Z_eqb (bytes "TCP6 ") (bytes "TCP4 ") then 1 else 0))
      with false by reflexivity.
    replace (c_true (if list_Z_eqb (bytes "TCP6 ") (bytes "TCP6 ") then 1 else 0))
      with true by reflexivity.
    destruct (parse_tcp6_few (w_conn w1) (str (w_trash w1)) (len (w_trash w1))
                body Hb Hc Hh ltac:(lia)) as (buf' & ->).
    eexists. split; [reflexivity|]. split; reflexivity. }
  destruct G as (w' & -> & Hc' & He).
  destruct (proxy_goto_failed OK L_bad_header w') as (R1 & R2 & R3 & _).
  destruct (proxy_goto_addrs L_bad_header w') as (A1 & A2).
  cbn [label_code] in R2. rewrite <- Hc', <- He. auto.
Qed.

(* ------------------------------------------------------------------ *)
(** ** The TCP6 branch on a line with text after the destination port *)

(** The scan over text met when the three field pointers are set: its
    spaces are overwritten with NUL and nothing else happens. *)
Lemma tcp6_scan_junk junk : forall fuel buf p end_ a b c,
  Forall (fun x => x <> 13) junk -> holds buf p junk ->
  p + Z.of_nat (length junk) <= end_ - 2 -> (length junk <= fuel)%nat ->
  exists buf',
    tcp6_scan fuel buf p end_ (Some a) (Some b) (Some c) =
    tcp6_scan (fuel - length junk) buf' (p + Z.of_nat (length junk)) end_
      (Some a) (Some b) (Some c) /\
    length buf' = length buf /\
    forall i, 0 <= i -> i < p \/ p + Z.of_nat (length junk) <= i ->
      deref buf' i = deref buf i.
Proof.
  induction junk as [|x junk IH]; intros fuel buf p end_ a b c Hj Hh He Hf.
  - exists buf. cbn [length]. rewrite Nat.sub_0_r, Z.add_0_r. auto.
  - apply holds_cons in Hh. destruct Hh as (D & _ & P0 & Hh).
    pose proof (Forall_inv Hj) as X13. apply Forall_inv_tail in Hj.
    cbn beta in X13. cbn [length] in *.
    destruct fuel as [|fuel]; [lia|].
    replace (S fuel - S (length junk))%nat with (fuel - length junk)%nat by lia.
    replace (p + Z.of_nat (S (length junk)))
      with (p + 1 + Z.of_nat (length junk)) by lia.
    destruct (Z.eq_dec x 32) as [X|X].
    + rewrite X in D. rewrite tcp6_scan_space by (trivial; lia).
      destruct (IH fuel (store buf p 0) (p + 1) end_ a b c Hj)
        as (buf' & -> & Hl & Ha); [apply holds_store; [exact Hh|lia] | lia | lia |].
      exists buf'. split; [reflexivity|]. split.
      * now rewrite Hl, length_store.
      * intros i Hi Ho. rewrite Ha by lia. apply deref_store_other; lia.
    + cbn [tcp6_scan]. rewrite D.
      destruct (Z.gtb_spec p (end_ - 2)); [lia|].
      destruct (Z.eqb_spec x 13); [contradiction|].
      destruct (Z.eqb_spec x 32); [contradiction|].
      destruct (IH fuel buf (p + 1) end_ a b c Hj Hh)
        as (buf' & -> & Hl & Ha); [lia | lia |].
      exists buf'. split; [reflexivity|]. split; [exact Hl|].
      intros i Hi Ho. apply Ha; lia.
Qed.

Lemma holds_agree buf buf' p l :
  holds buf p l -> length buf' = length buf ->
  (forall i, p <= i < p + Z.of_nat (length l) -> deref buf' i = deref buf i) ->
  holds buf' p l.
Proof.
  intros (H0 & HL & H) Hl Ha. unfold holds. rewrite Hl.
  repeat split; trivial. intros i Hi. rewrite Ha by lia. now apply H.
Qed.

Lemma parse_tcp6_trailing {L : co_layout} {LC : libc_inet6}
  c buf end_ t1 t2 a b ds1 ds2 junk :
  is_field t1 -> is_field t2 -> Forall is_digit ds1 -> Forall is_digit ds2 ->
  inet_pton6 t1 = Some a -> inet_pton6 t2 = Some b ->
  Forall (fun x => x <> 13) junk ->
  let line := bytes "PROXY TCP6 " ++ t1 ++ [32] ++ t2 ++ [32] ++
              ds1 ++ [32] ++ ds2 ++ [32] ++ junk ++ [13; 10] in
  holds buf 0 line -> Z.of_nat (length line) <= end_ ->
  exists buf',
    parse_tcp6 c buf 6 end_ =
    P_done (with_addrs6 c a b (dec_value ds1 mod 2 ^ 32)
              (dec_value ds2 mod 2 ^ 32))
      buf' (Z.of_nat (length line)).
Proof.
  intros F1 F2 G1 G2 Pa Pb Hj line Hh He. subst line.
  pose proof (digits_field _ G1) as F3. pose proof (digits_field _ G2) as F4.
  pose proof (holds_bound _ _ _ Hh) as Hb.
  repeat rewrite length_app in He, Hb.
  repeat (rewrite holds_app in Hh || rewrite holds_cons in Hh).
  repeat rewrite length_app.
  change (length (bytes "PROXY TCP6 ")) with 11%nat in *.
  cbn [length] in *. rewrite ?Nat2Z.inj_add in *.
  change (Z.of_nat 11) with 11 in *. change (Z.of_nat 1) with 1 in *.
  change (Z.of_nat 2) with 2 in *. rewrite !Z.add_0_l in Hh.
  rewrite Z.add_0_r in Hb.
  set (q1 := 11 + Z.of_nat (length t1)) in *.
  set (q2 := q1 + 1 + Z.of_nat (length t2)) in *.
  set (q3 := q2 + 1 + Z.of_nat (length ds1)) in *.
  set (q4 := q3 + 1 + Z.of_nat (length ds2)) in *.
  set (q5 := q4 + 1 + Z.of_nat (length junk)) in *.
  destruct Hh as (_ & H1 & (D1 & _ & _ & _) & H2 & (D2 & _ & _ & _) & H3 &
                  (D3 & _ & _ & _) & H4 & (D4 & _ & _ & _) & H5 &
                  D5 & _ & _ & D6 & _).
  set (b1 := store buf q1 0). set (b2 := store b1 q2 0).
  set (b3 := store b2 q3 0). set (b4 := store b3 q4 0).
  assert (Q : 11 <= q1 < q2 /\ q2 < q3 /\ q3 < q4 /\ q4 < q5 /\
              q5 + 2 <= Z.of_nat (length buf) /\ q5 + 2 <= end_) by lia.
  assert (L4 : length b4 = length buf).
  { unfold b4, b3, b2, b1. now rewrite !length_store. }
  (* the scan *)
  assert (S : exists b6,
    tcp6_scan (S (Z.to_nat (end_ - 11))) buf 11 end_ None None None =
    (b6, inr (q5 + 2, Some (q1 + 1), Some (q2 + 1), Some (q3 + 1))) /\
    length b6 = length b4 /\
    forall i, 0 <= i <= q4 -> deref b6 i = deref b4 i).
  { rewrite (tcp6_scan_field t1) by (trivial; lia). fold q1.
    rewrite tcp6_scan_space' by (trivial; lia). fold b1.
    rewrite (tcp6_scan_field t2);
      [ | trivial | apply holds_store; [trivial | lia] | lia | lia ].
    fold q2.
    rewrite tcp6_scan_space';
      [ | lia | unfold b1; rewrite deref_store_other by lia; trivial | lia ].
    fold b2.
    rewrite (tcp6_scan_field ds1);
      [ | trivial | repeat (apply holds_store; [ | lia ]); trivial | lia | lia ].
    fold q3.
    rewrite tcp6_scan_space';
      [ | lia | unfold b2, b1; rewrite !deref_store_other by lia; trivial | lia ].
    fold b3.
    rewrite (tcp6_scan_field ds2);
      [ | trivial | repeat (apply holds_store; [ | lia ]); trivial | lia | lia ].
    fold q4.
    rewrite tcp6_scan_space';
      [ | lia | unfold b3, b2, b1; rewrite !deref_store_other by lia; trivial
        | lia ].
    fold b4.
    match goal with |- context [tcp6_scan ?f b4 (q4 + 1)] =>
      destruct (tcp6_scan_junk junk f b4 (q4 + 1) end_
                  (q1 + 1) (q2 + 1) (q3 + 1) Hj)
        as (b5 & -> & L5 & A5)
    end.
    { unfold b4, b3, b2, b1. repeat (apply holds_store; [ | lia ]). exact H5. }
    { fold q5. lia. }
    { lia. }
    fold q5 in A5. fold q5.
    exists (store b5 q5 0).
    rewrite tcp6_scan_crlf';
      [ | lia
      | rewrite A5 by lia; unfold b4, b3, b2, b1;
        rewrite !deref_store_other by lia; trivial
      | rewrite A5 by lia; unfold b4, b3, b2, b1;
        rewrite !deref_store_other by lia; trivial
      | lia | lia ].
    split; [reflexivity|]. split; [now rewrite length_store|].
    intros i Hi. rewrite deref_store_other by lia. apply A5; lia. }
  destruct S as (b6 & S & L6 & A6).
  exists b6. unfold parse_tcp6. change (6 + 5) with 11. rewrite S.
  (* what the buffer holds after the scan *)
  assert (K : forall p l, holds buf p l -> 0 <= p ->
            p + Z.of_nat (length l) <= q4 ->
            q1 < p \/ p + Z.of_nat (length l) <= q1 ->
            q2 < p \/ p + Z.of_nat (length l) <= q2 ->
            q3 < p \/ p + Z.of_nat (length l) <= q3 ->
            holds b6 p l).
  { intros p l Hl P0 B4 B1 B2 B3.
    apply (holds_agree b4); [| exact L6 | intros i Hi; apply A6; lia].
    unfold b4, b3, b2, b1. repeat (apply holds_store; [ | lia ]). exact Hl. }
  assert (Z4 : deref b6 q4 = 0).
  { rewrite A6 by lia. unfold b4. apply deref_store_same.
    unfold b3, b2, b1. rewrite !length_store. lia. }
  assert (Z3 : deref b6 q3 = 0).
  { rewrite A6 by lia. unfold b4. rewrite deref_store_other by lia.
    unfold b3. apply deref_store_same. unfold b2, b1. rewrite !length_store. lia. }
  assert (Z2 : deref b6 q2 = 0).
  { rewrite A6 by lia. unfold b4, b3. rewrite !deref_store_other by lia.
    unfold b2. apply deref_store_same. unfold b1. rewrite !length_store. lia. }
  assert (Z1 : deref b6 q1 = 0).
  { rewrite A6 by lia. unfold b4, b3, b2. rewrite !deref_store_other by lia.
    unfold b1. apply deref_store_same. lia. }
  (* the two ports *)
  replace (q3 + 1 - 1) with q3 by lia.
  rewrite (read_uint_digits b6 (q2 + 1) q3 ds1);
    [ | trivial | apply K; trivial; lia | left; reflexivity ].
  fold q3. rewrite Z3. cbn [Z.eqb negb].
  replace (q5 + 2 - 2) with q5 by lia.
  rewrite (read_uint_digits b6 (q3 + 1) q5 ds2);
    [ | trivial | apply K; trivial; lia
      | right; fold q4; rewrite Z4; unfold is_digit; lia ].
  fold q4. rewrite Z4. cbn [Z.eqb negb].
  (* the two addresses *)
  assert (NZ : forall t, is_field t -> Forall (fun x => x <> 0) t).
  { intros t. apply Forall_impl. tauto. }
  rewrite (cstring_from t1 b6 11);
    [ | apply K; trivial; lia | auto | fold q1; exact Z1 ].
  rewrite Pa.
  rewrite (cstring_from t2 b6 (q1 + 1));
    [ | apply K; trivial; lia | auto | fold q2; exact Z2 ].
  rewrite Pb. unfold with_addrs6. f_equal. lia.
Qed.

(** X11. The TCP6 branch does not check what follows the destination
    port: a TCP6 header that is well formed but for a space and any text
    (without CR) between the destination port and CR LF is accepted.
    [conn_recv_proxy] returns 1, sets the two addresses and ports as for
    the header without that text, and reads the whole line, the text
    included, from the socket. *)
Theorem conn_recv_proxy_tcp6_trailing_text
  {L : co_layout} (OK : layout_ok L) {CL : ctrl_layer} {LC : libc_inet6}
  {E : Type} {K : kernel E} (w : world E) (flag : Z)
  (t1 t2 a b ds1 ds2 junk rest : list Z) (e : E) (d2 : list Z) (e2 : E) :
  is_field t1 -> is_field t2 ->
  Forall is_digit ds1 -> Forall is_digit ds2 -> ds1 <> [] -> ds2 <> [] ->
  inet_pton6 t1 = Some a -> inet_pton6 t2 = Some b ->
  Forall (fun x => x <> 13) junk ->
  let line := bytes "PROXY TCP6 " ++ t1 ++ [32] ++ t2 ++ [32] ++
              ds1 ++ [32] ++ ds2 ++ [32] ++ junk ++ [13; 10] in
  peeks w (line ++ rest) e ->
  sys_recv e (sock_fd (w_conn w)) (Z.of_nat (length line)) 0 = (recv_ok d2, e2) ->
  length d2 = length line ->
  let r := conn_recv_proxy w flag in
  let c2 := with_addrs6 (w_conn w) a b
              (dec_value ds1 mod 2 ^ 32) (dec_value ds2 mod 2 ^ 32) in
  fst r = 1 /\
  w_conn (snd r) = set_flags c2 (Z.land (flags c2) (Z.lnot flag)) /\
  w_ext (snd r) = e2 /\
  len (w_trash (snd r)) = Z.of_nat (length line).
Proof.
  intros F1 F2 G1 G2 N1 N2 Pa Pb Hj line Hp Hr Hl r c2. subst r c2.
  set (w1 := after_peek w (recv_ok (line ++ rest)) e).
  assert (Hh : holds (str (w_trash w1)) 0 line).
  { pose proof (after_peek_holds w (line ++ rest) e) as H.
    apply holds_app in H. tauto. }
  assert (Hn : Z.of_nat (length line) <= len (w_trash w1)).
  { unfold w1. cbn [after_peek w_trash set_trash len recv_len].
    rewrite length_app. lia. }
  assert (H18 : 18 <= len (w_trash w1)).
  { assert (18 <= length line)%nat; [|lia].
    unfold line. repeat rewrite length_app.
    change (length (bytes "PROXY TCP6 ")) with 11%nat. cbn [length].
    destruct ds1; [congruence|]. destruct ds2; [congruence|].
    cbn [length]. lia. }
  assert (Hv : exists buf',
    proxy_header w1 =
    inr (set_trash
           (set_conn w1 (with_addrs6 (w_conn w1) a b
                           (dec_value ds1 mod 2 ^ 32)
                           (dec_value ds2 mod 2 ^ 32)))
           {| str := buf'; len := len (w_trash w1);
              size := size (w_trash w1) |},
         Z.of_nat (length line))).
  { destruct (proxy_header_prefix w1 (bytes "TCP6 ")
                (t1 ++ [32] ++ t2 ++ [32] ++ ds1 ++ [32] ++ ds2 ++ [32] ++
                 junk ++ [13; 10])) as (T & ->);
      [exact Hh | reflexivity | lia |].
    cbv zeta. unfold tcp4_test, tcp6_test.
    rewrite (tag_test_value _ 6 (bytes "TCP6 ") (bytes "TCP4 ") T eq_refl eq_refl).
    rewrite (tag_test_value _ 6 (bytes "TCP6 ") (bytes "TCP6 ") T eq_refl eq_refl).
    replace (c_true (if list_Z_eqb (bytes "TCP6 ") (bytes "TCP4 ") then 1 else 0))
      with false by reflexivity.
    replace (c_true (if list_Z_eqb (bytes "TCP6 ") (bytes "TCP6 ") then 1 else 0))
      with true by reflexivity.
    destruct (parse_tcp6_trailing (w_conn w1) (str (w_trash w1))
                (len (w_trash w1)) t1 t2 a b ds1 ds2 junk
                F1 F2 G1 G2 Pa Pb Hj Hh Hn) as (buf' & ->).
    exists buf'. reflexivity. }
  destruct Hv as (buf' & Hv).
  apply (conn_recv_proxy_done OK w flag _ e _ _ d2 e2 Hp Hv Hr).
  now rewrite Hl.
Qed.

(* ------------------------------------------------------------------ *)
(** ** The TCP6 branch on a line that is cut *)

(** The scan runs into the limit when no CR is met up to two bytes before
    it. *)
Lemma tcp6_scan_missing seen : forall fuel buf p end_ d s dp,
  Forall (fun x => x <> 13) seen -> holds buf p seen ->
  p + Z.of_nat (length seen) = end_ - 1 ->
  exists buf', tcp6_scan fuel buf p end_ d s dp = (buf', inl L_missing).
Proof.
  induction seen as [|x seen IH]; intros fuel buf p end_ d s dp Hs Hh He.
  - cbn [length] in He. destruct fuel as [|fuel]; cbn [tcp6_scan]; [eauto|].
    destruct (Z.gtb_spec p (end_ - 2)); [eauto|lia].
  - apply holds_cons in Hh. destruct Hh as (D & _ & P0 & Hh).
    pose proof (Forall_inv Hs) as X13. apply Forall_inv_tail in Hs.
    cbn beta in X13. cbn [length] in He.
    destruct fuel as [|fuel]; cbn [tcp6_scan]; [eauto|]. rewrite D.
    destruct (Z.gtb_spec p (end_ - 2)); [eauto|].
    destruct (Z.eqb_spec x 13); [contradiction|].
    destruct (Z.eqb_spec x 32).
    + assert (Hh' : holds (store buf p 0) (p + 1) seen)
        by (apply holds_store; [exact Hh | lia]).
      destruct d as [?|]; [destruct s as [?|]; [destruct dp as [?|]|]|];
        apply IH; trivial; lia.
    + apply IH; trivial; lia.
Qed.

Lemma holds_firstn_le buf p n m (l : list Z) :
  holds buf p (firstn n l) -> (m <= n)%nat -> holds buf p (firstn m l).
Proof.
  intros H Hm. replace m with (Nat.min m n) by lia.
  rewrite <- firstn_firstn.
  rewrite <- (firstn_skipn m (firstn n l)) in H.
  apply holds_app in H. tauto.
Qed.

Lemma parse_tcp6_cut {L : co_layout} {LC : libc_inet6} c buf k body :
  Forall (fun x => x <> 13) body ->
  holds buf 0 (firstn k (bytes "PROXY TCP6 " ++ body ++ [13; 10])) ->
  (12 <= k < 11 + length body + 2)%nat ->
  exists buf', parse_tcp6 c buf 6 (Z.of_nat k) = P_goto L_missing buf'.
Proof.
  intros Hb Hh Hk.
  apply holds_firstn_full in Hh;
    [|change (length (bytes "PROXY TCP6 ")) with 11%nat; lia].
  destruct Hh as (_ & Hh).
  change (length (bytes "PROXY TCP6 ")) with 11%nat in Hh.
  change (0 + Z.of_nat 11) with 11 in Hh.
  apply (holds_firstn_le _ _ _ (k - 12)) in Hh; [|lia].
  apply holds_firstn_cut in Hh; [|lia].
  unfold parse_tcp6. change (6 + 5) with 11.
  destruct (tcp6_scan_missing (firstn (k - 12) body)
              (S (Z.to_nat (Z.of_nat k - 11))) buf 11 (Z.of_nat k)
              None None None) as (buf' & ->).
  - now apply Forall_firstn_Z.
  - exact Hh.
  - rewrite length_firstn. lia.
  - eauto.
Qed.

(** X12. A TCP6 header that does not come in one piece is lost as well:
    when the peek returns a first part only of the line "PROXY TCP6 ",
    text without CR, CR LF, wherever the cut falls and whatever the text
    is, [conn_recv_proxy] fails with [CO_ER_PRX_TRUNCATED]; it never waits
    for the rest, and leaves the addresses as they were. *)
Theorem conn_recv_proxy_tcp6_cut
  {L : co_layout} (OK : layout_ok L) {CL : ctrl_layer} {LC : libc_inet6}
  {E : Type} {K : kernel E} (w : world E) (flag : Z)
  (body data rest : list Z) (e : E) :
  Forall (fun x => x <> 13) body ->
  bytes "PROXY TCP6 " ++ body ++ [13; 10] = data ++ rest ->
  data <> [] -> rest <> [] ->
  peeks w data e ->
  let r := conn_recv_proxy w flag in
  let c' := w_conn (snd r) in
  fst r = 0 /\ proxy_failed c' CO_ER_PRX_TRUNCATED /\
  w_ext (snd r) = e /\
  addr_from c' = addr_from (w_conn w) /\ addr_to c' = addr_to (w_conn w).
Proof.
  intros Hb Hl Nd Nr Hp r c'. subst r c'.
  rewrite (conn_recv_proxy_peeks OK w flag data e Hp).
  set (w1 := after_peek w (recv_ok data) e).
  set (line := bytes "PROXY TCP6 " ++ body ++ [13; 10]) in *.
  set (k := length data).
  assert (Ek : data = firstn k line).
  { rewrite Hl, firstn_app. unfold k.
    now rewrite Nat.sub_diag, firstn_all, app_nil_r. }
  assert (Ll : length line = (11 + length body + 2)%nat).
  { unfold line. repeat rewrite length_app.
    change (length (bytes "PROXY TCP6 ")) with 11%nat. cbn [length]. lia. }
  assert (Hk : (0 < k < length line)%nat).
  { rewrite Hl, length_app. unfold k.
    destruct data; [congruence|]. destruct rest; [congruence|].
    cbn [length]. lia. }
  assert (Hh : holds (str (w_trash w1)) 0 (firstn k line)).
  { rewrite <- Ek. apply after_peek_holds. }
  assert (Hn : len (w_trash w1) = Z.of_nat k) by reflexivity.
  assert (G : exists w', proxy_parse w1 flag = proxy_goto L_missing w' /\
                         w_conn w' = w_conn w /\ w_ext w' = e).
  { unfold proxy_parse.
    destruct (Z.lt_ge_cases (Z.of_nat k) 6) as [C6|C6].
    { exists w1. split; [|split; reflexivity]. unfold proxy_header. rewrite Hn.
      destruct (Z.eqb_spec (Z.of_nat k) 0); [lia|].
      destruct (Z.ltb_spec (Z.of_nat k) 6); [reflexivity|lia]. }
    destruct (Z.lt_ge_cases (Z.of_nat k) 18) as [C18|C18].
    { exists w1. split; [|split; reflexivity]. unfold proxy_header. rewrite Hn.
      destruct (Z.eqb_spec (Z.of_nat k) 0); [lia|].
      destruct (Z.ltb_spec (Z.of_nat k) 6); [lia|].
      assert (H6 : holds (str (w_trash w1)) 0 (bytes "PROXY ")).
      { unfold line in Hh.
        change (bytes "PROXY TCP6 ") with (bytes "PROXY " ++ bytes "TCP6 ") in Hh.
        rewrite <- !app_assoc in Hh.
        apply holds_firstn_full in Hh;
          [tauto | change (length (bytes "PROXY ")) with 6%nat; lia]. }
      assert (S0 : strncmp (from (str (w_trash w1)) 0) (bytes "PROXY ") 6 = 0).
      { apply (strncmp_from (bytes "PROXY ")); try reflexivity; trivial.
        cbn. repeat constructor; lia. }
      rewrite S0. cbn [c_ne c_true Z.eqb negb].
      destruct (Z.ltb_spec (Z.of_nat k) 18); [reflexivity|lia]. }
    assert (H11 : holds (str (w_trash w1)) 0
                    (bytes "PROXY " ++ bytes "TCP6 " ++ [])).
    { pose proof Hh as Hh'. unfold line in Hh'.
      apply holds_firstn_full in Hh';
        [|change (length (bytes "PROXY TCP6 ")) with 11%nat; lia].
      destruct Hh' as (Hh' & _). exact Hh'. }
    destruct (proxy_header_prefix w1 (bytes "TCP6 ") [] H11 eq_refl
                ltac:(rewrite Hn; lia)) as (T & ->).
    cbv zeta. unfold tcp4_test, tcp6_test.
    rewrite (tag_test_value _ 6 (bytes "TCP6 ") (bytes "TCP4 ") T eq_refl eq_refl).
    rewrite (tag_test_value _ 6 (bytes "TCP6 ") (bytes "TCP6 ") T eq_refl eq_refl).
    replace (c_true (if list_Z_eqb (bytes "TCP6 ") (bytes "TCP4 ") then 1 else 0))
      with false by reflexivity.
    replace (c_true (if list_Z_eqb (bytes "TCP6 ") (bytes "TCP6 ") then 1 else 0))
      with true by reflexivity.
    rewrite Hn.
    destruct (parse_tcp6_cut (w_conn w1) (str (w_trash w1)) k body Hb Hh
                ltac:(lia)) as (buf' & ->).
    eexists. split; [reflexivity|]. split; reflexivity. }
  destruct G as (w' & -> & Hc & He).
  destruct (proxy_goto_failed OK L_missing w') as (R1 & R2 & R3 & _).
  destruct (proxy_goto_addrs L_missing w') as (A1 & A2).
  cbn [label_code] in R2. rewrite <- Hc, <- He. auto.
Qed.

(* ------------------------------------------------------------------ *)
(** ** [make_proxy_line]: every buffer size and every pair of addresses *)

(** X13. Without two addresses of one known family, [make_proxy_line]
    writes the UNKNOWN line: when [src] or [dst] is null, when their
    families differ, or when the family is neither [AF_INET] nor
    [AF_INET6], it writes "PROXY UNKNOWN" CR LF and returns 15 if
    [buf_len] is more than 15, and else returns 0.  In that case what fits
    in [buf_len - 1] bytes was written if [buf_len] is not negative; a
    negative [buf_len] reaches [snprintf] as a huge [size_t], and the
    whole text was written. *)
Theorem make_proxy_line_unknown_family
  {LC : libc_inet6} (N : Z) (src dst : option sockaddr_storage) :
  match src, dst with
  | Some s, Some d =>
      ss_family s <> ss_family d \/
      (ss_family s <> AF_INET /\ ss_family s <> AF_INET6)
  | _, _ => True
  end ->
  make_proxy_line N src dst =
  if 15 <? N then (15, bytes "PROXY UNKNOWN" ++ [13; 10])
  else (0, if N <? 0 then bytes "PROXY UNKNOWN" ++ [13; 10]
           else firstn (Z.to_nat (N - 1)) (bytes "PROXY UNKNOWN" ++ [13; 10])).
Proof.
  intros H.
  assert (U : (let '(ret, buf) :=
                 snprintf N (bytes "PROXY UNKNOWN" ++ [13; 10]) in
               if ret >=? N then (0, buf) else (ret, buf)) =
              if 15 <? N then (15, bytes "PROXY UNKNOWN" ++ [13; 10])
              else (0, if N <? 0 then bytes "PROXY UNKNOWN" ++ [13; 10]
                       else firstn (Z.to_nat (N - 1))
                              (bytes "PROXY UNKNOWN" ++ [13; 10]))).
  { unfold snprintf.
    change (Z.of_nat (length (bytes "PROXY UNKNOWN" ++ [13; 10]))) with 15.
    destruct (Z.geb_spec 15 N); destruct (Z.ltb_spec 15 N); try lia;
      [reflexivity|].
    destruct (Z.ltb_spec N 0); [lia|].
    rewrite firstn_fits; [reflexivity|].
    change (Z.of_nat (length (bytes "PROXY UNKNOWN" ++ [13; 10]))) with 15.
    lia. }
  unfold make_proxy_line.
  destruct src as [s|]; [|exact U]. destruct dst as [d|]; [|exact U].
  destruct (Z.eqb_spec (ss_family s) (ss_family d)) as [Ef|Ef];
    [|exact U].
  destruct H as [H|(H4 & H6)]; [contradiction|].
  destruct (Z.eqb_spec (ss_family s) AF_INET); [contradiction|].
  destruct (Z.eqb_spec (ss_family s) AF_INET6); [contradiction|].
  exact U.
Qed.

(** The part of [make_proxy_line] that the two families share: the tag,
    the two address texts and the two ports. *)
Lemma make_proxy_line_shape (N : Z) (tag ta tb : list Z) (ps pd : Z) :
  0 <= N ->
  let r :=
    let '(ret, buf) := snprintf N tag in
    if ret >=? N then (0, buf) else
    match inet_ntop ta (N - ret) with
    | None => (0, buf)
    | Some t =>
        let buf := buf ++ t in
        let ret := ret + Z.of_nat (length t) in
        if ret >=? N then (0, buf) else
        let buf := buf ++ [32] in
        let ret := ret + 1 in
        match inet_ntop tb (N - ret) with
        | None => (0, buf)
        | Some t =>
            let buf := buf ++ t in
            let ret := ret + Z.of_nat (length t) in
            if ret >=? N then (0, buf) else
            let '(n, out) :=
              snprintf (N - ret)
                ([32] ++ utoa ps ++ [32] ++ utoa pd ++ [13; 10]) in
            let buf := buf ++ out in
            let ret := ret + n in
            if ret >=? N then (0, buf) else (ret, buf)
        end
    end in
  Z.of_nat (length (snd r)) <= N /\
  (fst r = 0 \/ (0 < fst r < N /\ fst r = Z.of_nat (length (snd r)))).
Proof.
  intros H0. cbv zeta. unfold snprintf, inet_ntop.
  repeat match goal with
  | |- context [if ?b then _ else _] =>
      let C := fresh "C" in
      destruct b eqn:C;
        [ try (rewrite Z.geb_leb in C; apply Z.leb_le in C);
          try (apply Z.ltb_lt in C)
        | try (rewrite Z.geb_leb in C; apply Z.leb_gt in C);
          try (apply Z.ltb_ge in C) ]
  end; cbn [fst snd];
    repeat first [rewrite length_app in * | rewrite length_firstn in *];
    cbn [length] in *;
    (split; [lia | first [left; reflexivity | right; lia]]).
Qed.

(** X14. With a [buf_len] that is not negative, [make_proxy_line] stays
    within its buffer and never returns the length of a line that was
    cut: whatever the addresses are, it writes [buf_len] bytes at most,
    and it returns either 0 or the exact number of bytes written, which is
    then less than [buf_len] (so the final NUL fits too).  A negative
    [buf_len] is left out: it reaches [snprintf] as a huge [size_t]. *)
Theorem make_proxy_line_bounds
  {LC : libc_inet6} (N : Z) (src dst : option sockaddr_storage) :
  0 <= N ->
  let r := make_proxy_line N src dst in
  Z.of_nat (length (snd r)) <= N /\
  (fst r = 0 \/ (0 < fst r < N /\ fst r = Z.of_nat (length (snd r)))).
Proof.
  intros H0. cbv zeta.
  assert (U : forall r,
    r = (let '(ret, buf) := snprintf N (bytes "PROXY UNKNOWN" ++ [13; 10]) in
         if ret >=? N then (0, buf) else (ret, buf)) ->
    Z.of_nat (length (snd r)) <= N /\
    (fst r = 0 \/ (0 < fst r < N /\ fst r = Z.of_nat (length (snd r))))).
  { intros r ->. unfold snprintf.
    change (Z.of_nat (length (bytes "PROXY UNKNOWN" ++ [13; 10]))) with 15.
    destruct (Z.ltb_spec N 0); [lia|].
    destruct (Z.geb_spec 15 N); cbn [fst snd]; rewrite length_firstn;
      change (length (bytes "PROXY UNKNOWN" ++ [13; 10])) with 15%nat;
      (split; [lia | first [left; reflexivity | right; lia]]). }
  unfold make_proxy_line.
  destruct src as [s|]; [|now apply U]. destruct dst as [d|]; [|now apply U].
  destruct ((ss_family s =? ss_family d) && (ss_family s =? AF_INET)).
  - apply (make_proxy_line_shape N (bytes "PROXY TCP4 ")
             (inet_ntop4 (sin_addr s)) (inet_ntop4 (sin_addr d))
             (ntohs (sin_port s)) (ntohs (sin_port d)) H0).
  - destruct ((ss_family s =? ss_family d) && (ss_family s =? AF_INET6));
      [|now apply U].
    apply (make_proxy_line_shape N (bytes "PROXY TCP6 ")
             (inet_ntop6 (sin6_addr s)) (inet_ntop6 (sin6_addr d))
             (ntohs (sin_port s)) (ntohs (sin_port d)) H0).
Qed.

Lemma tcp4_line_length_pos src dst sport dport :
  (11 <= length (tcp4_line src dst sport dport))%nat.
Proof.
  unfold tcp4_line. repeat rewrite length_app.
  change (length (bytes "PROXY TCP4 ")) with 11%nat. lia.
Qed.

(** X15. [make_proxy_line] succeeds exactly when the line and its final
    NUL fit: for two [AF_INET] addresses, and for two [AF_INET6]
    addresses, the value returned is not 0 if and only if the TCP4 (TCP6)
    line of the two addresses and ports is shorter than [buf_len]; it is
    then the length of that line, and the buffer holds that line. *)
Theorem make_proxy_line_fits_iff
  {LC : libc_inet6} (N : Z) (src dst : sockaddr_storage) :
  let r := make_proxy_line N (Some src) (Some dst) in
  let sport := utoa (ntohs (sin_port src)) in
  let dport := utoa (ntohs (sin_port dst)) in
  (ss_family src = AF_INET -> ss_family dst = AF_INET ->
   let line := tcp4_line (sin_addr src) (sin_addr dst) sport dport in
   (fst r <> 0 <-> Z.of_nat (length line) < N) /\
   (fst r <> 0 -> r = (Z.of_nat (length line), line)))
  /\
  (ss_family src = AF_INET6 -> ss_family dst = AF_INET6 ->
   let line := tcp6_line (sin6_addr src) (sin6_addr dst) sport dport in
   (fst r <> 0 <-> Z.of_nat (length line) < N) /\
   (fst r <> 0 -> r = (Z.of_nat (length line), line))).
Proof.
  cbv zeta. split; intros Fs Fd.
  - pose proof (make_proxy_line_tcp4 N src dst Fs Fd) as Fit.
    pose proof (make_proxy_line_tcp4_room N src dst Fs Fd) as Room.
    cbv zeta in Fit. split; [split|].
    + exact Room.
    + intros H. rewrite (Fit H). cbn [fst].
      pose proof (tcp4_line_length_pos (sin_addr src) (sin_addr dst)
                    (utoa (ntohs (sin_port src)))
                    (utoa (ntohs (sin_port dst)))). lia.
    + intros H. apply Fit. now apply Room.
  - pose proof (make_proxy_line_tcp6 N src dst Fs Fd) as Fit.
    pose proof (make_proxy_line_tcp6_room N src dst Fs Fd) as Room.
    cbv zeta in Fit. split; [split|].
    + exact Room.
    + intros H. rewrite (Fit H). cbn [fst].
      unfold tcp6_line. repeat rewrite length_app.
      change (length (bytes "PROXY TCP6 ")) with 11%nat. lia.
    + intros H. apply Fit. now apply Room.
Qed.

Lemma utoa_aux_length_le fuel : forall k n acc,
  (1 <= k <= fuel)%nat -> 0 <= n < 10 ^ Z.of_nat k ->
  (length (utoa_aux fuel n acc) <= k + length acc)%nat.
Proof.
  induction fuel as [|fuel IH]; intros k n acc Hk Hn; [lia|].
  cbn [utoa_aux]. destruct (Z.ltb_spec n 10) as [C|C]; [cbn [length]; lia|].
  destruct k as [|k]; [lia|]. destruct k as [|k].
  { change (10 ^ Z.of_nat 1) with 10 in Hn. lia. }
  assert (Hq : 0 <= n / 10 < 10 ^ Z.of_nat (S k)).
  { rewrite (Nat2Z.inj_succ (S k)), Z.pow_succ_r in Hn by lia.
    split; [apply Z.div_pos; lia | apply Z.div_lt_upper_bound; lia]. }
  specialize (IH (S k) (n / 10) ((48 + n mod 10) :: acc) ltac:(lia) Hq).
  cbn [length] in IH. lia.
Qed.

Lemma utoa_length_byte a : 0 <= a < 256 -> (1 <= length (utoa a) <= 3)%nat.
Proof.
  intros H. split; [apply utoa_nonempty|].
  pose proof (utoa_aux_length_le 10 3 a [] ltac:(lia)) as B.
  change (10 ^ Z.of_nat 3) with 1000 in B. cbn [length] in B.
  unfold utoa. lia.
Qed.

Lemma utoa_length_port p : 0 <= p < 2 ^ 16 -> (1 <= length (utoa p) <= 5)%nat.
Proof.
  intros H. change (2 ^ 16) with 65536 in H. split; [apply utoa_nonempty|].
  pose proof (utoa_aux_length_le 10 5 p [] ltac:(lia)) as B.
  change (10 ^ Z.of_nat 5) with 100000 in B. cbn [length] in B.
  unfold utoa. lia.
Qed.

Lemma inet_ntop4_length_le a : is_bytes 4 a -> (length (inet_ntop4 a) <= 15)%nat.
Proof.
  intros H. destruct (is_bytes_4 a H) as (a1 & a2 & a3 & a4 & -> & A1 & A2 & A3 & A4).
  unfold inet_ntop4. repeat rewrite length_app. cbn [length].
  pose proof (utoa_length_byte a1 A1). pose proof (utoa_length_byte a2 A2).
  pose proof (utoa_length_byte a3 A3). pose proof (utoa_length_byte a4 A4). lia.
Qed.

(** X16. A buffer of 57 bytes is always enough for two [AF_INET]
    addresses: the TCP4 line that [make_proxy_line] writes is between 32
    and 56 bytes long, so with [buf_len] at 57 or more it never fails. *)
Theorem make_proxy_line_tcp4_fits_57
  {LC : libc_inet6} (src dst : sockaddr_storage) :
  ss_family src = AF_INET -> ss_family dst = AF_INET ->
  is_bytes 4 (sin_addr src) -> is_bytes 4 (sin_addr dst) ->
  is_bytes 2 (sin_port src) -> is_bytes 2 (sin_port dst) ->
  let line := tcp4_line (sin_addr src) (sin_addr dst)
                (utoa (ntohs (sin_port src))) (utoa (ntohs (sin_port dst))) in
  (32 <= length line <= 56)%nat /\
  forall N, 57 <= N ->
    make_proxy_line N (Some src) (Some dst) = (Z.of_nat (length line), line).
Proof.
  intros Fs Fd As Ad Ps Pd line.
  assert (B : (32 <= length line <= 56)%nat).
  { unfold line, tcp4_line. repeat rewrite length_app.
    change (length (bytes "PROXY TCP4 ")) with 11%nat. cbn [length].
    pose proof (inet_ntop4_length _ As). pose proof (inet_ntop4_length _ Ad).
    pose proof (inet_ntop4_length_le _ As).
    pose proof (inet_ntop4_length_le _ Ad).
    destruct (is_bytes_2 _ Ps) as (h1 & l1 & -> & R1 & R2).
    destruct (is_bytes_2 _ Pd) as (h2 & l2 & -> & R3 & R4).
    pose proof (utoa_length_port _ (ntohs_range h1 l1 R1 R2)).
    pose proof (utoa_length_port _ (ntohs_range h2 l2 R3 R4)). lia. }
  split; [exact B|]. intros N HN.
  apply (make_proxy_line_tcp4 N src dst Fs Fd). fold line. lia.
Qed.

(* ------------------------------------------------------------------ *)
(** ** The driver: what is skipped *)

Section DriverSkips.
Context {L : co_layout} (OK : layout_ok L) {CL : ctrl_layer} {LC : libc_inet6}.
Context {E : Type} {K : kernel E} {CB : callbacks E}.

(** The C test [if (f & m)] passes when a flag of the mask is set. *)
Lemma c_true_land_flag f m x :
  flag_on f x = true -> flag_on m x = true -> c_true (Z.land f m) = true.
Proof.
  intros Hf Hm. unfold c_true. apply negb_true_iff. apply Z.eqb_neq.
  intros H. apply (f_equal (fun z => flag_on z x)) in H.
  rewrite flag_on_land, flag_on_0, Hf, Hm in H. discriminate.
Qed.

Lemma handshake_mask_flag x :
  x = F_ERROR \/ x = F_ACCEPT_PROXY \/ x = F_SEND_PROXY \/ x = F_SSL_WAIT_HS ->
  flag_on (Z.lor CO_FL_HANDSHAKE CO_FL_ERROR) x = true.
Proof.
  intros [-> | [-> | [-> | ->]]]; unfold_flags; flag_simpl OK; reflexivity.
Qed.

(** The test of lines 61 and 116 fails when neither [ERROR] nor a
    handshake flag is set. *)
Lemma handshake_mask_clear f :
  flag_on f F_ERROR = false -> flag_on f F_ACCEPT_PROXY = false ->
  flag_on f F_SEND_PROXY = false -> flag_on f F_SSL_WAIT_HS = false ->
  c_true (Z.land f (Z.lor CO_FL_HANDSHAKE CO_FL_ERROR)) = false.
Proof.
  intros H1 H2 H3 H4. unfold c_true. apply negb_false_iff. apply Z.eqb_eq.
  apply Z.bits_inj'. intros n Hn. rewrite Z.bits_0, Z.land_spec.
  unfold_flags. rewrite !Z.lor_spec, !(testbit_CO_FL OK).
  unfold flag_on in *.
  destruct (Z.eqb_spec (co_bit F_SEND_PROXY) n) as [<-|];
    [rewrite H3; reflexivity|].
  destruct (Z.eqb_spec (co_bit F_SSL_WAIT_HS) n) as [<-|];
    [rewrite H4; reflexivity|].
  destruct (Z.eqb_spec (co_bit F_ACCEPT_PROXY) n) as [<-|];
    [rewrite H2; reflexivity|].
  destruct (Z.eqb_spec (co_bit F_ERROR) n) as [<-|];
    [rewrite H1; reflexivity|].
  apply andb_false_r.
Qed.

End DriverSkips.

(** X17. An error reported before the entry stops everything but the wake
    up: when [ERROR] is set in the flags once the polling flags are
    refreshed, [conn_fd_handler] goes straight to [leave]; no handshake
    handler runs, the sock layer's polling is not stopped, and the data
    layer is neither initialised nor asked to receive or send.  And for a
    descriptor without owner nothing at all is done. *)
Theorem conn_fd_handler_error_on_entry
  {L : co_layout} (OK : layout_ok L) {CL : ctrl_layer} {LC : libc_inet6}
  {E : Type} {K : kernel E} {CB : callbacks E} (fuel : nat) (w : world E) :
  (w_owner w = false -> conn_fd_handler fuel w = Some (w, [])) /\
  (w_owner w = true ->
   let w0 := conn_refresh_polling_flags w in
   flag_on (flags (w_conn w0)) F_ERROR = true ->
   conn_fd_handler_enter (S (S fuel)) w =
   At_leave w0 (Z.land (flags (w_conn w0)) (Z.lnot CO_FL_ERROR)) []).
Proof.
  split.
  - intros H. unfold conn_fd_handler, conn_fd_handler_enter. now rewrite H.
  - intros H w0 He. unfold conn_fd_handler_enter. rewrite H. cbn [negb].
    fold w0. cbn [process_handshake handshake_loop].
    rewrite (c_true_land_flag (flags (w_conn w0)) _ F_ERROR He
               (handshake_mask_flag OK F_ERROR ltac:(auto))).
    unfold CO_FL_ERROR at 1. rewrite (c_true_flag OK), He. reflexivity.
Qed.

(** X18. A handshake that does not complete ends the entry: when no
    [ERROR] is set and the first handshake that is pending, in the order
    [ACCEPT_PROXY], [SEND_PROXY], [SSL_WAIT_HS], returns 0 (it waits or it
    failed), [conn_fd_handler] goes to [leave] with the world as that
    handler left it; the handlers after it do not run and the data layer
    is neither initialised nor asked to receive or send. *)
Theorem conn_fd_handler_handshake_pending
  {L : co_layout} (OK : layout_ok L) {CL : ctrl_layer} {LC : libc_inet6}
  {E : Type} {K : kernel E} {CB : callbacks E}
  (fuel : nat) (w w1 : world E) :
  w_owner w = true ->
  let w0 := conn_refresh_polling_flags w in
  let f := flags (w_conn w0) in
  flag_on f F_ERROR = false ->
  (flag_on f F_ACCEPT_PROXY = true /\
   conn_recv_proxy w0 CO_FL_ACCEPT_PROXY = (0, w1)) \/
  (flag_on f F_ACCEPT_PROXY = false /\ flag_on f F_SEND_PROXY = true /\
   conn_si_send_proxy w0 CO_FL_SEND_PROXY = (0, w1)) \/
  (flag_on f F_ACCEPT_PROXY = false /\ flag_on f F_SEND_PROXY = false /\
   USE_OPENSSL = true /\ flag_on f F_SSL_WAIT_HS = true /\
   ssl_sock_handshake w0 CO_FL_SSL_WAIT_HS = (0, w1)) ->
  conn_fd_handler_enter (S (S fuel)) w =
  At_leave w1 (Z.land f (Z.lnot CO_FL_ERROR)) [].
Proof.
  intros H w0 f He Hh. unfold conn_fd_handler_enter. rewrite H. cbn [negb].
  fold w0. fold f. cbn [process_handshake handshake_loop]. fold f.
  assert (M : c_true (Z.land f (Z.lor CO_FL_HANDSHAKE CO_FL_ERROR)) = true).
  { destruct Hh as [(Ha & _) | [(_ & Hs & _) | (_ & _ & _ & Hs & _)]].
    - apply (c_true_land_flag f _ F_ACCEPT_PROXY Ha).
      apply (handshake_mask_flag OK). auto.
    - apply (c_true_land_flag f _ F_SEND_PROXY Hs).
      apply (handshake_mask_flag OK). auto.
    - apply (c_true_land_flag f _ F_SSL_WAIT_HS Hs).
      apply (handshake_mask_flag OK). auto. }
  rewrite M. unfold CO_FL_ERROR at 1. rewrite (c_true_flag OK), He.
  unfold CO_FL_ACCEPT_PROXY at 1. rewrite (c_true_flag OK).
  destruct Hh as [(Ha & R) | [(Ha & Hs & R) | (Ha & Hs & U & Hl & R)]].
  - rewrite Ha, R. reflexivity.
  - rewrite Ha. cbn [Z.eqb]. fold f.
    unfold CO_FL_SEND_PROXY at 1. rewrite (c_true_flag OK), Hs, R. reflexivity.
  - rewrite Ha. cbn [Z.eqb]. fold f.
    unfold CO_FL_SEND_PROXY at 1. rewrite (c_true_flag OK), Hs. cbn [Z.eqb].
    fold f. rewrite U. unfold CO_FL_SSL_WAIT_HS at 1.
    rewrite (c_true_flag OK), Hl. cbn [andb]. rewrite R. reflexivity.
Qed.

(* ------------------------------------------------------------------ *)
(** ** The driver: the calls of one entry *)

Section DriverCalls.
Context {L : co_layout} (OK : layout_ok L) {CL : ctrl_layer} {LC : libc_inet6}.
Context {E : Type} {K : kernel E} {CB : callbacks E}.

(** What the part of an entry before [leave] keeps, for a property [I] of
    the local variable [flags] and of the events that holds on entry, is
    kept by the call of [data->init] and is kept, or established, by the
    calls of [data->recv] and [data->send]. *)
Lemma process_handshake_keeps (I : Z -> list event -> Prop) :
  (forall fl tr f, I fl tr -> I fl (tr ++ [Ev_data_init f])) ->
  (forall fl tr f,
     I fl tr -> I (Z.lor CO_FL_WAIT_L4_CONN CO_FL_CONNECTED)
                  (tr ++ [Ev_data_recv f])) ->
  (forall fl tr f,
     I fl tr -> I (Z.lor CO_FL_WAIT_L4_CONN CO_FL_CONNECTED)
                  (tr ++ [Ev_data_send f])) ->
  forall fuel (w : world E) fl tr,
  I fl tr ->
  match process_handshake fuel w fl tr with
  | At_leave _ fl' tr' => I fl' tr'
  | Returned _ tr' => exists fl', I fl' tr'
  | Running tr' => exists fl', I fl' tr'
  end.
Proof.
  intros Hi Hr Hs. induction fuel as [|fuel IH]; intros w fl tr H;
    cbn [process_handshake]; [eauto|].
  destruct (handshake_loop fuel w) as [[[|] w1]|]; [exact H | | eauto].
  set (w2 := if negb (c_true (Z.land (flags (w_conn w1)) CO_FL_POLL_SOCK))
             then set_conn w1 (__conn_sock_stop_both (w_conn w1)) else w1).
  assert (Step : forall (w3 : world E) tr3, I fl tr3 ->
    match
      (let '(w, flags_, tr) := data_recv_step w3 fl tr3 in
       let '(w, flags_, tr) := data_send_step w flags_ tr in
       if c_true (Z.land (flags (w_conn w)) (Z.lor CO_FL_HANDSHAKE CO_FL_ERROR))
       then process_handshake fuel w flags_ tr
       else if c_true (Z.land (flags (w_conn w)) CO_FL_WAIT_L4_CONN)
       then At_leave (snd (tcp_connect_probe w)) flags_ tr
       else At_leave w flags_ tr)
    with
    | At_leave _ fl' tr' => I fl' tr'
    | Returned _ tr' => exists fl', I fl' tr'
    | Running tr' => exists fl', I fl' tr'
    end).
  { intros w3 tr3 H3.
    assert (H4 : I (snd (fst (data_recv_step w3 fl tr3)))
                   (snd (data_recv_step w3 fl tr3))).
    { unfold data_recv_step.
      match goal with |- context [if ?b then _ else _] => destruct b end;
        cbn [fst snd]; [apply (Hr fl); exact H3 | exact H3]. }
    destruct (data_recv_step w3 fl tr3) as [[w4 fl4] tr4]. cbn [fst snd] in H4.
    assert (H5 : I (snd (fst (data_send_step w4 fl4 tr4)))
                   (snd (data_send_step w4 fl4 tr4))).
    { unfold data_send_step.
      match goal with |- context [if ?b then _ else _] => destruct b end;
        cbn [fst snd]; [apply (Hs fl4); exact H4 | exact H4]. }
    destruct (data_send_step w4 fl4 tr4) as [[w5 fl5] tr5]. cbn [fst snd] in H5.
    destruct (c_true (Z.land (flags (w_conn w5)) (Z.lor CO_FL_HANDSHAKE CO_FL_ERROR)));
      [now apply IH|].
    destruct (c_true (Z.land (flags (w_conn w5)) CO_FL_WAIT_L4_CONN)); exact H5. }
  destruct (c_true (Z.land (flags (w_conn w2)) CO_FL_INIT_DATA)).
  - destruct (data_init w2) as [r w3].
    destruct (r <? 0); [eexists; apply Hi; exact H|].
    apply Step. now apply Hi.
  - cbn [Z.ltb Z.compare]. now apply Step.
Qed.

(** The only [return] before [leave], for a descriptor with an owner,
    follows a call of [data->init] that returned a negative value. *)
Lemma process_handshake_returned fuel : forall (w : world E) fl tr wr tr',
  process_handshake fuel w fl tr = Returned wr tr' ->
  exists tr0 w2 r,
    tr' = tr0 ++ [Ev_data_init (flags (w_conn w2))] /\
    data_init w2 = (r, wr) /\ r < 0.
Proof.
  induction fuel as [|fuel IH]; intros w fl tr wr tr';
    cbn [process_handshake]; [discriminate|].
  destruct (handshake_loop fuel w) as [[[|] w1]|]; try discriminate.
  set (w2 := if negb (c_true (Z.land (flags (w_conn w1)) CO_FL_POLL_SOCK))
             then set_conn w1 (__conn_sock_stop_both (w_conn w1)) else w1).
  assert (Step : forall (w3 : world E) tr3,
    (let '(w, flags_, tr) := data_recv_step w3 fl tr3 in
     let '(w, flags_, tr) := data_send_step w flags_ tr in
     if c_true (Z.land (flags (w_conn w)) (Z.lor CO_FL_HANDSHAKE CO_FL_ERROR))
     then process_handshake fuel w flags_ tr
     else if c_true (Z.land (flags (w_conn w)) CO_FL_WAIT_L4_CONN)
     then At_leave (snd (tcp_connect_probe w)) flags_ tr
     else At_leave w flags_ tr) = Returned wr tr' ->
    exists tr0 w2 r,
      tr' = tr0 ++ [Ev_data_init (flags (w_conn w2))] /\
      data_init w2 = (r, wr) /\ r < 0).
  { intros w3 tr3.
    destruct (data_recv_step w3 fl tr3) as [[w4 fl4] tr4].
    destruct (data_send_step w4 fl4 tr4) as [[w5 fl5] tr5].
    destruct (c_true (Z.land (flags (w_conn w5)) (Z.lor CO_FL_HANDSHAKE CO_FL_ERROR)));
      [apply IH|].
    destruct (c_true (Z.land (flags (w_conn w5)) CO_FL_WAIT_L4_CONN));
      discriminate. }
  destruct (c_true (Z.land (flags (w_conn w2)) CO_FL_INIT_DATA)).
  - destruct (data_init w2) as [r w3] eqn:Di.
    destruct (Z.ltb_spec r 0); [|apply Step].
    intros Hr. injection Hr as <- <-. exists tr, w2, r. auto.
  - cbn [Z.ltb Z.compare]. apply Step.
Qed.

End DriverCalls.

(** X19. The data layer is woken up once at most in an entry, and last:
    the events of an entry of [conn_fd_handler] are calls of
    [data->init], [data->recv] and [data->send], followed by one call of
    [data->wake] or by none. *)
Theorem conn_fd_handler_wake_last
  {L : co_layout} {CL : ctrl_layer} {LC : libc_inet6}
  {E : Type} {K : kernel E} {CB : callbacks E} (fuel : nat) (w : world E) :
  exists tr,
    Forall (fun ev => is_wake ev = false) tr /\
    (conn_fd_handler_events fuel w = tr \/
     exists f, conn_fd_handler_events fuel w = tr ++ [Ev_data_wake f]).
Proof.
  unfold conn_fd_handler_events, conn_fd_handler_enter.
  destruct (negb (w_owner w)); [exists []; split; [constructor | now left]|].
  set (w0 := conn_refresh_polling_flags w).
  pose proof (process_handshake_keeps
                (fun _ tr => Forall (fun ev => is_wake ev = false) tr)
                ltac:(intros; apply Forall_app; split; [assumption | now constructor])
                ltac:(intros; apply Forall_app; split; [assumption | now constructor])
                ltac:(intros; apply Forall_app; split; [assumption | now constructor])
                fuel w0 (Z.land (flags (w_conn w0)) (Z.lnot CO_FL_ERROR)) []
                ltac:(constructor)) as H.
  cbv beta in H.
  destruct (process_handshake fuel w0 _ []) as [wl fl tr | wr tr | tr].
  - exists tr. split; [exact H|]. unfold conn_fd_handler_leave.
    match goal with |- context [if ?b then _ else _] => destruct b end.
    + right. exists (flags (w_conn wl)).
      destruct (data_wake wl) as [r w']. destruct (r <? 0); reflexivity.
    + left. cbn [Z.ltb Z.compare snd]. reflexivity.
  - destruct H as (_ & H). exists tr. auto.
  - destruct H as (_ & H). exists tr. auto.
Qed.

(** X20. When [data->init] fails the entry ends there: for a descriptor
    with an owner, the only way out of [conn_fd_handler] before [leave] is
    a call of [data->init] that returned a negative value; that call is
    the last event of the entry, and the world is the one it left:
    neither [data->recv], [data->send] nor [data->wake] is called after
    it, and the polling changes are not committed. *)
Theorem conn_fd_handler_init_fails
  {L : co_layout} {CL : ctrl_layer} {LC : libc_inet6}
  {E : Type} {K : kernel E} {CB : callbacks E}
  (fuel : nat) (w wr : world E) (tr : list event) :
  w_owner w = true ->
  conn_fd_handler_enter fuel w = Returned wr tr ->
  (exists tr0 w2 r,
     tr = tr0 ++ [Ev_data_init (flags (w_conn w2))] /\
     data_init w2 = (r, wr) /\ r < 0) /\
  conn_fd_handler fuel w = Some (wr, tr).
Proof.
  intros Ho H. split.
  - unfold conn_fd_handler_enter in H. rewrite Ho in H. cbn [negb] in H.
    now apply process_handshake_returned in H.
  - unfold conn_fd_handler. now rewrite H.
Qed.

(** X21. After a call of [data->recv] or [data->send] the data layer is
    woken up: the local variable [flags] is then
    [WAIT_L4_CONN | CONNECTED], so when control reaches [leave] with
    [WAKE_DATA] set and with the flags of the connection not holding both
    [WAIT_L4_CONN] and [CONNECTED], the XOR of line 134 is not null and
    [data->wake] is called.  The mask [CO_FL_CONN_STATE] is declared in
    types/connection.h; it is assumed to cover these two flags, as the
    comment of lines 97-99 relies on. *)
Theorem conn_fd_handler_wakes_after_data
  {L : co_layout} (OK : layout_ok L) {CL : ctrl_layer} {LC : libc_inet6}
  {E : Type} {K : kernel E} {CB : callbacks E}
  (fuel : nat) (w wl : world E) (flags_ : Z) (tr : list event) :
  flag_on CO_FL_CONN_STATE F_WAIT_L4_CONN = true ->
  flag_on CO_FL_CONN_STATE F_CONNECTED = true ->
  conn_fd_handler_enter fuel w = At_leave wl flags_ tr ->
  existsb is_data tr = true ->
  flag_on (flags (w_conn wl)) F_WAKE_DATA = true ->
  flag_on (flags (w_conn wl)) F_WAIT_L4_CONN = false \/
  flag_on (flags (w_conn wl)) F_CONNECTED = false ->
  flags_ = Z.lor CO_FL_WAIT_L4_CONN CO_FL_CONNECTED /\
  conn_fd_handler_events fuel w = tr ++ [Ev_data_wake (flags (w_conn wl))].
Proof.
  intros M4 Mc He Hd Hw Hn.
  assert (S : flags_ = Z.lor CO_FL_WAIT_L4_CONN CO_FL_CONNECTED).
  { unfold conn_fd_handler_enter in He.
    destruct (negb (w_owner w)); [discriminate|].
    set (w0 := conn_refresh_polling_flags w) in *.
    pose proof (process_handshake_keeps
                  (fun fl tr => existsb is_data tr = true ->
                                fl = Z.lor CO_FL_WAIT_L4_CONN CO_FL_CONNECTED)
                  ltac:(intros fl0 tr0 f I0; cbv beta in *;
                        rewrite existsb_app; cbn; rewrite orb_false_r;
                        exact I0)
                  ltac:(intros; cbv beta; intros; reflexivity)
                  ltac:(intros; cbv beta; intros; reflexivity)
                  fuel w0 (Z.land (flags (w_conn w0)) (Z.lnot CO_FL_ERROR)) []
                  ltac:(discriminate)) as H.
    cbv beta in H. rewrite He in H. now apply H. }
  split; [exact S|]. subst flags_.
  unfold conn_fd_handler_events. rewrite He. unfold conn_fd_handler_leave.
  unfold CO_FL_WAKE_DATA at 1. rewrite (c_true_flag OK), Hw. cbn [andb].
  assert (X : c_true (Z.land (Z.lxor (flags (w_conn wl))
                                (Z.lor CO_FL_WAIT_L4_CONN CO_FL_CONNECTED))
                        CO_FL_CONN_STATE) = true).
  { destruct Hn as [Hn|Hn].
    - apply (c_true_land_flag _ _ F_WAIT_L4_CONN); [|exact M4].
      rewrite flag_on_lxor, Hn. unfold_flags. flag_simpl OK. reflexivity.
    - apply (c_true_land_flag _ _ F_CONNECTED); [|exact Mc].
      rewrite flag_on_lxor, Hn. unfold_flags. flag_simpl OK. reflexivity. }
  rewrite X. destruct (data_wake wl) as [r w']. destruct (r <? 0); reflexivity.
Qed.

(** X22. A PROXY header accepted ends the handshake phase in the same
    entry: on a connection whose only pending handshake is
    [ACCEPT_PROXY], with no [ERROR], when [conn_recv_proxy] returns 1 the
    [while] loop of lines 61-77 ends without going to [leave], no other
    handshake handler being called, and control reaches the data phase
    with the connection as [conn_recv_proxy] left it: the flags on entry
    with [ADDR_FROM_SET] and [ADDR_TO_SET] set and [ACCEPT_PROXY]
    cleared. *)
Theorem conn_fd_handler_header_ends_handshake
  {L : co_layout} (OK : layout_ok L) {CL : ctrl_layer} {LC : libc_inet6}
  {E : Type} {K : kernel E} {CB : callbacks E} (fuel : nat) (w0 : world E) :
  let f := flags (w_conn w0) in
  flag_on f F_ERROR = false -> flag_on f F_ACCEPT_PROXY = true ->
  flag_on f F_SEND_PROXY = false -> flag_on f F_SSL_WAIT_HS = false ->
  fst (conn_recv_proxy w0 CO_FL_ACCEPT_PROXY) = 1 ->
  let w1 := snd (conn_recv_proxy w0 CO_FL_ACCEPT_PROXY) in
  handshake_loop (S (S fuel)) w0 = Some (false, w1) /\
  flags (w_conn w1) =
    Z.land (Z.lor f (Z.lor CO_FL_ADDR_FROM_SET CO_FL_ADDR_TO_SET))
      (Z.lnot CO_FL_ACCEPT_PROXY).
Proof.
  intros f He Ha Hs Hl H1 w1.
  assert (F1 : flags (w_conn w1) =
               Z.land (Z.lor f (Z.lor CO_FL_ADDR_FROM_SET CO_FL_ADDR_TO_SET))
                 (Z.lnot CO_FL_ACCEPT_PROXY)).
  { destruct (conn_recv_proxy_cases OK w0 CO_FL_ACCEPT_PROXY)
      as [(_ & F & _) | [(R & _) | (R & _)]];
      [exact F | rewrite H1 in R; discriminate | rewrite H1 in R; discriminate]. }
  split; [|exact F1].
  assert (B : forall x, x <> F_ACCEPT_PROXY -> x <> F_ADDR_FROM_SET ->
                x <> F_ADDR_TO_SET ->
                flag_on (flags (w_conn w1)) x = flag_on f x).
  { intros x X1 X2 X3. rewrite F1. unfold_flags. flag_simpl OK.
    destruct x; try congruence; cbn;
      rewrite ?orb_false_r, ?andb_true_r; reflexivity. }
  assert (A1 : flag_on (flags (w_conn w1)) F_ACCEPT_PROXY = false).
  { rewrite F1. unfold_flags. flag_simpl OK. reflexivity. }
  cbn [handshake_loop]. fold f.
  rewrite (c_true_land_flag f _ F_ACCEPT_PROXY Ha
             (handshake_mask_flag OK F_ACCEPT_PROXY ltac:(auto))).
  unfold CO_FL_ERROR at 1. rewrite (c_true_flag OK), He.
  unfold CO_FL_ACCEPT_PROXY at 1. rewrite (c_true_flag OK), Ha.
  destruct (conn_recv_proxy w0 CO_FL_ACCEPT_PROXY) as [r w1'] eqn:R.
  cbn [fst snd] in *. subst r w1. cbn [Z.eqb].
  unfold CO_FL_SEND_PROXY at 1. rewrite (c_true_flag OK), B, Hs by discriminate.
  cbn [Z.eqb].
  unfold CO_FL_SSL_WAIT_HS at 1. rewrite (c_true_flag OK), B, Hl by discriminate.
  rewrite andb_false_r. cbn [Z.eqb].
  rewrite (handshake_mask_clear OK); [reflexivity | | exact A1 | |];
    rewrite B by discriminate; assumption.
Qed.

(* ------------------------------------------------------------------ *)
(** ** The further properties on concrete worlds *)

(** The connection of the reconciler's example, reconciled once and
    twice. *)
Lemma conn_update_polling_settles_witness :
  layout_ok haproxy_layout /\
  conn_ctrl_ready (ctrl_layer := haproxy_ctrl) (conn_with 0x142) = true /\
  let fd := flags (fst (conn_update_data_polling (L := haproxy_layout)
                          (CL := haproxy_ctrl) (conn_with 0x142))) in
  let fs := flags (fst (conn_update_sock_polling (L := haproxy_layout)
                          (CL := haproxy_ctrl) (conn_with 0x142))) in
  (flag_on (L := haproxy_layout) fd F_CURR_RD_ENA =
     flag_on (L := haproxy_layout) (flags (conn_with 0x142)) F_DATA_RD_ENA /\
   flag_on (L := haproxy_layout) fd F_CURR_WR_ENA =
     flag_on (L := haproxy_layout) (flags (conn_with 0x142)) F_DATA_WR_ENA /\
   flag_on (L := haproxy_layout) fd F_DATA_RD_ENA =
     flag_on (L := haproxy_layout) (flags (conn_with 0x142)) F_DATA_RD_ENA /\
   flag_on (L := haproxy_layout) fd F_DATA_WR_ENA =
     flag_on (L := haproxy_layout) (flags (conn_with 0x142)) F_DATA_WR_ENA) /\
  (flag_on (L := haproxy_layout) fs F_CURR_RD_ENA =
     flag_on (L := haproxy_layout) (flags (conn_with 0x142)) F_SOCK_RD_ENA /\
   flag_on (L := haproxy_layout) fs F_CURR_WR_ENA =
     flag_on (L := haproxy_layout) (flags (conn_with 0x142)) F_SOCK_WR_ENA /\
   flag_on (L := haproxy_layout) fs F_SOCK_RD_ENA =
     flag_on (L := haproxy_layout) (flags (conn_with 0x142)) F_SOCK_RD_ENA /\
   flag_on (L := haproxy_layout) fs F_SOCK_WR_ENA =
     flag_on (L := haproxy_layout) (flags (conn_with 0x142)) F_SOCK_WR_ENA).
Proof.
  split; [exact haproxy_layout_ok|]. split; [reflexivity|].
  apply (conn_update_polling_settles (L := haproxy_layout) haproxy_layout_ok
           (CL := haproxy_ctrl) (conn_with 0x142)).
  reflexivity.
Defined.

Lemma conn_update_polling_idempotent_witness :
  layout_ok haproxy_layout /\
  conn_update_data_polling (L := haproxy_layout) (CL := haproxy_ctrl)
    (fst (conn_update_data_polling (L := haproxy_layout) (CL := haproxy_ctrl)
            (conn_with 0x142)))
  = (fst (conn_update_data_polling (L := haproxy_layout) (CL := haproxy_ctrl)
            (conn_with 0x142)), []) /\
  conn_update_sock_polling (L := haproxy_layout) (CL := haproxy_ctrl)
    (fst (conn_update_sock_polling (L := haproxy_layout) (CL := haproxy_ctrl)
            (conn_with 0x142)))
  = (fst (conn_update_sock_polling (L := haproxy_layout) (CL := haproxy_ctrl)
            (conn_with 0x142)), []).
Proof.
  split; [exact haproxy_layout_ok|].
  exact (conn_update_polling_idempotent (L := haproxy_layout) haproxy_layout_ok
           (CL := haproxy_ctrl) (conn_with 0x142)).
Defined.

(** The three ways out, on the first scenario of the spec. *)
Lemma conn_recv_proxy_outcomes_witness :
  layout_ok haproxy_layout /\
  let r := conn_recv_proxy (L := haproxy_layout) (CL := haproxy_ctrl)
             (LC := sample_inet6) (K := queue_kernel) accept_world
             (CO_FL_ACCEPT_PROXY (L := haproxy_layout)) in
  let c := w_conn accept_world in
  let c' := w_conn (snd r) in
  (fst r = 1 /\
   flags c' = Z.land (Z.lor (flags c)
                        (Z.lor (CO_FL_ADDR_FROM_SET (L := haproxy_layout))
                           (CO_FL_ADDR_TO_SET (L := haproxy_layout))))
                (Z.lnot (CO_FL_ACCEPT_PROXY (L := haproxy_layout))) /\
   err_code c' = err_code c)
  \/
  (fst r = 0 /\
   flag_on (L := haproxy_layout) (flags c') F_ERROR = true /\
   flag_on (L := haproxy_layout) (flags c') F_SOCK_RD_ENA = false /\
   flag_on (L := haproxy_layout) (flags c') F_SOCK_WR_ENA = false /\
   forall x, proxy_fail_bit x = false ->
     flag_on (L := haproxy_layout) (flags c') x =
     flag_on (L := haproxy_layout) (flags c) x)
  \/
  (fst r = 0 /\ c' = c).
Proof.
  split; [exact haproxy_layout_ok|].
  exact (conn_recv_proxy_outcomes (L := haproxy_layout) haproxy_layout_ok
           (CL := haproxy_ctrl) (LC := sample_inet6) (K := queue_kernel)
           accept_world (CO_FL_ACCEPT_PROXY (L := haproxy_layout))).
Defined.

(** A valid line is queued, but a shutdown for reading was seen: nothing
    is read. *)
Lemma conn_recv_proxy_without_read_witness :
  layout_ok haproxy_layout /\
  flag_on (L := haproxy_layout) (flags (w_conn shut_world)) F_SOCK_RD_SH = true /\
  let r := conn_recv_proxy (L := haproxy_layout) (CL := haproxy_ctrl)
             (LC := sample_inet6) (K := queue_kernel) shut_world
             (CO_FL_ACCEPT_PROXY (L := haproxy_layout)) in
  fst r = 0 /\
  proxy_failed (L := haproxy_layout) (w_conn (snd r))
    (err_code (w_conn shut_world)) /\
  w_ext (snd r) = w_ext shut_world /\ w_trash (snd r) = w_trash shut_world /\
  addr_from (w_conn (snd r)) = addr_from (w_conn shut_world) /\
  addr_to (w_conn (snd r)) = addr_to (w_conn shut_world).
Proof.
  split; [exact haproxy_layout_ok|]. split; [reflexivity|].
  apply (proj1 (conn_recv_proxy_without_read (L := haproxy_layout)
                  haproxy_layout_ok (CL := haproxy_ctrl) (LC := sample_inet6)
                  (K := queue_kernel) shut_world
                  (CO_FL_ACCEPT_PROXY (L := haproxy_layout)))).
  left. reflexivity.
Defined.

(** A peek interrupted by a signal, and a peek on a connection that was
    reset. *)
Lemma conn_recv_proxy_peek_fails_witness :
  layout_ok haproxy_layout /\
  flag_on (L := haproxy_layout) (flags (w_conn intr_peek_world)) F_SOCK_RD_SH
  = false /\
  conn_ctrl_ready (ctrl_layer := haproxy_ctrl) (w_conn intr_peek_world) = true /\
  fd_recv_ready intr_peek_world = true /\
  sys_recv (kernel := script_kernel) (w_ext intr_peek_world)
    (sock_fd (w_conn intr_peek_world)) (size (w_trash intr_peek_world)) MSG_PEEK
  = (recv_fail EINTR, []) /\
  proxy_failed (L := haproxy_layout)
    (w_conn (snd (conn_recv_proxy (L := haproxy_layout) (CL := haproxy_ctrl)
                    (LC := sample_inet6) (K := script_kernel) intr_peek_world
                    (CO_FL_ACCEPT_PROXY (L := haproxy_layout)))))
    CO_ER_PRX_TRUNCATED /\
  proxy_failed (L := haproxy_layout)
    (w_conn (snd (conn_recv_proxy (L := haproxy_layout) (CL := haproxy_ctrl)
                    (LC := sample_inet6) (K := script_kernel) reset_peek_world
                    (CO_FL_ACCEPT_PROXY (L := haproxy_layout)))))
    CO_ER_PRX_ABORT.
Proof.
  split; [exact haproxy_layout_ok|]. split; [reflexivity|].
  split; [reflexivity|]. split; [reflexivity|]. split; [reflexivity|]. split.
  - apply (proj1 (proj2 (proj2 (proj2
             (conn_recv_proxy_peek_fails (L := haproxy_layout)
                haproxy_layout_ok (CL := haproxy_ctrl) (LC := sample_inet6)
                (K := script_kernel) intr_peek_world
                (CO_FL_ACCEPT_PROXY (L := haproxy_layout)) EINTR []
                eq_refl eq_refl eq_refl eq_refl)))) eq_refl).
  - apply (proj2 (proj2 (proj2 (proj2
             (conn_recv_proxy_peek_fails (L := haproxy_layout)
                haproxy_layout_ok (CL := haproxy_ctrl) (LC := sample_inet6)
                (K := script_kernel) reset_peek_world
                (CO_FL_ACCEPT_PROXY (L := haproxy_layout)) 104 []
                eq_refl eq_refl eq_refl eq_refl)))));
      cbv; discriminate.
Defined.

(** An HTTP request instead of a PROXY header, and a connection closed by
    the client. *)
Lemma conn_recv_proxy_not_header_witness :
  layout_ok haproxy_layout /\
  peeks (L := haproxy_layout) (CL := haproxy_ctrl) (K := queue_kernel)
    get_world line_get line_get /\
  6 <= Z.of_nat (length line_get) /\
  firstn 6 line_get <> bytes "PROXY " /\
  proxy_failed (L := haproxy_layout)
    (w_conn (snd (conn_recv_proxy (L := haproxy_layout) (CL := haproxy_ctrl)
                    (LC := sample_inet6) (K := queue_kernel) get_world
                    (CO_FL_ACCEPT_PROXY (L := haproxy_layout)))))
    CO_ER_PRX_NOT_HDR /\
  peeks (L := haproxy_layout) (CL := haproxy_ctrl) (K := script_kernel)
    closed_world [] [] /\
  proxy_failed (L := haproxy_layout)
    (w_conn (snd (conn_recv_proxy (L := haproxy_layout) (CL := haproxy_ctrl)
                    (LC := sample_inet6) (K := script_kernel) closed_world
                    (CO_FL_ACCEPT_PROXY (L := haproxy_layout)))))
    CO_ER_PRX_EMPTY.
Proof.
  split; [exact haproxy_layout_ok|]. split; [repeat split|].
  split; [cbv; discriminate|]. split; [cbv; discriminate|]. split; [|split].
  - apply (proj1 (proj2
             (conn_recv_proxy_not_header (L := haproxy_layout)
                haproxy_layout_ok (CL := haproxy_ctrl) (LC := sample_inet6)
                (K := queue_kernel) get_world
                (CO_FL_ACCEPT_PROXY (L := haproxy_layout)) line_get line_get
                ltac:(repeat split))));
      cbv; discriminate.
  - repeat split.
  - apply (proj1
             (conn_recv_proxy_not_header (L := haproxy_layout)
                haproxy_layout_ok (CL := haproxy_ctrl) (LC := sample_inet6)
                (K := script_kernel) closed_world
                (CO_FL_ACCEPT_PROXY (L := haproxy_layout)) [] []
                ltac:(repeat split))).
    reflexivity.
Defined.

(** The first scenario of the spec, with a second read that is
    interrupted. *)
Lemma conn_recv_proxy_reread_interrupted_witness :
  layout_ok haproxy_layout /\
  peeks (L := haproxy_layout) (CL := haproxy_ctrl) (K := script_kernel)
    intr_world line_tcp4 [recv_fail EINTR] /\
  proxy_header (L := haproxy_layout) (LC := sample_inet6)
    (after_peek intr_world (recv_ok line_tcp4) [recv_fail EINTR])
  = inr (intr_world_valid, 47) /\
  sys_recv (kernel := script_kernel) [recv_fail EINTR] 7 47 0
  = (recv_fail EINTR, []) /\
  let r := conn_recv_proxy (L := haproxy_layout) (CL := haproxy_ctrl)
             (LC := sample_inet6) (K := script_kernel) intr_world
             (CO_FL_ACCEPT_PROXY (L := haproxy_layout)) in
  let c' := w_conn (snd r) in
  fst r = 1 /\
  flags c' = Z.land (Z.lor (flags (w_conn intr_world))
                       (Z.lor (CO_FL_ADDR_FROM_SET (L := haproxy_layout))
                          (CO_FL_ADDR_TO_SET (L := haproxy_layout))))
               (Z.lnot (CO_FL_ACCEPT_PROXY (L := haproxy_layout))) /\
  err_code c' = err_code (w_conn intr_world) /\
  w_ext (snd r) = [].
Proof.
  split; [exact haproxy_layout_ok|]. split; [repeat split|].
  split; [reflexivity|]. split; [reflexivity|].
  apply (conn_recv_proxy_reread_interrupted (L := haproxy_layout)
           haproxy_layout_ok (CL := haproxy_ctrl) (LC := sample_inet6)
           (K := script_kernel) intr_world
           (CO_FL_ACCEPT_PROXY (L := haproxy_layout))
           line_tcp4 [recv_fail EINTR] intr_world_valid 47 []);
    [ repeat split | reflexivity | reflexivity ].
Defined.

Lemma digits_56324 : Forall is_digit (bytes "56324").
Proof. cbn; unfold is_digit; solve_forall. Qed.

Lemma digits_443 : Forall is_digit (bytes "443").
Proof. cbn; unfold is_digit; solve_forall. Qed.

Lemma digits_40000 : Forall is_digit (bytes "40000").
Proof. cbn; unfold is_digit; solve_forall. Qed.

(** The peek gives the first 30 bytes of the TCP4 line of the first
    scenario. *)
Lemma conn_recv_proxy_tcp4_cut_witness :
  layout_ok haproxy_layout /\
  is_bytes 4 ip4_a /\ is_bytes 4 ip4_b /\
  Forall is_digit (bytes "56324") /\ Forall is_digit (bytes "443") /\
  tcp4_line ip4_a ip4_b (bytes "56324") (bytes "443")
  = firstn 30 line_tcp4 ++ skipn 30 line_tcp4 /\
  firstn 30 line_tcp4 <> [] /\ skipn 30 line_tcp4 <> [] /\
  peeks (L := haproxy_layout) (CL := haproxy_ctrl) (K := queue_kernel)
    cut4_world (firstn 30 line_tcp4) (firstn 30 line_tcp4) /\
  let r := conn_recv_proxy (L := haproxy_layout) (CL := haproxy_ctrl)
             (LC := sample_inet6) (K := queue_kernel) cut4_world
             (CO_FL_ACCEPT_PROXY (L := haproxy_layout)) in
  let c' := w_conn (snd r) in
  fst r = 0 /\ proxy_failed (L := haproxy_layout) c' CO_ER_PRX_TRUNCATED /\
  w_ext (snd r) = firstn 30 line_tcp4 /\
  addr_from c' = addr_from (w_conn cut4_world) /\
  addr_to c' = addr_to (w_conn cut4_world).
Proof.
  split; [exact haproxy_layout_ok|].
  split; [exact ip4_a_bytes|]. split; [exact ip4_b_bytes|].
  split; [exact digits_56324|]. split; [exact digits_443|].
  split; [reflexivity|]. split; [cbv; discriminate|].
  split; [cbv; discriminate|]. split; [repeat split|].
  apply (conn_recv_proxy_tcp4_cut (L := haproxy_layout) haproxy_layout_ok
           (CL := haproxy_ctrl) (LC := sample_inet6) (K := queue_kernel)
           cut4_world (CO_FL_ACCEPT_PROXY (L := haproxy_layout))
           ip4_a ip4_b (bytes "56324") (bytes "443")
           (firstn 30 line_tcp4) (skipn 30 line_tcp4) (firstn 30 line_tcp4));
    [ exact ip4_a_bytes | exact ip4_b_bytes | exact digits_56324
    | exact digits_443 | reflexivity | cbv; discriminate | cbv; discriminate
    | repeat split ].
Defined.

(** The TCP4 line of the first scenario with a space before CR LF, and
    the same line ended by a bare LF that is the last byte peeked. *)
Lemma conn_recv_proxy_tcp4_bad_end_witness :
  layout_ok haproxy_layout /\
  is_bytes 4 ip4_a /\ is_bytes 4 ip4_b /\
  Forall is_digit (bytes "56324") /\ Forall is_digit (bytes "443") /\
  (0 <= 32 < 256 /\ ~ is_digit 32) /\ (0 <= 10 < 256 /\ ~ is_digit 10) /\
  peeks (L := haproxy_layout) (CL := haproxy_ctrl) (K := queue_kernel)
    space_world
    (bytes "PROXY TCP4 " ++ inet_ntop4 ip4_a ++ [32] ++ inet_ntop4 ip4_b ++
     [32] ++ bytes "56324" ++ [32] ++ bytes "443" ++ 32 :: [13; 10])
    line_tcp4_space /\
  (32 <> 13 \/ 13 <> 10) /\
  (let r := conn_recv_proxy (L := haproxy_layout) (CL := haproxy_ctrl)
              (LC := sample_inet6) (K := queue_kernel) space_world
              (CO_FL_ACCEPT_PROXY (L := haproxy_layout)) in
   let c' := w_conn (snd r) in
   fst r = 0 /\ proxy_failed (L := haproxy_layout) c' CO_ER_PRX_BAD_HDR /\
   w_ext (snd r) = line_tcp4_space /\
   addr_from c' = addr_from (w_conn space_world) /\
   addr_to c' = addr_to (w_conn space_world)) /\
  peeks (L := haproxy_layout) (CL := haproxy_ctrl) (K := queue_kernel)
    bare_lf_world
    (bytes "PROXY TCP4 " ++ inet_ntop4 ip4_a ++ [32] ++ inet_ntop4 ip4_b ++
     [32] ++ bytes "56324" ++ [32] ++ bytes "443" ++ 10 :: [])
    line_tcp4_lf /\
  (let r := conn_recv_proxy (L := haproxy_layout) (CL := haproxy_ctrl)
              (LC := sample_inet6) (K := queue_kernel) bare_lf_world
              (CO_FL_ACCEPT_PROXY (L := haproxy_layout)) in
   let c' := w_conn (snd r) in
   fst r = 0 /\ proxy_failed (L := haproxy_layout) c' CO_ER_PRX_TRUNCATED /\
   w_ext (snd r) = line_tcp4_lf /\
   addr_from c' = addr_from (w_conn bare_lf_world) /\
   addr_to c' = addr_to (w_conn bare_lf_world)).
Proof.
  assert (N10 : ~ is_digit 10) by (unfold is_digit; lia).
  split; [exact haproxy_layout_ok|].
  split; [exact ip4_a_bytes|]. split; [exact ip4_b_bytes|].
  split; [exact digits_56324|]. split; [exact digits_443|].
  split; [split; [lia | exact not_digit_32]|].
  split; [split; [lia | exact N10]|].
  split; [repeat split|]. split; [left; lia|]. split; [|split].
  - apply (conn_recv_proxy_tcp4_bad_end (L := haproxy_layout) haproxy_layout_ok
             (CL := haproxy_ctrl) (LC := sample_inet6) (K := queue_kernel)
             space_world (CO_FL_ACCEPT_PROXY (L := haproxy_layout))
             ip4_a ip4_b (bytes "56324") (bytes "443") 32 [13; 10]
             line_tcp4_space);
      [ exact ip4_a_bytes | exact ip4_b_bytes | exact digits_56324
      | exact digits_443 | lia | exact not_digit_32 | repeat split
      | left; lia ].
  - repeat split.
  - apply (conn_recv_proxy_tcp4_bad_end (L := haproxy_layout) haproxy_layout_ok
             (CL := haproxy_ctrl) (LC := sample_inet6) (K := queue_kernel)
             bare_lf_world (CO_FL_ACCEPT_PROXY (L := haproxy_layout))
             ip4_a ip4_b (bytes "56324") (bytes "443") 10 []
             line_tcp4_lf);
      [ exact ip4_a_bytes | exact ip4_b_bytes | exact digits_56324
      | exact digits_443 | lia | exact N10 | repeat split ].
Defined.

(** A TCP6 line with the two addresses and no port. *)
Lemma conn_recv_proxy_tcp6_few_fields_witness :
  layout_ok haproxy_layout /\
  Forall (fun x => x <> 13) (bytes "2001:db8::1 2001:db8::2") /\
  (spaces (bytes "2001:db8::1 2001:db8::2") < 3)%nat /\
  (5 <= length (bytes "2001:db8::1 2001:db8::2"))%nat /\
  peeks (L := haproxy_layout) (CL := haproxy_ctrl) (K := queue_kernel)
    short6_world
    (bytes "PROXY TCP6 " ++ bytes "2001:db8::1 2001:db8::2" ++ [13; 10] ++ [])
    line_tcp6_short /\
  let r := conn_recv_proxy (L := haproxy_layout) (CL := haproxy_ctrl)
             (LC := sample_inet6) (K := queue_kernel) short6_world
             (CO_FL_ACCEPT_PROXY (L := haproxy_layout)) in
  let c' := w_conn (snd r) in
  fst r = 0 /\ proxy_failed (L := haproxy_layout) c' CO_ER_PRX_BAD_HDR /\
  w_ext (snd r) = line_tcp6_short /\
  addr_from c' = addr_from (w_conn short6_world) /\
  addr_to c' = addr_to (w_conn short6_world).
Proof.
  assert (B : Forall (fun x => x <> 13) (bytes "2001:db8::1 2001:db8::2"))
    by (cbn; solve_forall).
  split; [exact haproxy_layout_ok|]. split; [exact B|].
  split; [cbv; lia|]. split; [cbv; lia|]. split; [repeat split|].
  apply (conn_recv_proxy_tcp6_few_fields (L := haproxy_layout)
           haproxy_layout_ok (CL := haproxy_ctrl) (LC := sample_inet6)
           (K := queue_kernel) short6_world
           (CO_FL_ACCEPT_PROXY (L := haproxy_layout))
           (bytes "2001:db8::1 2001:db8::2") [] line_tcp6_short);
    [ exact B | cbv; lia | cbv; lia | repeat split ].
Defined.

(** The TCP6 line of the second scenario with text after the destination
    port: the 55 bytes of the line are taken from the socket. *)
Lemma conn_recv_proxy_tcp6_trailing_text_witness :
  layout_ok haproxy_layout /\
  is_field (bytes "2001:db8::1") /\ is_field (bytes "2001:db8::2") /\
  Forall is_digit (bytes "40000") /\ Forall is_digit (bytes "443") /\
  bytes "40000" <> [] /\ bytes "443" <> [] /\
  inet_pton6 (libc_inet6 := sample_inet6) (bytes "2001:db8::1") = Some ip6_a /\
  inet_pton6 (libc_inet6 := sample_inet6) (bytes "2001:db8::2") = Some ip6_b /\
  Forall (fun x => x <> 13) (bytes "and more") /\
  peeks (L := haproxy_layout) (CL := haproxy_ctrl) (K := queue_kernel)
    text6_world (line_tcp6_text ++ bytes "GET /")
    (line_tcp6_text ++ bytes "GET /") /\
  sys_recv (kernel := queue_kernel) (line_tcp6_text ++ bytes "GET /") 7 55 0
  = (recv_ok line_tcp6_text, bytes "GET /") /\
  length line_tcp6_text = 55%nat /\
  let r := conn_recv_proxy (L := haproxy_layout) (CL := haproxy_ctrl)
             (LC := sample_inet6) (K := queue_kernel) text6_world
             (CO_FL_ACCEPT_PROXY (L := haproxy_layout)) in
  let c2 := with_addrs6 (L := haproxy_layout) (w_conn text6_world) ip6_a ip6_b
              (dec_value (bytes "40000") mod 2 ^ 32)
              (dec_value (bytes "443") mod 2 ^ 32) in
  fst r = 1 /\
  w_conn (snd r) =
    set_flags c2 (Z.land (flags c2)
                    (Z.lnot (CO_FL_ACCEPT_PROXY (L := haproxy_layout)))) /\
  w_ext (snd r) = bytes "GET /" /\
  len (w_trash (snd r)) = 55.
Proof.
  assert (F1 : is_field (bytes "2001:db8::1"))
    by (unfold is_field; cbn; solve_forall).
  assert (F2 : is_field (bytes "2001:db8::2"))
    by (unfold is_field; cbn; solve_forall).
  assert (J : Forall (fun x => x <> 13) (bytes "and more"))
    by (cbn; solve_forall).
  split; [exact haproxy_layout_ok|]. split; [exact F1|]. split; [exact F2|].
  split; [exact digits_40000|]. split; [exact digits_443|].
  split; [discriminate|]. split; [discriminate|].
  split; [reflexivity|]. split; [reflexivity|]. split; [exact J|].
  split; [repeat split|]. split; [reflexivity|]. split; [reflexivity|].
  apply (conn_recv_proxy_tcp6_trailing_text (L := haproxy_layout)
           haproxy_layout_ok (CL := haproxy_ctrl) (LC := sample_inet6)
           (K := queue_kernel) text6_world
           (CO_FL_ACCEPT_PROXY (L := haproxy_layout))
           (bytes "2001:db8::1") (bytes "2001:db8::2") ip6_a ip6_b
           (bytes "40000") (bytes "443") (bytes "and more") (bytes "GET /")
           (line_tcp6_text ++ bytes "GET /") line_tcp6_text (bytes "GET /"));
    [ exact F1 | exact F2 | exact digits_40000 | exact digits_443
    | discriminate | discriminate | reflexivity | reflexivity | exact J
    | repeat split | reflexivity | reflexivity ].
Defined.

(** The peek gives the first 30 bytes of the TCP6 line of the second
    scenario. *)
Lemma conn_recv_proxy_tcp6_cut_witness :
  layout_ok haproxy_layout /\
  Forall (fun x => x <> 13) (bytes "2001:db8::1 2001:db8::2 40000 443") /\
  bytes "PROXY TCP6 " ++ bytes "2001:db8::1 2001:db8::2 40000 443" ++ [13; 10]
  = firstn 30 line_tcp6 ++ skipn 30 line_tcp6 /\
  firstn 30 line_tcp6 <> [] /\ skipn 30 line_tcp6 <> [] /\
  peeks (L := haproxy_layout) (CL := haproxy_ctrl) (K := queue_kernel)
    cut6_world (firstn 30 line_tcp6) (firstn 30 line_tcp6) /\
  let r := conn_recv_proxy (L := haproxy_layout) (CL := haproxy_ctrl)
             (LC := sample_inet6) (K := queue_kernel) cut6_world
             (CO_FL_ACCEPT_PROXY (L := haproxy_layout)) in
  let c' := w_conn (snd r) in
  fst r = 0 /\ proxy_failed (L := haproxy_layout) c' CO_ER_PRX_TRUNCATED /\
  w_ext (snd r) = firstn 30 line_tcp6 /\
  addr_from c' = addr_from (w_conn cut6_world) /\
  addr_to c' = addr_to (w_conn cut6_world).
Proof.
  assert (B : Forall (fun x => x <> 13)
                (bytes "2001:db8::1 2001:db8::2 40000 443"))
    by (cbn; solve_forall).
  split; [exact haproxy_layout_ok|]. split; [exact B|].
  split; [reflexivity|]. split; [cbv; discriminate|].
  split; [cbv; discriminate|]. split; [repeat split|].
  apply (conn_recv_proxy_tcp6_cut (L := haproxy_layout) haproxy_layout_ok
           (CL := haproxy_ctrl) (LC := sample_inet6) (K := queue_kernel)
           cut6_world (CO_FL_ACCEPT_PROXY (L := haproxy_layout))
           (bytes "2001:db8::1 2001:db8::2 40000 443")
           (firstn 30 line_tcp6) (skipn 30 line_tcp6) (firstn 30 line_tcp6));
    [ exact B | reflexivity | cbv; discriminate | cbv; discriminate
    | repeat split ].
Defined.

(** An IPv4 source with an IPv6 destination. *)
Lemma make_proxy_line_unknown_family_witness :
  (ss_family endpoint4_a <> ss_family endpoint6_a \/
   (ss_family endpoint4_a <> AF_INET /\ ss_family endpoint4_a <> AF_INET6)) /\
  make_proxy_line (LC := sample_inet6) 64 (Some endpoint4_a) (Some endpoint6_a)
  = (if 15 <? 64 then (15, bytes "PROXY UNKNOWN" ++ [13; 10])
     else (0, if 64 <? 0 then bytes "PROXY UNKNOWN" ++ [13; 10]
              else firstn (Z.to_nat (64 - 1))
                     (bytes "PROXY UNKNOWN" ++ [13; 10]))).
Proof.
  split; [left; cbv; discriminate|].
  apply (make_proxy_line_unknown_family (LC := sample_inet6) 64
           (Some endpoint4_a) (Some endpoint6_a)).
  left. cbv. discriminate.
Defined.

(** The two IPv4 endpoints of the first scenario with a buffer of 20
    bytes: the line does not fit, 0 is returned and 20 bytes at most were
    written. *)
Lemma make_proxy_line_bounds_witness :
  0 <= 20 /\
  let r := make_proxy_line (LC := sample_inet6) 20
             (Some endpoint4_a) (Some endpoint4_b) in
  Z.of_nat (length (snd r)) <= 20 /\
  (fst r = 0 \/ (0 < fst r < 20 /\ fst r = Z.of_nat (length (snd r)))).
Proof.
  split; [lia|].
  apply (make_proxy_line_bounds (LC := sample_inet6) 20
           (Some endpoint4_a) (Some endpoint4_b)).
  lia.
Defined.

(** The two IPv4 endpoints of the first scenario, with a buffer of 48
    bytes and with a buffer of 57 bytes. *)
Lemma make_proxy_line_fits_iff_witness :
  ss_family endpoint4_a = AF_INET /\ ss_family endpoint4_b = AF_INET /\
  let r := make_proxy_line (LC := sample_inet6) 48
             (Some endpoint4_a) (Some endpoint4_b) in
  let line := tcp4_line (sin_addr endpoint4_a) (sin_addr endpoint4_b)
                (utoa (ntohs (sin_port endpoint4_a)))
                (utoa (ntohs (sin_port endpoint4_b))) in
  (fst r <> 0 <-> Z.of_nat (length line) < 48) /\
  (fst r <> 0 -> r = (Z.of_nat (length line), line)).
Proof.
  split; [reflexivity|]. split; [reflexivity|].
  apply (proj1 (make_proxy_line_fits_iff (LC := sample_inet6) 48
                  endpoint4_a endpoint4_b)); reflexivity.
Defined.

Lemma make_proxy_line_tcp4_fits_57_witness :
  ss_family endpoint4_a = AF_INET /\ ss_family endpoint4_b = AF_INET /\
  is_bytes 4 (sin_addr endpoint4_a) /\ is_bytes 4 (sin_addr endpoint4_b) /\
  is_bytes 2 (sin_port endpoint4_a) /\ is_bytes 2 (sin_port endpoint4_b) /\
  let line := tcp4_line (sin_addr endpoint4_a) (sin_addr endpoint4_b)
                (utoa (ntohs (sin_port endpoint4_a)))
                (utoa (ntohs (sin_port endpoint4_b))) in
  (32 <= length line <= 56)%nat /\
  forall N, 57 <= N ->
    make_proxy_line (LC := sample_inet6) N (Some endpoint4_a) (Some endpoint4_b)
    = (Z.of_nat (length line), line).
Proof.
  assert (Pa : is_bytes 2 (sin_port endpoint4_a))
    by (split; [reflexivity | cbn; solve_forall]).
  assert (Pb : is_bytes 2 (sin_port endpoint4_b))
    by (split; [reflexivity | cbn; solve_forall]).
  split; [reflexivity|]. split; [reflexivity|].
  split; [exact ip4_a_bytes|]. split; [exact ip4_b_bytes|].
  split; [exact Pa|]. split; [exact Pb|].
  apply (make_proxy_line_tcp4_fits_57 (LC := sample_inet6)
           endpoint4_a endpoint4_b);
    [ reflexivity | reflexivity | exact ip4_a_bytes | exact ip4_b_bytes
    | exact Pa | exact Pb ].
Defined.

(** An entry of the driver on the connection with [ERROR] set. *)
Lemma conn_fd_handler_error_on_entry_witness :
  layout_ok haproxy_layout /\
  w_owner error_world = true /\
  flag_on (L := haproxy_layout)
    (flags (w_conn (conn_refresh_polling_flags
                      (callbacks := idle_callbacks unit) error_world)))
    F_ERROR = true /\
  conn_fd_handler_enter (L := haproxy_layout) (CL := haproxy_ctrl)
    (LC := sample_inet6) (K := no_kernel) (CB := idle_callbacks unit) 2
    error_world
  = At_leave
      (conn_refresh_polling_flags (callbacks := idle_callbacks unit) error_world)
      (Z.land (flags (w_conn (conn_refresh_polling_flags
                                (callbacks := idle_callbacks unit) error_world)))
         (Z.lnot (CO_FL_ERROR (L := haproxy_layout)))) [].
Proof.
  split; [exact haproxy_layout_ok|]. split; [reflexivity|].
  split; [reflexivity|].
  apply (proj2 (conn_fd_handler_error_on_entry (L := haproxy_layout)
                  haproxy_layout_ok (CL := haproxy_ctrl) (LC := sample_inet6)
                  (K := no_kernel) (CB := idle_callbacks unit) 0 error_world));
    reflexivity.
Defined.

(** An entry of the driver on a connection in the [ACCEPT_PROXY] handshake
    whose socket has nothing to read yet. *)
Lemma conn_fd_handler_handshake_pending_witness :
  layout_ok haproxy_layout /\
  w_owner (world_with flags_accept (@nil Z)) = true /\
  flag_on (L := haproxy_layout) flags_accept F_ERROR = false /\
  flag_on (L := haproxy_layout) flags_accept F_ACCEPT_PROXY = true /\
  conn_recv_proxy (L := haproxy_layout) (CL := haproxy_ctrl)
    (LC := sample_inet6) (K := queue_kernel) (world_with flags_accept [])
    (CO_FL_ACCEPT_PROXY (L := haproxy_layout))
  = (0, fd_cant_recv
          (after_peek (world_with flags_accept []) (recv_fail EAGAIN) [])) /\
  conn_fd_handler_enter (L := haproxy_layout) (CL := haproxy_ctrl)
    (LC := sample_inet6) (K := queue_kernel) (CB := idle_callbacks (list Z)) 2
    (world_with flags_accept [])
  = At_leave
      (fd_cant_recv
         (after_peek (world_with flags_accept []) (recv_fail EAGAIN) []))
      (Z.land flags_accept (Z.lnot (CO_FL_ERROR (L := haproxy_layout)))) [].
Proof.
  split; [exact haproxy_layout_ok|]. split; [reflexivity|].
  split; [reflexivity|]. split; [reflexivity|]. split; [reflexivity|].
  apply (conn_fd_handler_handshake_pending (L := haproxy_layout)
           haproxy_layout_ok (CL := haproxy_ctrl) (LC := sample_inet6)
           (K := queue_kernel) (CB := idle_callbacks (list Z)) 0
           (world_with flags_accept [])
           (fd_cant_recv
              (after_peek (world_with flags_accept []) (recv_fail EAGAIN) [])));
    [ reflexivity | reflexivity | left; split; reflexivity ].
Defined.

(** An entry of the driver with a data layer to initialise, whose [init]
    fails. *)
Lemma conn_fd_handler_init_fails_witness :
  w_owner (world_with flags_init tt) = true /\
  conn_fd_handler_enter (L := haproxy_layout) (CL := haproxy_ctrl)
    (LC := sample_inet6) (K := no_kernel) (CB := failing_init_callbacks unit) 2
    (world_with flags_init tt)
  = Returned (world_with flags_init tt) [Ev_data_init flags_init] /\
  (exists tr0 w2 r,
     [Ev_data_init flags_init] = tr0 ++ [Ev_data_init (flags (w_conn w2))] /\
     data_init (callbacks := failing_init_callbacks unit) w2
     = (r, world_with flags_init tt) /\ r < 0) /\
  conn_fd_handler (L := haproxy_layout) (CL := haproxy_ctrl)
    (LC := sample_inet6) (K := no_kernel) (CB := failing_init_callbacks unit) 2
    (world_with flags_init tt)
  = Some (world_with flags_init tt, [Ev_data_init flags_init]).
Proof.
  split; [reflexivity|]. split; [reflexivity|].
  apply (conn_fd_handler_init_fails (L := haproxy_layout) (CL := haproxy_ctrl)
           (LC := sample_inet6) (K := no_kernel)
           (CB := failing_init_callbacks unit) 2
           (world_with flags_init tt) (world_with flags_init tt)
           [Ev_data_init flags_init]); reflexivity.
Defined.

(** An entry of the driver that receives and sends, on a connection with
    [WAKE_DATA]. *)
Lemma conn_fd_handler_wakes_after_data_witness :
  layout_ok haproxy_layout /\
  flag_on (L := haproxy_layout) (CO_FL_CONN_STATE (co_layout := haproxy_layout))
    F_WAIT_L4_CONN = true /\
  flag_on (L := haproxy_layout) (CO_FL_CONN_STATE (co_layout := haproxy_layout))
    F_CONNECTED = true /\
  conn_fd_handler_enter (L := haproxy_layout) (CL := haproxy_ctrl)
    (LC := sample_inet6) (K := no_kernel) (CB := idle_callbacks unit) 2
    (world_with flags_wake tt)
  = At_leave (world_with flags_wake tt) 0x00600000
      [Ev_data_recv flags_wake; Ev_data_send flags_wake] /\
  existsb is_data [Ev_data_recv flags_wake; Ev_data_send flags_wake] = true /\
  flag_on (L := haproxy_layout) flags_wake F_WAKE_DATA = true /\
  flag_on (L := haproxy_layout) flags_wake F_WAIT_L4_CONN = false /\
  0x00600000 = Z.lor (CO_FL_WAIT_L4_CONN (L := haproxy_layout))
                 (CO_FL_CONNECTED (L := haproxy_layout)) /\
  conn_fd_handler_events (L := haproxy_layout) (CL := haproxy_ctrl)
    (LC := sample_inet6) (K := no_kernel) (CB := idle_callbacks unit) 2
    (world_with flags_wake tt)
  = [Ev_data_recv flags_wake; Ev_data_send flags_wake] ++
    [Ev_data_wake (flags (w_conn (world_with flags_wake tt)))].
Proof.
  split; [exact haproxy_layout_ok|]. split; [reflexivity|].
  split; [reflexivity|]. split; [reflexivity|]. split; [reflexivity|].
  split; [reflexivity|]. split; [reflexivity|].
  apply (conn_fd_handler_wakes_after_data (L := haproxy_layout)
           haproxy_layout_ok (CL := haproxy_ctrl) (LC := sample_inet6)
           (K := no_kernel) (CB := idle_callbacks unit) 2
           (world_with flags_wake tt) (world_with flags_wake tt) 0x00600000
           [Ev_data_recv flags_wake; Ev_data_send flags_wake]);
    [ reflexivity | reflexivity | reflexivity | reflexivity | reflexivity
    | left; reflexivity ].
Defined.

(** The first scenario of the spec, seen from the driver: the header is
    accepted and the handshake phase ends. *)
Lemma conn_fd_handler_header_ends_handshake_witness :
  layout_ok haproxy_layout /\
  flag_on (L := haproxy_layout) (flags (w_conn accept_world)) F_ERROR = false /\
  flag_on (L := haproxy_layout) (flags (w_conn accept_world)) F_ACCEPT_PROXY
  = true /\
  flag_on (L := haproxy_layout) (flags (w_conn accept_world)) F_SEND_PROXY
  = false /\
  flag_on (L := haproxy_layout) (flags (w_conn accept_world)) F_SSL_WAIT_HS
  = false /\
  fst (conn_recv_proxy (L := haproxy_layout) (CL := haproxy_ctrl)
         (LC := sample_inet6) (K := queue_kernel) accept_world
         (CO_FL_ACCEPT_PROXY (L := haproxy_layout))) = 1 /\
  let w1 := snd (conn_recv_proxy (L := haproxy_layout) (CL := haproxy_ctrl)
                   (LC := sample_inet6) (K := queue_kernel) accept_world
                   (CO_FL_ACCEPT_PROXY (L := haproxy_layout))) in
  handshake_loop (L := haproxy_layout) (CL := haproxy_ctrl)
    (LC := sample_inet6) (K := queue_kernel) (CB := idle_callbacks (list Z)) 2
    accept_world = Some (false, w1) /\
  flags (w_conn w1) =
    Z.land (Z.lor (flags (w_conn accept_world))
              (Z.lor (CO_FL_ADDR_FROM_SET (L := haproxy_layout))
                 (CO_FL_ADDR_TO_SET (L := haproxy_layout))))
      (Z.lnot (CO_FL_ACCEPT_PROXY (L := haproxy_layout))).
Proof.
  split; [exact haproxy_layout_ok|]. split; [reflexivity|].
  split; [reflexivity|]. split; [reflexivity|]. split; [reflexivity|].
  split; [reflexivity|].
  apply (conn_fd_handler_header_ends_handshake (L := haproxy_layout)
           haproxy_layout_ok (CL := haproxy_ctrl) (LC := sample_inet6)
           (K := queue_kernel) (CB := idle_callbacks (list Z)) 0 accept_world);
    reflexivity.
Defined.
